(** * Order lifecycle of the delivery cockpit (src/main.py)

    A shallow embedding of the order model, the [OrderController], the
    handlers of [ActionPanelWindow], the alert derivation of [OrderCard]
    and the route mode of [Dashboard], followed by the properties of the
    specification that they satisfy or break.

    Conventions of the embedding:
    - a Python [str] is the list of its Unicode code points ([pystr]);
      literals are written as Rocq strings and decoded from UTF-8 by [py];
    - a [FloatField] holds a binary64 float ([PrimFloat.float]);
    - a foreign key holds the primary key of the row it refers to;
    - a method that mutates its arguments, the database, or raises, is a
      function from the state before to an outcome and the state after;
      the state after a [raise] is the state at the point of the raise;
    - widget configuration (colours, labels, geometry) is not state of the
      order engine and is left out; the messages shown by [toast] are kept. *)

From Stdlib Require Import ZArith NArith List String Ascii Bool Lia Floats.
From stdpp Require Import base option list gmap sorting.
Import ListNotations.

Local Open Scope Z_scope.

(* ===================================================================== *)
(** ** Python strings *)
(* ===================================================================== *)

Definition pystr := list N.

(** UTF-8 decoding of a byte sequence: [pending] is the code point under
    construction and [need] the number of continuation bytes still due. *)
Fixpoint utf8_decode (pending : N) (need : nat) (bs : list N) : pystr :=
  match bs with
  | [] => []
  | b :: bs' =>
      match need with
      | O =>
          if (b <? 128)%N then b :: utf8_decode 0%N 0 bs'
          else if (b <? 224)%N then utf8_decode (N.land b 31) 1 bs'
          else if (b <? 240)%N then utf8_decode (N.land b 15) 2 bs'
          else utf8_decode (N.land b 7) 3 bs'
      | S k =>
          let cp := (pending * 64 + N.land b 63)%N in
          match k with
          | O => cp :: utf8_decode 0%N 0 bs'
          | S _ => utf8_decode cp k bs'
          end
      end
  end.

Fixpoint bytes_of_string (s : string) : list N :=
  match s with
  | EmptyString => []
  | String a s' => N_of_ascii a :: bytes_of_string s'
  end.

(** The Python string denoted by a literal of this file. *)
Definition py (s : string) : pystr := utf8_decode 0%N 0 (bytes_of_string s).

Definition str_eqb (s t : pystr) : bool := bool_decide (s = t).

(** [bool(s)] of a string: non-empty. *)
Definition truthy (s : pystr) : bool :=
  match s with [] => false | _ :: _ => true end.

(** [str.isspace] on one code point (the characters [str.strip] removes). *)
Definition isspace (c : N) : bool :=
  ((9 <=? c) && (c <=? 13) || (28 <=? c) && (c <=? 32)
   || (c =? 133) || (c =? 160) || (c =? 5760)
   || (8192 <=? c) && (c <=? 8202)
   || (c =? 8232) || (c =? 8233) || (c =? 8239) || (c =? 8287)
   || (c =? 12288))%N.

Fixpoint lstrip (s : pystr) : pystr :=
  match s with
  | [] => []
  | c :: s' => if isspace c then lstrip s' else s
  end.

(** [str.strip()] *)
Definition strip (s : pystr) : pystr := rev (lstrip (rev (lstrip s))).

(** [str.upper()] on one code point up to U+00FF, with the three
    Latin-1 letters whose upper case leaves the range. *)
Definition upper_cp_latin1 (c : N) : pystr :=
  (if (97 <=? c) && (c <=? 122) then [c - 32]
   else if c =? 181 then [924]
   else if c =? 223 then [83; 83]
   else if (224 <=? c) && (c <=? 254) && negb (c =? 247) then [c - 32]
   else if c =? 255 then [376]
   else [c])%N.

(** [str.upper()] for strings of code points up to U+00FF; it is the
    instance of [upper] at which the examples below are evaluated. *)
Definition upper_latin1 (s : pystr) : pystr := flat_map upper_cp_latin1 s.

(** The string constants of the program. *)
Definition BALCAO : pystr := py "BALCÃO".
Definition PIX : pystr := py "PIX".
Definition DINHEIRO : pystr := py "DINHEIRO".
Definition A_RECEBER : pystr := py "A RECEBER".
Definition PAGO : pystr := py "PAGO".
Definition NOVO : pystr := py "NOVO".
Definition PIX_PENDENTE : pystr := py "PIX PENDENTE".
Definition EM_PREPARO : pystr := py "EM PREPARO".
Definition EM_ROTA : pystr := py "EM ROTA".
Definition FINALIZADO : pystr := py "FINALIZADO".
Definition CANCELADO : pystr := py "CANCELADO".

(* ===================================================================== *)
(** ** Database models *)
(* ===================================================================== *)

Record Usuario := mkUsuario {
  usuario_id : Z;
  login : pystr;
  senha_hash : pystr;
  avatar : option pystr;
  admin : bool
}.

Record Motoboy := mkMotoboy {
  motoboy_id : Z;
  nome : pystr;
  ativo : bool
}.

Record Bairro := mkBairro {
  bairro_id : Z;
  bairro_nome : pystr;
  bairro_taxa_entrega : float
}.

(** [bairro] and [motoboy] are the foreign keys of the row ([None] is
    SQL NULL), [criado_em] a timestamp. *)
Record Pedido := mkPedido {
  pedido_id : Z;
  cliente : pystr;
  canal : pystr;
  status : pystr;
  valor_produtos : float;
  taxa_entrega : float;
  valor_total : float;
  bairro : option Z;
  motoboy : option Z;
  forma_pagamento : pystr;
  pix_confirmado : bool;
  observacao : option pystr;
  criado_em : Z
}.

Record LogAtividade := mkLog {
  log_usuario : option Z;
  acao : pystr;
  log_pedido : option Z;
  log_criado_em : Z
}.

(** Attribute assignments [pedido.<field> = v]. *)
Definition set_status (v : pystr) (p : Pedido) : Pedido :=
  mkPedido (pedido_id p) (cliente p) (canal p) v (valor_produtos p)
    (taxa_entrega p) (valor_total p) (bairro p) (motoboy p)
    (forma_pagamento p) (pix_confirmado p) (observacao p) (criado_em p).

Definition set_motoboy (v : option Z) (p : Pedido) : Pedido :=
  mkPedido (pedido_id p) (cliente p) (canal p) (status p) (valor_produtos p)
    (taxa_entrega p) (valor_total p) (bairro p) v
    (forma_pagamento p) (pix_confirmado p) (observacao p) (criado_em p).

Definition set_forma_pagamento (v : pystr) (p : Pedido) : Pedido :=
  mkPedido (pedido_id p) (cliente p) (canal p) (status p) (valor_produtos p)
    (taxa_entrega p) (valor_total p) (bairro p) (motoboy p)
    v (pix_confirmado p) (observacao p) (criado_em p).

Definition set_pix_confirmado (v : bool) (p : Pedido) : Pedido :=
  mkPedido (pedido_id p) (cliente p) (canal p) (status p) (valor_produtos p)
    (taxa_entrega p) (valor_total p) (bairro p) (motoboy p)
    (forma_pagamento p) v (observacao p) (criado_em p).

Definition set_observacao (v : option pystr) (p : Pedido) : Pedido :=
  mkPedido (pedido_id p) (cliente p) (canal p) (status p) (valor_produtos p)
    (taxa_entrega p) (valor_total p) (bairro p) (motoboy p)
    (forma_pagamento p) (pix_confirmado p) v (criado_em p).

(** The tables the order engine touches. [motoboy_table] and
    [bairro_table] list the rows in the order a [select()] yields them;
    [now] is the reading of [datetime.now] used for [criado_em]. *)
Record Database := mkDatabase {
  pedido_table : gmap Z Pedido;
  motoboy_table : list Motoboy;
  bairro_table : list Bairro;
  log_table : list LogAtividade;
  now : Z
}.

Definition with_pedido_table (t : gmap Z Pedido) (db : Database) : Database :=
  mkDatabase t (motoboy_table db) (bairro_table db) (log_table db) (now db).

Definition with_log_table (t : list LogAtividade) (db : Database) : Database :=
  mkDatabase (pedido_table db) (motoboy_table db) (bairro_table db) t (now db).

(* ===================================================================== *)
(** ** Methods as state transformers with exceptions *)
(* ===================================================================== *)

Inductive exn :=
| ValueError (msg : pystr)
| DoesNotExist
| IntegrityError (msg : pystr).

Inductive outcome (A : Type) :=
| Ok (a : A)
| Raise (e : exn).
Arguments Ok {A} a.
Arguments Raise {A} e.

Definition M (S A : Type) : Type := S -> outcome A * S.

#[global] Instance M_ret {S} : MRet (M S) := fun A a s => (Ok a, s).

#[global] Instance M_bind {S} : MBind (M S) := fun A B k m s =>
  match m s with
  | (Ok a, s') => k a s'
  | (Raise e, s') => (Raise e, s')
  end.

Definition raise {S A} (e : exn) : M S A := fun s => (Raise e, s).

Definition gets {S A} (f : S -> A) : M S A := fun s => (Ok (f s), s).

Definition modify {S} (f : S -> S) : M S unit := fun s => (Ok tt, f s).

(** [try: m except Exception as exc: h exc] *)
Definition try_except {S A} (m : M S A) (h : exn -> M S A) : M S A := fun s =>
  match m s with
  | (Ok a, s') => (Ok a, s')
  | (Raise e, s') => h e s'
  end.

(** [str(exc)]; the wording peewee gives to [DoesNotExist] is not
    reproduced. *)
Definition str_of_exn (e : exn) : pystr :=
  match e with
  | ValueError msg => msg
  | DoesNotExist => py "DoesNotExist"
  | IntegrityError msg => msg
  end.

(** *** peewee operations *)

(** [pedido.save()] of an instance that has a primary key: UPDATE of
    every field of the row with that key. *)
Definition Pedido_save (p : Pedido) (db : Database) : Database :=
  match pedido_table db !! pedido_id p with
  | Some _ => with_pedido_table (<[pedido_id p := p]> (pedido_table db)) db
  | None => db
  end.

(** [Pedido.get_by_id(i)] *)
Definition Pedido_get_by_id (i : Z) : M Database Pedido := fun db =>
  match pedido_table db !! i with
  | Some p => (Ok p, db)
  | None => (Raise DoesNotExist, db)
  end.

(** The key an [AutoField] gives to the next inserted row. *)
Definition next_pedido_id (t : gmap Z Pedido) : Z :=
  1 + map_fold (fun k _ acc => Z.max k acc) 0 t.

(** [LogAtividade.create(usuario=u, acao=a, pedido=p)] *)
Definition LogAtividade_create (u : option Usuario) (a : pystr)
    (p : option Pedido) (db : Database) : Database :=
  with_log_table
    (log_table db ++ [mkLog (usuario_id <$> u) a (pedido_id <$> p) (now db)])
    db.

(** [Motoboy.select().where(Motoboy.ativo == True)] *)
Definition active_motoboys (db : Database) : list Motoboy :=
  filter (fun m => ativo m = true) (motoboy_table db).

(** [Motoboy.get_or_none(Motoboy.nome == n)] *)
Definition Motoboy_get_or_none (n : pystr) (db : Database) : option Motoboy :=
  head (filter (fun m => nome m = n) (motoboy_table db)).

(** [Motoboy.get(Motoboy.nome == n)] *)
Definition Motoboy_get (n : pystr) : M Database Motoboy := fun db =>
  match Motoboy_get_or_none n db with
  | Some m => (Ok m, db)
  | None => (Raise DoesNotExist, db)
  end.

(** [Bairro.get_or_none(Bairro.nome == n)] *)
Definition Bairro_get_or_none (n : pystr) (db : Database) : option Bairro :=
  head (filter (fun b => bairro_nome b = n) (bairro_table db)).

(* ===================================================================== *)
(** ** OrderController *)
(* ===================================================================== *)

(** The state a controller method works on: the [Pedido] instance passed
    as [pedido] (mutated in place) and the database. *)
Record Ctl := mkCtl {
  this : Pedido;
  store : Database
}.

Definition set_attr (f : Pedido -> Pedido) : M Ctl unit :=
  modify (fun c => mkCtl (f (this c)) (store c)).

Definition save : M Ctl unit :=
  modify (fun c => mkCtl (this c) (Pedido_save (this c) (store c))).

Section OrderController.

(** [str.upper]; the methods are read for any such function. *)
Variable upper : pystr -> pystr.

(** [self.usuario] *)
Variable usuario : Usuario.

Definition log (a : pystr) (pedido : option Pedido) : M Database unit :=
  modify (LogAtividade_create (Some usuario) a pedido).

(** [self.log(a, pedido)] called on the instance at hand. *)
Definition log_this (a : pystr) : M Ctl unit :=
  modify (fun c => mkCtl (this c)
                     (LogAtividade_create (Some usuario) a (Some (this c)) (store c))).

Definition confirm_pix : M Ctl unit :=
  set_attr (set_pix_confirmado true);;
  st ← gets (fun c => status (this c));
  (if str_eqb st PIX_PENDENTE then set_attr (set_status EM_PREPARO) else mret tt);;
  save;;
  log_this (py "Confirmou PIX").

Definition assign_motoboy (m : Motoboy) (st : option pystr) : M Ctl unit :=
  cn ← gets (fun c => canal (this c));
  if str_eqb (upper cn) BALCAO
  then raise (ValueError (py "Pedido BALCÃO não pode receber motoboy."))
  else
    set_attr (set_motoboy (Some (motoboy_id m)));;
    (match st with
     | Some s => if truthy s then set_attr (set_status s) else mret tt
     | None => mret tt
     end);;
    save;;
    log_this (py "Atribuiu motoboy " ++ nome m).

Definition receive_payment : M Ctl unit :=
  set_attr (set_forma_pagamento PAGO);;
  save;;
  log_this (py "Recebeu pagamento").

Definition update_observation (obs : pystr) : M Ctl unit :=
  set_attr (set_observacao (Some obs));;
  save;;
  log_this (py "Atualizou observação").

End OrderController.

(* ===================================================================== *)
(** ** OrderCard: the alerts of a card *)
(* ===================================================================== *)

Definition PIX_PENDING_ALERT : pystr := py "⚠️ PIX PENDENTE".
Definition PAY_ON_PICKUP_ALERT : pystr := py "💰 PAGAR NA RETIRADA".
Definition HAS_NOTE_ALERT : pystr := py "❗ VER OBS".

(** [bool(order.observacao)]: neither [None] nor the empty string. *)
Definition has_observacao (order : Pedido) : bool :=
  match observacao order with
  | Some o => truthy o
  | None => false
  end.

Section OrderCard.

Variable upper : pystr -> pystr.

(** The list [alert_texts] that [refresh_ui_content] builds and joins
    into the alert label. *)
Definition alert_texts (order : Pedido) : list pystr :=
  let alert_texts := [] in
  let alert_texts :=
    if str_eqb (upper (forma_pagamento order)) PIX
       && negb (pix_confirmado order)
    then alert_texts ++ [PIX_PENDING_ALERT] else alert_texts in
  let alert_texts :=
    if str_eqb (upper (canal order)) BALCAO
       && str_eqb (upper (forma_pagamento order)) A_RECEBER
    then alert_texts ++ [PAY_ON_PICKUP_ALERT] else alert_texts in
  let alert_texts :=
    if has_observacao order
    then alert_texts ++ [HAS_NOTE_ALERT] else alert_texts in
  alert_texts.

End OrderCard.

(* ===================================================================== *)
(** ** ActionPanelWindow *)
(* ===================================================================== *)

Definition in_store {A} (m : M Database A) : M Ctl A := fun c =>
  let '(r, db') := m (store c) in (r, mkCtl (this c) db').

(** The handlers of the panel act on [self.order], which is also the
    [order] of the panel's card, and on the database; [this] is that
    instance. The buttons run them under [safe], which shows the message
    of an exception instead of propagating it. *)
Section ActionPanelWindow.

Variable upper : pystr -> pystr.
Variable usuario : Usuario.

(** [refresh]: the instance is read again from its row. *)
Definition panel_refresh : M Ctl unit :=
  i ← gets (fun c => pedido_id (this c));
  p ← in_store (Pedido_get_by_id i);
  modify (fun c => mkCtl p (store c)).

Definition panel_confirm_pix : M Ctl unit :=
  confirm_pix usuario;;
  panel_refresh.

Definition panel_receive_payment : M Ctl unit :=
  receive_payment usuario;;
  panel_refresh.

Definition panel_assign_motoboy (n : pystr) : M Ctl unit :=
  if truthy n then
    m ← gets (fun c => Motoboy_get_or_none n (store c));
    match m with
    | Some m => assign_motoboy upper usuario m None;; panel_refresh
    | None => mret tt
    end
  else mret tt.

(** [entry] is the content of [obs_entry]. *)
Definition save_observation (entry : pystr) : M Ctl unit :=
  let txt := strip entry in
  if truthy txt then
    update_observation usuario txt;;
    panel_refresh
  else mret tt.

Definition cancel_order : M Ctl unit :=
  set_attr (set_status CANCELADO);;
  save;;
  log_this usuario (py "Cancelou pedido");;
  panel_refresh.

End ActionPanelWindow.

(* ===================================================================== *)
(** ** Dashboard *)
(* ===================================================================== *)

(** [cards] holds the [order] of each card of [self.cards]; a card is
    named by its position. *)
Record Dashboard := mkDashboard {
  cards : list Pedido;
  selected_card : option nat;
  route_mode_active : bool;
  route_motoboy : option Motoboy;
  toasts : list pystr;
  db : Database
}.

Definition with_cards (v : list Pedido) (d : Dashboard) : Dashboard :=
  mkDashboard v (selected_card d) (route_mode_active d) (route_motoboy d)
    (toasts d) (db d).

Definition with_selected_card (v : option nat) (d : Dashboard) : Dashboard :=
  mkDashboard (cards d) v (route_mode_active d) (route_motoboy d)
    (toasts d) (db d).

Definition with_route_mode_active (v : bool) (d : Dashboard) : Dashboard :=
  mkDashboard (cards d) (selected_card d) v (route_motoboy d)
    (toasts d) (db d).

Definition with_route_motoboy (v : option Motoboy) (d : Dashboard) : Dashboard :=
  mkDashboard (cards d) (selected_card d) (route_mode_active d) v
    (toasts d) (db d).

Definition with_toasts (v : list pystr) (d : Dashboard) : Dashboard :=
  mkDashboard (cards d) (selected_card d) (route_mode_active d)
    (route_motoboy d) v (db d).

Definition with_db (v : Database) (d : Dashboard) : Dashboard :=
  mkDashboard (cards d) (selected_card d) (route_mode_active d)
    (route_motoboy d) (toasts d) v.

Definition in_db {A} (m : M Database A) : M Dashboard A := fun d =>
  let '(r, db') := m (db d) in (r, with_db db' d).

(** A controller or panel method run on the order of card [i]: the
    instance is the card's, so what the method does to it is seen through
    the card. There is nothing to run on a position that holds no card. *)
Definition on_card (i : nat) (m : M Ctl unit) : M Dashboard unit := fun d =>
  match cards d !! i with
  | Some p =>
      let '(r, c) := m (mkCtl p (db d)) in
      (r, with_db (store c) (with_cards (<[i := this c]> (cards d)) d))
  | None => (Ok tt, d)
  end.

Definition toast (text : pystr) : M Dashboard unit :=
  modify (fun d => with_toasts (toasts d ++ [text]) d).

(** The entries of the new-order window when [save_order] runs. *)
Record NewOrderForm := mkForm {
  form_cliente : pystr;
  form_canal : pystr;
  form_bairro : pystr;
  form_valor_produtos : pystr;
  form_taxa : pystr;
  form_forma : pystr
}.

(** [s or t] on strings *)
Definition str_or (s t : pystr) : pystr := if truthy s then s else t.

(** The three amounts of an order are [FloatField]s that are NOT NULL, and
    SQLite stores a NaN as NULL: an INSERT with a NaN amount fails, with
    the message of the first such column in the order of the table. *)
Definition not_null_failure (vp tx total : float) : option pystr :=
  if PrimFloat.is_nan vp
  then Some (py "NOT NULL constraint failed: pedido.valor_produtos")
  else if PrimFloat.is_nan tx
  then Some (py "NOT NULL constraint failed: pedido.taxa_entrega")
  else if PrimFloat.is_nan total
  then Some (py "NOT NULL constraint failed: pedido.valor_total")
  else None.

(** [Pedido.create(...)] with the fields [save_order] passes; [motoboy]
    and [observacao] take their default NULL, [criado_em] the time. With
    a NaN amount no row is stored and [IntegrityError] is raised. *)
Definition Pedido_create (c cn st : pystr) (vp tx total : float)
    (b : option Bairro) (fp : pystr) (pc : bool) : M Database Pedido := fun db =>
  match not_null_failure vp tx total with
  | Some msg => (Raise (IntegrityError msg), db)
  | None =>
      let p := mkPedido (next_pedido_id (pedido_table db)) c cn st vp tx total
                 (bairro_id <$> b) None fp pc None (now db) in
      (Ok p, with_pedido_table (<[pedido_id p := p]> (pedido_table db)) db)
  end.

(** [Pedido.id.desc()] *)
Definition id_desc (p q : Pedido) : Prop := pedido_id q <= pedido_id p.

#[global] Instance id_desc_dec : RelDecision id_desc :=
  fun p q => Z_le_dec (pedido_id q) (pedido_id p).

(** [Pedido.select().order_by(Pedido.id.desc())] *)
Definition fetch_orders (db : Database) : list Pedido :=
  merge_sort id_desc (snd <$> map_to_list (pedido_table db)).

Section DashboardMethods.

Variable upper : pystr -> pystr.
Variable usuario : Usuario.

(** [float(s)]: the number, or the message of the [ValueError]. *)
Variable float_of_str : pystr -> float + pystr.

Definition to_float (s : pystr) : M Dashboard float :=
  match float_of_str s with
  | inl x => mret x
  | inr msg => raise (ValueError msg)
  end.

Definition select_card (i : nat) : M Dashboard unit :=
  modify (with_selected_card (Some i)).

Definition populate_orders : M Dashboard unit :=
  modify (fun d => with_cards (fetch_orders (db d)) d);;
  cs ← gets cards;
  if bool_decide (cs = []) then mret tt else select_card 0.

Definition refresh_single_order_card (i : nat) : M Dashboard unit :=
  on_card i panel_refresh.

Definition active_motoboys_names (d : Database) : list pystr :=
  nome <$> active_motoboys d.

Definition toggle_route_mode : M Dashboard unit :=
  active ← gets route_mode_active;
  if (active : bool) then
    modify (with_route_mode_active false);;
    modify (with_route_motoboy None)
  else
    names ← gets (fun d => active_motoboys_names (db d));
    match names with
    | [] => toast (py "Nenhum motoboy ativo")
    | selected_name :: _ =>
        m ← in_db (Motoboy_get selected_name);
        modify (with_route_motoboy (Some m));;
        modify (with_route_mode_active true)
    end.

Definition route_assign_order (i : nat) : M Dashboard unit :=
  active ← gets route_mode_active;
  rm ← gets route_motoboy;
  match rm with
  | Some m =>
      if (active : bool) then
        try_except
          (on_card i (assign_motoboy upper usuario m (Some EM_ROTA));;
           refresh_single_order_card i)
          (fun exc => toast (str_of_exn exc))
      else mret tt
  | None => mret tt
  end.

(** The arrow keys: [step] is -1 for Up and 1 for Down. A selected card
    that is not among [self.cards] is no position of the list. *)
Definition move_selection (step : Z) : M Dashboard unit :=
  cs ← gets cards;
  if bool_decide (cs = []) then mret tt
  else
    sel ← gets selected_card;
    match sel with
    | Some i =>
        if bool_decide (i < length cs)%nat then
          let nxt :=
            Z.max 0 (Z.min (Z.of_nat (length cs) - 1) (Z.of_nat i + step)) in
          select_card (Z.to_nat nxt)
        else select_card 0
    | None => select_card 0
    end.

(** [OrderCard.on_click] of card [i] *)
Definition on_click (i : nat) : M Dashboard unit :=
  select_card i;;
  active ← gets route_mode_active;
  if (active : bool) then route_assign_order i else mret tt.

Definition save_order (f : NewOrderForm) : M Dashboard unit :=
  try_except
    (let c := str_or (strip (form_cliente f)) (py "Cliente") in
     let cn := form_canal f in
     b ← gets (fun d => Bairro_get_or_none (form_bairro f) (db d));
     vp ← to_float (str_or (form_valor_produtos f) (py "0"));
     tx ← (if str_eqb (upper cn) BALCAO then mret 0%float
           else to_float (str_or (form_taxa f) (py "0")));
     let fp := form_forma f in
     (if str_eqb (upper cn) BALCAO && str_eqb fp A_RECEBER
      then toast (py "Balcão configurado: pagar na retirada")
      else mret tt);;
     in_db (Pedido_create c cn
              (if str_eqb fp PIX then PIX_PENDENTE else NOVO)
              vp tx (vp + tx)%float b fp (negb (str_eqb fp PIX)));;
     in_db (log usuario (py "Criou novo pedido") None);;
     populate_orders)
    (fun exc => toast (py "Erro ao salvar: " ++ str_of_exn exc)).

End DashboardMethods.

(* ===================================================================== *)
(** ** The operations of the specification *)
(* ===================================================================== *)

(** The mutating methods of [OrderController]. *)
Inductive controller_call :=
| CallConfirmPix
| CallAssignMotoboy (m : Motoboy) (st : option pystr)
| CallReceivePayment
| CallUpdateObservation (obs : pystr).

(** The handlers of [ActionPanelWindow] that write to an order. *)
Inductive panel_action :=
| ClickConfirmPix
| ClickReceivePayment
| ChooseMotoboy (n : pystr)
| ClickSaveObservation (entry : pystr)
| ClickCancel.

(** The ways the operator selects an order card: a click on it, or the
    Up and Down keys bound by [bind_shortcuts]. *)
Inductive selection :=
| Click (i : nat)
| KeyUp
| KeyDown.

(** The five lifecycle operations the specification names, each mapped to
    the code that carries it out. *)
Inductive operation :=
| ConfirmPayment
| AssignCourier (m : Motoboy) (st : option pystr)
| MarkPaid
| Annotate (text : pystr)
| Cancel.

Section Operations.

Variable upper : pystr -> pystr.
Variable usuario : Usuario.

Definition run_call (k : controller_call) : M Ctl unit :=
  match k with
  | CallConfirmPix => confirm_pix usuario
  | CallAssignMotoboy m st => assign_motoboy upper usuario m st
  | CallReceivePayment => receive_payment usuario
  | CallUpdateObservation obs => update_observation usuario obs
  end.

Definition run_panel (a : panel_action) : M Ctl unit :=
  match a with
  | ClickConfirmPix => panel_confirm_pix usuario
  | ClickReceivePayment => panel_receive_payment usuario
  | ChooseMotoboy n => panel_assign_motoboy upper usuario n
  | ClickSaveObservation entry => save_observation usuario entry
  | ClickCancel => cancel_order usuario
  end.

Definition run_selection (e : selection) : M Dashboard unit :=
  match e with
  | Click i => on_click upper usuario i
  | KeyUp => move_selection (-1)
  | KeyDown => move_selection 1
  end.

Definition run_operation (o : operation) : M Ctl unit :=
  match o with
  | ConfirmPayment => confirm_pix usuario
  | AssignCourier m st => assign_motoboy upper usuario m st
  | MarkPaid => receive_payment usuario
  | Annotate text => update_observation usuario text
  | Cancel => cancel_order usuario
  end.

End Operations.

(* ===================================================================== *)
(** ** The rows of [seed_data] *)
(* ===================================================================== *)

Definition seed_admin : Usuario :=
  mkUsuario 1 (py "admin") (py "8c6976e5") None true.

Definition seed_motoboys : list Motoboy :=
  [mkMotoboy 1 (py "Carlos") true;
   mkMotoboy 2 (py "Renan") true;
   mkMotoboy 3 (py "Maya") true].

Definition seed_bairros : list Bairro :=
  [mkBairro 1 (py "Centro") 5%float;
   mkBairro 2 (py "Jardim") 8%float;
   mkBairro 3 (py "Industrial") 10%float].

Definition seed_ana : Pedido :=
  mkPedido 1 (py "Ana Souza") (py "WhatsApp") PIX_PENDENTE
    42%float 5%float 47%float (Some 1) None PIX false
    (Some (py "Sem cebola")) 0.

Definition seed_marcos : Pedido :=
  mkPedido 2 (py "Marcos Lima") BALCAO NOVO
    25%float 0%float 25%float (Some 1) None A_RECEBER true None 0.

Definition seed_db : Database :=
  mkDatabase (<[2 := seed_marcos]> (<[1 := seed_ana]> ∅))
    seed_motoboys seed_bairros [] 0.

(** The dashboard after [populate_orders] on the seeded database. *)
Definition seed_dashboard : Dashboard :=
  mkDashboard [seed_marcos; seed_ana] (Some 0%nat) false None [] seed_db.

(** The same dashboard with the route mode held by Carlos. *)
Definition seed_route_dashboard : Dashboard :=
  mkDashboard [seed_marcos; seed_ana] (Some 0%nat) true
    (Some (mkMotoboy 1 (py "Carlos") true)) [] seed_db.

(** [float] on the strings of ASCII digits, enough to evaluate
    [save_order] on the amounts of the examples. *)
Fixpoint digits_value (acc : Z) (s : pystr) : option Z :=
  match s with
  | [] => Some acc
  | c :: s' =>
      if ((48 <=? c) && (c <=? 57))%N
      then digits_value (10 * acc + Z.of_N (c - 48)) s'
      else None
  end.

Definition float_of_digits (s : pystr) : float + pystr :=
  match s, digits_value 0 s with
  | _ :: _, Some z => inl (PrimFloat.of_uint63 (Uint63.of_Z z))
  | _, _ => inr (py "could not convert string to float")
  end.

Definition ana_form : NewOrderForm :=
  mkForm (py "Ana") (py "WhatsApp") (py "Centro") (py "42") (py "5") PIX.

(* ===================================================================== *)
(** ** What the methods leave behind *)
(* ===================================================================== *)

(** An outcome that is an exception. *)
Definition fails {A} (r : outcome A) : Prop := exists e, r = Raise e.

(** The order instance [confirm_pix] leaves behind. *)
Definition confirmed (p : Pedido) : Pedido :=
  if str_eqb (status p) PIX_PENDENTE
  then set_status EM_PREPARO (set_pix_confirmado true p)
  else set_pix_confirmado true p.

(** The order instance a successful [assign_motoboy] leaves behind. *)
Definition assigned (m : Motoboy) (st : option pystr) (p : Pedido) : Pedido :=
  match st with
  | Some s =>
      if truthy s
      then set_status s (set_motoboy (Some (motoboy_id m)) p)
      else set_motoboy (Some (motoboy_id m)) p
  | None => set_motoboy (Some (motoboy_id m)) p
  end.

(** The state in which [cancel_order] calls [refresh]. *)
Definition canceled (usuario : Usuario) (c : Ctl) : Ctl :=
  mkCtl (set_status CANCELADO (this c))
    (LogAtividade_create (Some usuario) (py "Cancelou pedido")
       (Some (set_status CANCELADO (this c)))
       (Pedido_save (set_status CANCELADO (this c)) (store c))).

(** The order instance a routed order ends as. *)
Definition routed (m : Motoboy) (p : Pedido) : Pedido :=
  set_status EM_ROTA (set_motoboy (Some (motoboy_id m)) p).

(** The fee [save_order] stores: zero for BALCÃO, else the parsed entry. *)
Definition parsed_taxa (upper : pystr -> pystr)
    (float_of_str : pystr -> float + pystr) (f : NewOrderForm) : float + pystr :=
  if str_eqb (upper (form_canal f)) BALCAO then inl 0%float
  else float_of_str (str_or (form_taxa f) (py "0")).

(** The row [save_order] creates from amounts [vp] and [tx]. *)
Definition new_pedido (f : NewOrderForm) (vp tx : float) (d : Database) : Pedido :=
  mkPedido (next_pedido_id (pedido_table d))
    (str_or (strip (form_cliente f)) (py "Cliente"))
    (form_canal f)
    (if str_eqb (form_forma f) PIX then PIX_PENDENTE else NOVO)
    vp tx (vp + tx)%float
    (bairro_id <$> Bairro_get_or_none (form_bairro f) d) None
    (form_forma f) (negb (str_eqb (form_forma f) PIX)) None (now d).

(** Three optional items appended in turn. *)
Definition emitted {A} (b1 b2 b3 : bool) (x1 x2 x3 : A) : list A :=
  (if b1 then [x1] else []) ++ (if b2 then [x2] else []) ++ (if b3 then [x3] else []).

(** C7 as stated, read for an annotate operation [ann]: a text that is not
    blank becomes the note, and a blank text changes nothing and raises
    nothing. *)
Definition annotate_as_stated (ann : pystr -> M Ctl unit) : Prop :=
  forall (text : pystr) (c : Ctl),
    (strip text <> [] -> observacao (this (snd (ann text c))) = Some text)
    /\ (strip text = [] -> ann text c = (Ok tt, c)).

(** A panel handler whose work on the order is a controller call followed
    by the re-read of the row, or nothing at all. *)
Definition through_controller (upper : pystr -> pystr) (usuario : Usuario)
    (a : panel_action) : Prop :=
  forall c : Ctl,
    run_panel upper usuario a c = (Ok tt, c)
    \/ exists k : controller_call,
         run_panel upper usuario a c
         = (run_call upper usuario k;; panel_refresh) c.

(** C8 as stated, read over every way of selecting: while the route mode
    is on, an order that is selected and is not BALCÃO ends with the
    courier of the route mode and the status EM ROTA. *)
Definition selections_routed (upper : pystr -> pystr) (usuario : Usuario) : Prop :=
  forall (e : selection) (d : Dashboard) (j : nat) (p : Pedido) (m : Motoboy),
    route_mode_active d = true ->
    route_motoboy d = Some m ->
    selected_card (snd (run_selection upper usuario e d)) = Some j ->
    cards d !! j = Some p ->
    upper (canal p) <> BALCAO ->
    exists p' : Pedido,
      cards (snd (run_selection upper usuario e d)) !! j = Some p'
      /\ motoboy p' = Some (motoboy_id m)
      /\ status p' = EM_ROTA.

(* ===================================================================== *)
(** ** Further methods and what they leave behind *)
(* ===================================================================== *)

(** As before, a method is read for the rows it reads and writes. Of the
    errors of the storage engine itself, the one an entry of the operator
    can cause is part of the embedding: the NOT NULL failure of an amount
    that is NaN, in [Pedido_create]. A lost connection or a locked file
    is not. *)

(** [ActionPanelWindow.refresh]: whether the CONFIRMAR PIX button is left
    in state "normal" (it is "disabled" otherwise). *)
Definition confirm_pix_btn_enabled (upper : pystr -> pystr) (order : Pedido) : bool :=
  str_eqb (upper (forma_pagamento order)) PIX && negb (pix_confirmado order).

(** The state after [pedido.save()] and [self.log(a, pedido)] on the
    instance [p]. *)
Definition written (usuario : Usuario) (a : pystr) (p : Pedido) (d : Database) : Ctl :=
  mkCtl p (LogAtividade_create (Some usuario) a (Some p) (Pedido_save p d)).

(** The assignments the controller methods and [cancel_order] make to an
    order instance. *)
Inductive edit (upper : pystr -> pystr) (p : Pedido) : Pedido -> Prop :=
| edit_confirm : edit upper p (confirmed p)
| edit_assign (m : Motoboy) (st : option pystr) :
    upper (canal p) <> BALCAO -> edit upper p (assigned m st p)
| edit_paid : edit upper p (set_forma_pagamento PAGO p)
| edit_note (t : pystr) : edit upper p (set_observacao (Some t) p)
| edit_cancel : edit upper p (set_status CANCELADO p).

(** Clicks on the cards at the positions [l], one after the other. *)
Fixpoint click_all (upper : pystr -> pystr) (usuario : Usuario) (l : list nat)
    : M Dashboard unit :=
  match l with
  | [] => mret tt
  | i :: l' => on_click upper usuario i;; click_all upper usuario l'
  end.

(** [Dashboard.set_zoom]: the zoom preset is a matter of display; the
    cards are built again from the table. *)
Definition set_zoom : M Dashboard unit := populate_orders.

(** What the operator does on the dashboard itself (the action panel
    apart). *)
Inductive event :=
| Select (e : selection)
| ToggleRoute
| SaveOrder (f : NewOrderForm)
| SetZoom.

Definition run_event (upper : pystr -> pystr) (usuario : Usuario)
    (float_of_str : pystr -> float + pystr) (ev : event) : M Dashboard unit :=
  match ev with
  | Select e => run_selection upper usuario e
  | ToggleRoute => toggle_route_mode
  | SaveOrder f => save_order upper usuario float_of_str f
  | SetZoom => set_zoom
  end.

Fixpoint run_events (upper : pystr -> pystr) (usuario : Usuario)
    (float_of_str : pystr -> float + pystr) (evs : list event)
    : M Dashboard unit :=
  match evs with
  | [] => mret tt
  | ev :: evs' =>
      run_event upper usuario float_of_str ev;;
      run_events upper usuario float_of_str evs'
  end.

(** The route mode holds a courier exactly while it is on. *)
Definition route_state_ok (d : Dashboard) : Prop :=
  (route_mode_active d = true -> is_Some (route_motoboy d))
  /\ (route_mode_active d = false -> route_motoboy d = None).

(** The fields of an order that no method assigns after its creation. *)
Definition same_order_data (p p' : Pedido) : Prop :=
  pedido_id p' = pedido_id p
  /\ cliente p' = cliente p
  /\ canal p' = canal p
  /\ valor_produtos p' = valor_produtos p
  /\ taxa_entrega p' = taxa_entrega p
  /\ valor_total p' = valor_total p
  /\ bairro p' = bairro p
  /\ criado_em p' = criado_em p.

(** The dashboard [populate_orders] leaves: the cards are built again
    from the table and, when there is one, the first is selected. *)
Definition populated (d : Dashboard) : Dashboard :=
  mkDashboard (fetch_orders (db d))
    (if bool_decide (fetch_orders (db d) = []) then selected_card d else Some 0%nat)
    (route_mode_active d) (route_motoboy d) (toasts d) (db d).

(** The database after [save_order] has created the order and logged it. *)
Definition created (usuario : Usuario) (f : NewOrderForm) (vp tx : float)
    (d : Database) : Database :=
  LogAtividade_create (Some usuario) (py "Criou novo pedido") None
    (with_pedido_table
       (<[next_pedido_id (pedido_table d) := new_pedido f vp tx d]> (pedido_table d))
       d).

(** The notice [save_order] shows for a counter order paid on pickup. *)
Definition counter_notice (upper : pystr -> pystr) (f : NewOrderForm) : list pystr :=
  if str_eqb (upper (form_canal f)) BALCAO && str_eqb (form_forma f) A_RECEBER
  then [py "Balcão configurado: pagar na retirada"] else [].

(** The dashboard after [save_order] has caught the error [msg]. *)
Definition save_failed (msg : pystr) (d : Dashboard) : Dashboard :=
  with_toasts (toasts d ++ [py "Erro ao salvar: " ++ msg]) d.

(** Whether a click on card [i] in route mode assigns the courier: the
    card exists and its order is not BALCÃO. *)
Definition routable (upper : pystr -> pystr) (d : Dashboard) (i : nat) : bool :=
  match cards d !! i with
  | Some p => negb (str_eqb (upper (canal p)) BALCAO)
  | None => false
  end.

(** Every row of the order table is stored under its own [id]. *)
Definition rows_keyed (t : gmap Z Pedido) : Prop :=
  forall (k : Z) (p : Pedido), t !! k = Some p -> pedido_id p = k.

(** A form whose amount entry is no number. *)
Definition bad_amount_form : NewOrderForm :=
  mkForm (py "Ana") (py "WhatsApp") (py "Centro") (py "abc") (py "5") PIX.




(** What every handler of the dashboard keeps from the dashboard [d] it
    starts in to the dashboard [d'] it leaves. *)
Definition carried_on (d d' : Dashboard) : Prop :=
  (route_state_ok d -> route_state_ok d')
  /\ log_table (db d) `prefix_of` log_table (db d')
  /\ dom (pedido_table (db d)) ⊆ dom (pedido_table (db d'))
  /\ motoboy_table (db d') = motoboy_table (db d)
  /\ bairro_table (db d') = bairro_table (db d)
  /\ now (db d') = now (db d).

(* ===================================================================== *)
(** ** Bootstrap: [seed_data] *)
(* ===================================================================== *)

Record Caixa := mkCaixa {
  caixa_id : Z;
  aberto : bool;
  atualizado_em : Z
}.

(** The tables [seed_data] works on: those of the order engine and the
    tables of users and of the cash register. ([Configuracao] is created
    empty and never written.) *)
Record Site := mkSite {
  usuario_table : list Usuario;
  caixa_table : list Caixa;
  engine : Database
}.

Definition with_usuario_table (v : list Usuario) (s : Site) : Site :=
  mkSite v (caixa_table s) (engine s).

Definition with_caixa_table (v : list Caixa) (s : Site) : Site :=
  mkSite (usuario_table s) v (engine s).

Definition with_engine (v : Database) (s : Site) : Site :=
  mkSite (usuario_table s) (caixa_table s) v.

Definition with_motoboy_table (t : list Motoboy) (db : Database) : Database :=
  mkDatabase (pedido_table db) t (bairro_table db) (log_table db) (now db).

Definition with_bairro_table (t : list Bairro) (db : Database) : Database :=
  mkDatabase (pedido_table db) (motoboy_table db) t (log_table db) (now db).

(** The key an [AutoField] gives to the next row of a table whose keys
    are [ids]. *)
Definition next_id (ids : list Z) : Z := 1 + foldr Z.max 0 ids.

(** [Usuario.get_or_none(Usuario.login == l)] *)
Definition Usuario_get_or_none (l : pystr) (s : Site) : option Usuario :=
  head (filter (fun u => login u = l) (usuario_table s)).

(** [Usuario.create(login=l, senha_hash=h, admin=a)]; [avatar] is NULL. *)
Definition Usuario_create (l h : pystr) (a : bool) : M Site Usuario := fun s =>
  let u := mkUsuario (next_id (usuario_id <$> usuario_table s)) l h None a in
  (Ok u, with_usuario_table (usuario_table s ++ [u]) s).

(** [Motoboy.create(nome=n, ativo=a)] *)
Definition Motoboy_create (n : pystr) (a : bool) : M Site unit := fun s =>
  let t := motoboy_table (engine s) in
  (Ok tt,
   with_engine
     (with_motoboy_table (t ++ [mkMotoboy (next_id (motoboy_id <$> t)) n a])
        (engine s)) s).

(** [Bairro.create(nome=n, taxa_entrega=x)] *)
Definition Bairro_create (n : pystr) (x : float) : M Site unit := fun s =>
  let t := bairro_table (engine s) in
  (Ok tt,
   with_engine
     (with_bairro_table (t ++ [mkBairro (next_id (bairro_id <$> t)) n x])
        (engine s)) s).

(** [Caixa.create(aberto=a)]; [atualizado_em] is the current time. *)
Definition Caixa_create (a : bool) : M Site unit := fun s =>
  let t := caixa_table s in
  (Ok tt,
   with_caixa_table
     (t ++ [mkCaixa (next_id (caixa_id <$> t)) a (now (engine s))]) s).

(** [Bairro.get(Bairro.nome == n)] *)
Definition Bairro_get (n : pystr) : M Site Bairro := fun s =>
  match Bairro_get_or_none n (engine s) with
  | Some b => (Ok b, s)
  | None => (Raise DoesNotExist, s)
  end.

(** [Pedido.create(...)] with the fields the seed passes; [motoboy] is
    NULL and [criado_em] the current time. As in [Pedido_create], an
    amount that is NaN fails the INSERT. *)
Definition Pedido_seed (c cn st : pystr) (vp tx total : float) (b : Bairro)
    (fp : pystr) (pc : bool) (obs : option pystr) : M Site unit := fun s =>
  let db := engine s in
  match not_null_failure vp tx total with
  | Some msg => (Raise (IntegrityError msg), s)
  | None =>
      let p := mkPedido (next_pedido_id (pedido_table db)) c cn st vp tx total
                 (Some (bairro_id b)) None fp pc obs (now db) in
      (Ok tt,
       with_engine (with_pedido_table (<[pedido_id p := p]> (pedido_table db)) db) s)
  end.

(** [for x in l: body(x)] *)
Fixpoint for_each {S A} (l : list A) (body : A -> M S unit) : M S unit :=
  match l with
  | [] => mret tt
  | x :: l' => body x;; for_each l' body
  end.

Section Bootstrap.

(** [password_hash]: the SHA-256 digest of the password, in hexadecimal. *)
Variable password_hash : pystr -> pystr.

(** The five blocks of [seed_data], in the order they run, after
    [db.connect] and [db.create_tables], which store no row. *)
Definition ensure_admin : M Site Usuario :=
  found ← gets (Usuario_get_or_none (py "admin"));
  match found with
  | Some u => mret u
  | None => Usuario_create (py "admin") (password_hash (py "admin")) true
  end.

Definition ensure_motoboys : M Site unit :=
  n ← gets (fun s => length (motoboy_table (engine s)));
  if Nat.eqb n 0
  then for_each [py "Carlos"; py "Renan"; py "Maya"]
         (fun nome => Motoboy_create nome true)
  else mret tt.

Definition ensure_bairros : M Site unit :=
  n ← gets (fun s => length (bairro_table (engine s)));
  if Nat.eqb n 0
  then for_each [(py "Centro", 5%float); (py "Jardim", 8%float);
                 (py "Industrial", 10%float)]
         (fun '(nome, taxa) => Bairro_create nome taxa)
  else mret tt.

Definition ensure_caixa : M Site unit :=
  n ← gets (fun s => length (caixa_table s));
  if Nat.eqb n 0 then Caixa_create true else mret tt.

Definition ensure_pedidos : M Site unit :=
  n ← gets (fun s => size (pedido_table (engine s)));
  if Nat.eqb n 0
  then
    centro ← Bairro_get (py "Centro");
    Pedido_seed (py "Ana Souza") (py "WhatsApp") PIX_PENDENTE
      42%float 5%float 47%float centro PIX false (Some (py "Sem cebola"));;
    Pedido_seed (py "Marcos Lima") BALCAO NOVO
      25%float 0%float 25%float centro A_RECEBER true None
  else mret tt.

Definition seed_data : M Site Usuario :=
  admin ← ensure_admin;
  ensure_motoboys;;
  ensure_bairros;;
  ensure_caixa;;
  ensure_pedidos;;
  mret admin.

End Bootstrap.

(** The site before anything is stored, at time [t]. *)
Definition empty_site (t : Z) : Site :=
  mkSite [] [] (mkDatabase ∅ [] [] [] t).

(** The seeding has been done: the administrator exists and no seeded
    table is empty. *)
Definition seeded (s : Site) : Prop :=
  is_Some (Usuario_get_or_none (py "admin") s)
  /\ motoboy_table (engine s) <> []
  /\ bairro_table (engine s) <> []
  /\ caixa_table s <> []
  /\ size (pedido_table (engine s)) <> 0%nat.

(** The user [seed_data] creates when there is no "admin". *)
Definition new_admin (password_hash : pystr -> pystr) (s : Site) : Usuario :=
  mkUsuario (next_id (usuario_id <$> usuario_table s)) (py "admin")
    (password_hash (py "admin")) None true.

(** The two orders [seed_data] creates, for the neighbourhood [c] found
    under the name "Centro" and the time [t]. *)
Definition ana_row (c : Bairro) (t : Z) : Pedido :=
  mkPedido 1 (py "Ana Souza") (py "WhatsApp") PIX_PENDENTE
    42%float 5%float 47%float (Some (bairro_id c)) None PIX false
    (Some (py "Sem cebola")) t.

Definition marcos_row (c : Bairro) (t : Z) : Pedido :=
  mkPedido 2 (py "Marcos Lima") BALCAO NOVO
    25%float 0%float 25%float (Some (bairro_id c)) None A_RECEBER true None t.

(** The data of a site that a block of [seed_data] does not touch when it
    leaves [s'] from [s], listed table by table. *)
Definition same_usuarios (s s' : Site) : Prop := usuario_table s' = usuario_table s.
Definition same_caixas (s s' : Site) : Prop := caixa_table s' = caixa_table s.
Definition same_motoboys (s s' : Site) : Prop :=
  motoboy_table (engine s') = motoboy_table (engine s).
Definition same_bairros (s s' : Site) : Prop :=
  bairro_table (engine s') = bairro_table (engine s).
Definition same_pedidos (s s' : Site) : Prop :=
  pedido_table (engine s') = pedido_table (engine s).
Definition same_log (s s' : Site) : Prop :=
  log_table (engine s') = log_table (engine s) /\ now (engine s') = now (engine s).

(** The cards show what is stored: every row is stored under its own
    [id], the order of every card is the row stored under its [id], and
    no two cards are for the same [id]. *)
Definition cards_fresh (d : Dashboard) : Prop :=
  rows_keyed (pedido_table (db d))
  /\ (forall (i : nat) (p : Pedido),
        cards d !! i = Some p -> pedido_table (db d) !! pedido_id p = Some p)
  /\ NoDup (pedido_id <$> cards d).

(** The dashboard [Dashboard.__init__] builds over the database [d]. *)
Definition Dashboard_init (d : Database) : Dashboard :=
  populated (mkDashboard [] None false None [] d).

(* ===================================================================== *)
(** ** Properties *)
(* ===================================================================== *)

Example BALCAO_code_points : BALCAO = [66; 65; 76; 67; 195; 79]%N.
Proof. reflexivity. Qed.

Example upper_balcao : upper_latin1 (py "balcão") = BALCAO.
Proof. reflexivity. Qed.

Example strip_example : strip (py "  sem cebola ") = py "sem cebola".
Proof. reflexivity. Qed.

Example fetch_orders_seed : fetch_orders seed_db = [seed_marcos; seed_ana].
Proof. vm_compute. reflexivity. Qed.

Example seed_total_ana :
  valor_total seed_ana = (valor_produtos seed_ana + taxa_entrega seed_ana)%float.
Proof. reflexivity. Qed.

Ltac run_method :=
  unfold mbind, mret, M_bind, M_ret, set_attr, save, log_this, in_store,
    in_db, modify, gets, raise, try_except; simpl.

Section ControllerFacts.

Variable upper : pystr -> pystr.
Variable usuario : Usuario.

Lemma confirm_pix_run (c : Ctl) :
  confirm_pix usuario c =
  (Ok tt,
   mkCtl (confirmed (this c))
     (LogAtividade_create (Some usuario) (py "Confirmou PIX")
        (Some (confirmed (this c)))
        (Pedido_save (confirmed (this c)) (store c)))).
Proof.
  unfold confirm_pix, confirmed. run_method.
  destruct (str_eqb (status (this c)) PIX_PENDENTE); reflexivity.
Qed.

Lemma assign_motoboy_counter (m : Motoboy) (st : option pystr) (c : Ctl) :
  upper (canal (this c)) = BALCAO ->
  assign_motoboy upper usuario m st c =
  (Raise (ValueError (py "Pedido BALCÃO não pode receber motoboy.")), c).
Proof.
  intros H. unfold assign_motoboy. run_method.
  unfold str_eqb. rewrite bool_decide_eq_true_2 by exact H. reflexivity.
Qed.

Lemma assign_motoboy_run (m : Motoboy) (st : option pystr) (c : Ctl) :
  upper (canal (this c)) <> BALCAO ->
  assign_motoboy upper usuario m st c =
  (Ok tt,
   mkCtl (assigned m st (this c))
     (LogAtividade_create (Some usuario) (py "Atribuiu motoboy " ++ nome m)
        (Some (assigned m st (this c)))
        (Pedido_save (assigned m st (this c)) (store c)))).
Proof.
  intros H. unfold assign_motoboy, assigned. run_method.
  unfold str_eqb. rewrite bool_decide_eq_false_2 by exact H.
  destruct st as [s|]; [destruct (truthy s)|]; reflexivity.
Qed.

Lemma receive_payment_run (c : Ctl) :
  receive_payment usuario c =
  (Ok tt,
   mkCtl (set_forma_pagamento PAGO (this c))
     (LogAtividade_create (Some usuario) (py "Recebeu pagamento")
        (Some (set_forma_pagamento PAGO (this c)))
        (Pedido_save (set_forma_pagamento PAGO (this c)) (store c)))).
Proof. reflexivity. Qed.

Lemma update_observation_run (obs : pystr) (c : Ctl) :
  update_observation usuario obs c =
  (Ok tt,
   mkCtl (set_observacao (Some obs) (this c))
     (LogAtividade_create (Some usuario) (py "Atualizou observação")
        (Some (set_observacao (Some obs) (this c)))
        (Pedido_save (set_observacao (Some obs) (this c)) (store c)))).
Proof. reflexivity. Qed.

Lemma log_table_save (p : Pedido) (d : Database) :
  log_table (Pedido_save p d) = log_table d.
Proof. unfold Pedido_save. destruct (pedido_table d !! pedido_id p); reflexivity. Qed.

Lemma now_save (p : Pedido) (d : Database) : now (Pedido_save p d) = now d.
Proof. unfold Pedido_save. destruct (pedido_table d !! pedido_id p); reflexivity. Qed.

Lemma panel_refresh_store (c : Ctl) : store (snd (panel_refresh c)) = store c.
Proof.
  unfold panel_refresh, Pedido_get_by_id. run_method.
  destruct (pedido_table (store c) !! pedido_id (this c)); reflexivity.
Qed.

Lemma cancel_order_run (c : Ctl) :
  cancel_order usuario c = panel_refresh (canceled usuario c).
Proof. reflexivity. Qed.

End ControllerFacts.

(* --------------------------------------------------------------------- *)
(** *** Payment confirmation *)
(* --------------------------------------------------------------------- *)

(** C1, as amended: for every order, whether its payment method is PIX or
    not, [confirm_pix] raises nothing: the controller makes no check of the
    payment method, and an order that is not PIX gets [pix_confirmado] set,
    its status advanced (from PIX PENDENTE to EM PREPARO, any other status
    kept) and the action logged like a PIX order: the log is the log
    before with the one entry "Confirmou PIX" of this user and this order
    appended. On a PIX order it does not fail either, also when
    [pix_confirmado] is already true. *)
Theorem confirm_pix_never_fails (usuario : Usuario) (c : Ctl) :
  ~ fails (fst (confirm_pix usuario c))
  /\ fst (confirm_pix usuario c) = Ok tt
  /\ this (snd (confirm_pix usuario c)) = confirmed (this c)
  /\ pix_confirmado (this (snd (confirm_pix usuario c))) = true
  /\ (status (this c) = PIX_PENDENTE ->
      status (this (snd (confirm_pix usuario c))) = EM_PREPARO)
  /\ (status (this c) <> PIX_PENDENTE ->
      status (this (snd (confirm_pix usuario c))) = status (this c))
  /\ log_table (store (snd (confirm_pix usuario c))) =
       log_table (store c)
       ++ [mkLog (Some (usuario_id usuario)) (py "Confirmou PIX")
             (Some (pedido_id (this c))) (now (store c))].
Proof.
  rewrite confirm_pix_run. cbn [fst snd this store].
  split; [intros [e He]; discriminate He|].
  split; [reflexivity|]. split; [reflexivity|].
  unfold LogAtividade_create. cbn [log_table with_log_table].
  rewrite log_table_save, now_save.
  unfold confirmed, str_eqb.
  destruct (bool_decide_reflect (status (this c) = PIX_PENDENTE)) as [E|E].
  - split; [reflexivity|]. split; [reflexivity|]. split; [congruence|].
    reflexivity.
  - split; [reflexivity|]. split; [congruence|]. split; [reflexivity|].
    reflexivity.
Qed.

(** C1, as stated, fails: on the seeded counter order, paid on pickup and
    so not PIX, [confirm_pix] raises nothing. *)
Lemma confirm_pix_non_pix_counterexample :
  ~ (forall c : Ctl,
        fails (fst (confirm_pix seed_admin c))
        <-> upper_latin1 (forma_pagamento (this c)) <> PIX).
Proof.
  intros H.
  destruct (H (mkCtl seed_marcos seed_db)) as [_ Hraise].
  destruct Hraise as [e He].
  - vm_compute. discriminate.
  - rewrite confirm_pix_run in He. discriminate He.
Qed.

(** C4: on a PIX order [confirm_pix] sets [pix_confirmado]; the status
    becomes EM PREPARO exactly when it was PIX PENDENTE and is otherwise
    left as it was; no other field changes; and one entry is logged in
    every case, also when the order was already confirmed and no field
    changes. *)
Theorem confirm_pix_effect (upper : pystr -> pystr) (usuario : Usuario) (c : Ctl) :
  upper (forma_pagamento (this c)) = PIX ->
  let c' := snd (confirm_pix usuario c) in
  fst (confirm_pix usuario c) = Ok tt
  /\ pix_confirmado (this c') = true
  /\ (status (this c) = PIX_PENDENTE -> status (this c') = EM_PREPARO)
  /\ (status (this c) <> PIX_PENDENTE -> status (this c') = status (this c))
  /\ this c' = set_status (status (this c')) (set_pix_confirmado true (this c))
  /\ log_table (store c') =
       log_table (store c)
       ++ [mkLog (Some (usuario_id usuario)) (py "Confirmou PIX")
             (Some (pedido_id (this c))) (now (store c))]
  /\ (pix_confirmado (this c) = true -> status (this c) <> PIX_PENDENTE ->
      this c' = this c /\ length (log_table (store c')) = S (length (log_table (store c)))).
Proof.
  intros _. simpl. rewrite confirm_pix_run. simpl.
  unfold confirmed, str_eqb.
  destruct (bool_decide_reflect (status (this c) = PIX_PENDENTE)) as [E|E];
    simpl; rewrite log_table_save, now_save.
  - repeat split; intros; try reflexivity; congruence.
  - split; [reflexivity|]. split; [reflexivity|].
    split; [congruence|]. split; [reflexivity|].
    split; [destruct (this c); reflexivity|]. split; [reflexivity|].
    intros Hp _. split.
    + destruct c as [p s]; destruct p; simpl in *; subst; reflexivity.
    + rewrite length_app. simpl. lia.
Qed.

Lemma confirm_pix_effect_witness :
  upper_latin1 (forma_pagamento seed_ana) = PIX
  /\ status (this (snd (confirm_pix seed_admin (mkCtl seed_ana seed_db)))) = EM_PREPARO.
Proof.
  split; [reflexivity|].
  apply (confirm_pix_effect upper_latin1 seed_admin (mkCtl seed_ana seed_db));
    reflexivity.
Defined.

(* --------------------------------------------------------------------- *)
(** *** Courier assignment on a counter order *)
(* --------------------------------------------------------------------- *)

(** C2: on an order whose channel is BALCÃO, [assign_motoboy] raises the
    [ValueError] for every courier and every status argument; the order
    instance keeps every field (so [motoboy] and [status] are what they
    were), the database is as before and no log entry is added. *)
Theorem assign_motoboy_counter_rejected (upper : pystr -> pystr)
    (usuario : Usuario) (m : Motoboy) (st : option pystr) (c : Ctl) :
  upper (canal (this c)) = BALCAO ->
  let r := assign_motoboy upper usuario m st c in
  fst r = Raise (ValueError (py "Pedido BALCÃO não pode receber motoboy."))
  /\ this (snd r) = this c
  /\ motoboy (this (snd r)) = motoboy (this c)
  /\ status (this (snd r)) = status (this c)
  /\ store (snd r) = store c
  /\ log_table (store (snd r)) = log_table (store c).
Proof.
  intros H. simpl. rewrite (assign_motoboy_counter upper usuario m st c H).
  simpl. repeat split.
Qed.

Lemma assign_motoboy_counter_rejected_witness :
  upper_latin1 (canal seed_marcos) = BALCAO
  /\ motoboy (this (snd (assign_motoboy upper_latin1 seed_admin
                           (mkMotoboy 1 (py "Carlos") true) (Some EM_ROTA)
                           (mkCtl seed_marcos seed_db)))) = None.
Proof.
  split; [reflexivity|].
  apply (assign_motoboy_counter_rejected upper_latin1 seed_admin
           (mkMotoboy 1 (py "Carlos") true) (Some EM_ROTA)
           (mkCtl seed_marcos seed_db)).
  reflexivity.
Defined.

(* --------------------------------------------------------------------- *)
(** *** The audit log *)
(* --------------------------------------------------------------------- *)

(** C5: each of the five operations, when it succeeds, adds exactly one
    entry to the log, and that entry refers to the order operated on and
    to the user of the controller. *)
Theorem operation_logs_once (upper : pystr -> pystr) (usuario : Usuario)
    (o : operation) (c c' : Ctl) :
  run_operation upper usuario o c = (Ok tt, c') ->
  exists e : LogAtividade,
    log_table (store c') = log_table (store c) ++ [e]
    /\ log_pedido e = Some (pedido_id (this c))
    /\ log_usuario e = Some (usuario_id usuario).
Proof.
  destruct o as [|m st| |text|]; simpl.
  - rewrite confirm_pix_run. intros [= <-]. simpl.
    rewrite log_table_save. eexists; split; [reflexivity|].
    split; [|reflexivity]. simpl. unfold confirmed.
    destruct (str_eqb _ _); reflexivity.
  - destruct (decide (upper (canal (this c)) = BALCAO)) as [E|E].
    + rewrite (assign_motoboy_counter upper usuario m st c E). discriminate.
    + rewrite (assign_motoboy_run upper usuario m st c E). intros [= <-]. simpl.
      rewrite log_table_save. eexists; split; [reflexivity|].
      split; [|reflexivity]. simpl. unfold assigned.
      destruct st as [s|]; [destruct (truthy s)|]; reflexivity.
  - rewrite receive_payment_run. intros [= <-]. simpl.
    rewrite log_table_save. eexists; split; [reflexivity|]. split; reflexivity.
  - rewrite update_observation_run. intros [= <-]. simpl.
    rewrite log_table_save. eexists; split; [reflexivity|]. split; reflexivity.
  - rewrite cancel_order_run. intros H.
    pose proof (panel_refresh_store (canceled usuario c)) as Hs.
    rewrite H in Hs. simpl in Hs. rewrite Hs. simpl.
    rewrite log_table_save. eexists; split; [reflexivity|]. split; reflexivity.
Qed.

Lemma operation_logs_once_witness :
  exists e : LogAtividade,
    log_table (store (snd (cancel_order seed_admin (mkCtl seed_ana seed_db))))
    = log_table seed_db ++ [e]
    /\ log_pedido e = Some 1
    /\ log_usuario e = Some 1.
Proof.
  apply (operation_logs_once upper_latin1 seed_admin Cancel
           (mkCtl seed_ana seed_db)
           (snd (cancel_order seed_admin (mkCtl seed_ana seed_db)))).
  vm_compute. reflexivity.
Defined.

(* --------------------------------------------------------------------- *)
(** *** Alerts *)
(* --------------------------------------------------------------------- *)

Lemma alert_tags_distinct :
  PIX_PENDING_ALERT <> PAY_ON_PICKUP_ALERT
  /\ PIX_PENDING_ALERT <> HAS_NOTE_ALERT
  /\ PAY_ON_PICKUP_ALERT <> HAS_NOTE_ALERT.
Proof. repeat split; intros H; vm_compute in H; discriminate H. Qed.

Lemma emitted_spec {A} (b1 b2 b3 : bool) (x1 x2 x3 : A) :
  x1 <> x2 -> x1 <> x3 -> x2 <> x3 ->
  (x1 ∈ emitted b1 b2 b3 x1 x2 x3 <-> b1 = true)
  /\ (x2 ∈ emitted b1 b2 b3 x1 x2 x3 <-> b2 = true)
  /\ (x3 ∈ emitted b1 b2 b3 x1 x2 x3 <-> b3 = true)
  /\ sublist (emitted b1 b2 b3 x1 x2 x3) [x1; x2; x3].
Proof.
  intros H12 H13 H23. unfold emitted.
  destruct b1, b2, b3; simpl;
    (split; [|split; [|split]]);
    try (rewrite ?elem_of_cons, ?elem_of_nil; split; intros;
         try discriminate; intuition congruence).
  all: repeat first [ apply sublist_nil | apply sublist_skip_cons_keep
                    | apply sublist_skip | apply sublist_cons ].
Qed.

Lemma alert_texts_emitted (upper : pystr -> pystr) (order : Pedido) :
  alert_texts upper order =
  emitted
    (str_eqb (upper (forma_pagamento order)) PIX && negb (pix_confirmado order))
    (str_eqb (upper (canal order)) BALCAO
     && str_eqb (upper (forma_pagamento order)) A_RECEBER)
    (has_observacao order)
    PIX_PENDING_ALERT PAY_ON_PICKUP_ALERT HAS_NOTE_ALERT.
Proof.
  unfold alert_texts, emitted.
  destruct (_ && negb _), (str_eqb _ BALCAO && _), (has_observacao order);
    reflexivity.
Qed.

Lemma has_observacao_true (order : Pedido) :
  has_observacao order = true <-> exists o, observacao order = Some o /\ o <> [].
Proof.
  unfold has_observacao. destruct (observacao order) as [[|x o]|]; simpl; split.
  - discriminate.
  - intros (o' & [= <-] & Hne). contradiction.
  - intros _. eexists; split; [reflexivity | discriminate].
  - reflexivity.
  - discriminate.
  - intros (o' & [=] & _).
Qed.

(** C9: the alerts of an order are a function of four of its fields; the
    PIX alert is present exactly when the payment method is PIX and the
    payment is not confirmed, the pay-on-pickup alert exactly when the
    channel is BALCÃO and the payment method A RECEBER, the note alert
    exactly when the note is a non-empty string; and the alerts come in
    that order, each at most once. *)
Theorem alert_texts_spec (upper : pystr -> pystr) (order : Pedido) :
  (PIX_PENDING_ALERT ∈ alert_texts upper order
   <-> upper (forma_pagamento order) = PIX /\ pix_confirmado order = false)
  /\ (PAY_ON_PICKUP_ALERT ∈ alert_texts upper order
      <-> upper (canal order) = BALCAO
          /\ upper (forma_pagamento order) = A_RECEBER)
  /\ (HAS_NOTE_ALERT ∈ alert_texts upper order
      <-> exists o, observacao order = Some o /\ o <> [])
  /\ sublist (alert_texts upper order)
       [PIX_PENDING_ALERT; PAY_ON_PICKUP_ALERT; HAS_NOTE_ALERT]
  /\ (forall other : Pedido,
        forma_pagamento other = forma_pagamento order ->
        pix_confirmado other = pix_confirmado order ->
        canal other = canal order ->
        observacao other = observacao order ->
        alert_texts upper other = alert_texts upper order).
Proof.
  destruct alert_tags_distinct as (D12 & D13 & D23).
  rewrite alert_texts_emitted.
  destruct (emitted_spec
              (str_eqb (upper (forma_pagamento order)) PIX
               && negb (pix_confirmado order))
              (str_eqb (upper (canal order)) BALCAO
               && str_eqb (upper (forma_pagamento order)) A_RECEBER)
              (has_observacao order)
              PIX_PENDING_ALERT PAY_ON_PICKUP_ALERT HAS_NOTE_ALERT
              D12 D13 D23) as (E1 & E2 & E3 & Hsub).
  split; [|split; [|split; [|split]]].
  - rewrite E1, andb_true_iff, negb_true_iff. unfold str_eqb.
    rewrite bool_decide_eq_true. reflexivity.
  - rewrite E2, andb_true_iff. unfold str_eqb.
    rewrite !bool_decide_eq_true. reflexivity.
  - rewrite E3. apply has_observacao_true.
  - exact Hsub.
  - intros other Hf Hp Hc Ho. rewrite alert_texts_emitted.
    unfold has_observacao. rewrite Hf, Hp, Hc, Ho. reflexivity.
Qed.

Example alerts_ana : alert_texts upper_latin1 seed_ana = [PIX_PENDING_ALERT; HAS_NOTE_ALERT].
Proof. reflexivity. Qed.

Example alerts_marcos : alert_texts upper_latin1 seed_marcos = [PAY_ON_PICKUP_ALERT].
Proof. reflexivity. Qed.

(* --------------------------------------------------------------------- *)
(** *** Route mode *)
(* --------------------------------------------------------------------- *)

Lemma first_active_found (t : list Motoboy) (m0 : Motoboy) (rest : list Motoboy) :
  NoDup (nome <$> t) ->
  filter (fun m => ativo m = true) t = m0 :: rest ->
  head (filter (fun m => nome m = nome m0) t) = Some m0.
Proof.
  induction t as [|x t IH]; intros Hnd Hf.
  - discriminate Hf.
  - rewrite fmap_cons in Hnd. apply NoDup_cons in Hnd as [Hx Hnd].
    rewrite filter_cons in Hf. destruct (decide (ativo x = true)) as [Ha|Ha].
    + injection Hf as -> _. rewrite filter_cons_True by reflexivity. reflexivity.
    + assert (Hin : m0 ∈ t).
      { apply (list_elem_of_filter (fun m => ativo m = true)).
        rewrite Hf. apply list_elem_of_here. }
      rewrite filter_cons_False.
      * apply IH; assumption.
      * intros E. apply Hx. rewrite E. apply list_elem_of_fmap_2. exact Hin.
Qed.


Lemma saved_row_read (p q : Pedido) (d : Database) :
  pedido_table (Pedido_save p d) !! pedido_id p = Some q -> q = p.
Proof.
  unfold Pedido_save.
  destruct (pedido_table d !! pedido_id p) eqn:E; simpl.
  - rewrite lookup_insert_eq. congruence.
  - rewrite E. discriminate.
Qed.

Lemma saved_row_present (p q : Pedido) (d : Database) :
  pedido_table d !! pedido_id p = Some q ->
  pedido_table (Pedido_save p d) !! pedido_id p = Some p.
Proof.
  intros E. unfold Pedido_save. rewrite E. simpl. apply lookup_insert_eq.
Qed.

Lemma saved_row_other (p : Pedido) (d : Database) (j : Z) :
  j <> pedido_id p ->
  pedido_table (Pedido_save p d) !! j = pedido_table d !! j.
Proof.
  intros Hj. unfold Pedido_save.
  destruct (pedido_table d !! pedido_id p); simpl; [|reflexivity].
  apply lookup_insert_ne. congruence.
Qed.

Section RouteFacts.
Variable upper : pystr -> pystr.
Variable usuario : Usuario.

Lemma assigned_route (m : Motoboy) (p : Pedido) :
  assigned m (Some EM_ROTA) p = routed m p.
Proof. reflexivity. Qed.

Lemma on_click_active (i : nat) (m : Motoboy) (d : Dashboard) :
  route_mode_active d = true ->
  route_motoboy d = Some m ->
  on_click upper usuario i d =
  try_except
    (on_card i (assign_motoboy upper usuario m (Some EM_ROTA));;
     refresh_single_order_card i)
    (fun exc => toast (str_of_exn exc))
    (with_selected_card (Some i) d).
Proof.
  intros Hact Hrm. unfold on_click, route_assign_order, select_card.
  unfold mbind, M_bind, modify, gets. simpl. rewrite Hact. simpl.
  rewrite Hact, Hrm. reflexivity.
Qed.

Lemma on_click_counter (i : nat) (m : Motoboy) (p : Pedido) (d : Dashboard) :
  route_mode_active d = true ->
  route_motoboy d = Some m ->
  cards d !! i = Some p ->
  upper (canal p) = BALCAO ->
  on_click upper usuario i d =
  (Ok tt,
   with_toasts (toasts d ++ [py "Pedido BALCÃO não pode receber motoboy."])
     (with_selected_card (Some i) d)).
Proof.
  intros Hact Hrm Hcard Hc. rewrite (on_click_active i m d Hact Hrm).
  unfold try_except, mbind, M_bind, on_card. simpl. rewrite Hcard.
  rewrite (assign_motoboy_counter upper usuario m (Some EM_ROTA)
             (mkCtl p (db d)) Hc).
  simpl. rewrite (list_insert_id _ _ _ Hcard).
  destruct d; reflexivity.
Qed.

Lemma on_click_routed (i : nat) (m : Motoboy) (p : Pedido) (d : Dashboard) :
  route_mode_active d = true ->
  route_motoboy d = Some m ->
  cards d !! i = Some p ->
  upper (canal p) <> BALCAO ->
  let r := on_click upper usuario i d in
  fst r = Ok tt
  /\ cards (snd r) = <[i := routed m p]> (cards d)
  /\ db (snd r) =
       LogAtividade_create (Some usuario) (py "Atribuiu motoboy " ++ nome m)
         (Some (routed m p)) (Pedido_save (routed m p) (db d))
  /\ route_mode_active (snd r) = true
  /\ route_motoboy (snd r) = Some m.
Proof.
  intros Hact Hrm Hcard Hc. rewrite (on_click_active i m d Hact Hrm).
  unfold try_except, mbind, M_bind, refresh_single_order_card, on_card. simpl.
  rewrite Hcard.
  rewrite (assign_motoboy_run upper usuario m (Some EM_ROTA)
             (mkCtl p (db d)) Hc).
  rewrite assigned_route. simpl.
  rewrite list_lookup_insert_eq by (eapply lookup_lt_Some; exact Hcard).
  unfold panel_refresh, Pedido_get_by_id. run_method.
  destruct (pedido_table (Pedido_save (routed m p) (db d)) !! pedido_id p)
    as [q|] eqn:E;
    simpl; rewrite list_insert_insert_eq; rewrite ?Hact, ?Hrm; repeat split.
  apply (saved_row_read (routed m p)) in E. rewrite E. reflexivity.
Qed.
End RouteFacts.

Lemma move_selection_only_selects (step : Z) (d : Dashboard) :
  fst (move_selection step d) = Ok tt
  /\ cards (snd (move_selection step d)) = cards d
  /\ db (snd (move_selection step d)) = db d
  /\ route_mode_active (snd (move_selection step d)) = route_mode_active d
  /\ route_motoboy (snd (move_selection step d)) = route_motoboy d
  /\ toasts (snd (move_selection step d)) = toasts d.
Proof.
  unfold move_selection, select_card. unfold mbind, mret, M_bind, M_ret, gets, modify.
  destruct (bool_decide (cards d = [])); [repeat split|].
  destruct (selected_card d) as [i|]; [|repeat split].
  destruct (bool_decide (i < length (cards d))%nat); repeat split.
Qed.

(** C8, as stated, fails: with the route mode on for Carlos and the first
    card selected, the Down key selects the card of the seeded WhatsApp
    order, and that order keeps no courier and its status PIX PENDENTE. *)
Lemma key_selection_not_routed : ~ selections_routed upper_latin1 seed_admin.
Proof.
  intros H.
  destruct (H KeyDown seed_route_dashboard 1%nat seed_ana
              (mkMotoboy 1 (py "Carlos") true))
    as (p' & Hcard & Hm & _); try reflexivity.
  - vm_compute. discriminate.
  - vm_compute in Hcard. injection Hcard as <-. discriminate Hm.
Qed.

(** C8, as amended: while the route mode is on with courier [m], a click
    on a card runs [assign_motoboy] with [m] and EM ROTA on the card's
    order: the database after the click is the one that call leaves. The
    click itself never fails and the route mode stays on with the same
    courier. A clicked order that is not BALCÃO ends with [motoboy] set to
    [m] and status EM ROTA, on the card and in its row, with one log entry
    added and the other cards and rows as they were. On a clicked BALCÃO
    order the call fails: the message is shown and every card and the
    whole database are as before. Selecting with the Up and Down keys
    moves the selection only: no order, row or log entry changes. *)
Theorem route_click (upper : pystr -> pystr) (usuario : Usuario)
    (d : Dashboard) (i : nat) (p : Pedido) (m : Motoboy) :
  route_mode_active d = true ->
  route_motoboy d = Some m ->
  cards d !! i = Some p ->
  let r := on_click upper usuario i d in
  let d' := snd r in
  fst r = Ok tt
  /\ route_mode_active d' = true
  /\ route_motoboy d' = Some m
  /\ db d' = store (snd (assign_motoboy upper usuario m (Some EM_ROTA)
                           (mkCtl p (db d))))
  /\ (upper (canal p) <> BALCAO ->
      cards d' !! i = Some (routed m p)
      /\ motoboy (routed m p) = Some (motoboy_id m)
      /\ status (routed m p) = EM_ROTA
      /\ (is_Some (pedido_table (db d) !! pedido_id p) ->
          pedido_table (db d') !! pedido_id p = Some (routed m p))
      /\ (forall j : nat, j <> i -> cards d' !! j = cards d !! j)
      /\ (forall k : Z, k <> pedido_id p ->
            pedido_table (db d') !! k = pedido_table (db d) !! k)
      /\ length (log_table (db d')) = S (length (log_table (db d))))
  /\ (upper (canal p) = BALCAO ->
      cards d' = cards d
      /\ db d' = db d
      /\ toasts d' = toasts d ++ [py "Pedido BALCÃO não pode receber motoboy."])
  /\ (forall step : Z,
        cards (snd (move_selection step d)) = cards d
        /\ db (snd (move_selection step d)) = db d
        /\ route_mode_active (snd (move_selection step d)) = true
        /\ route_motoboy (snd (move_selection step d)) = Some m).
Proof.
  intros Hact Hrm Hcard. simpl.
  assert (Hkeys : forall step : Z,
             cards (snd (move_selection step d)) = cards d
             /\ db (snd (move_selection step d)) = db d
             /\ route_mode_active (snd (move_selection step d)) = true
             /\ route_motoboy (snd (move_selection step d)) = Some m).
  { intros step.
    destruct (move_selection_only_selects step d) as (_ & Hc & Hd & Ha & Hm & _).
    rewrite Hc, Hd, Ha, Hm. repeat split; assumption. }
  destruct (decide (upper (canal p) = BALCAO)) as [Hc|Hc].
  - rewrite (on_click_counter upper usuario i m p d Hact Hrm Hcard Hc).
    rewrite (assign_motoboy_counter upper usuario m (Some EM_ROTA)
               (mkCtl p (db d)) Hc).
    simpl.
    split; [reflexivity|]. split; [exact Hact|]. split; [exact Hrm|].
    split; [reflexivity|]. split; [intros Hne; contradiction|].
    split; [intros _; repeat split | exact Hkeys].
  - destruct (on_click_routed upper usuario i m p d Hact Hrm Hcard Hc)
      as (Hok & Hcards & Hdb & Ha & Hm).
    rewrite (assign_motoboy_run upper usuario m (Some EM_ROTA)
               (mkCtl p (db d)) Hc).
    rewrite assigned_route. simpl.
    split; [exact Hok|]. split; [exact Ha|]. split; [exact Hm|].
    split; [exact Hdb|].
    split; [|split; [intros Hc'; contradiction | exact Hkeys]].
    intros _. rewrite Hcards, Hdb. simpl.
    split; [apply list_lookup_insert_eq; eapply lookup_lt_Some; exact Hcard|].
    split; [reflexivity|]. split; [reflexivity|].
    split; [intros [q Hq]; apply (saved_row_present (routed m p) q); exact Hq|].
    split; [intros j Hj; apply list_lookup_insert_ne; congruence|].
    split; [intros k Hk; apply (saved_row_other (routed m p)); exact Hk|].
    rewrite log_table_save, length_app. simpl. lia.
Qed.

Lemma route_click_witness :
  cards (snd (on_click upper_latin1 seed_admin 1%nat seed_route_dashboard)) !! 1%nat
  = Some (routed (mkMotoboy 1 (py "Carlos") true) seed_ana).
Proof.
  destruct (route_click upper_latin1 seed_admin seed_route_dashboard 1%nat
              seed_ana (mkMotoboy 1 (py "Carlos") true)
              eq_refl eq_refl eq_refl) as (_ & _ & _ & _ & Hrouted & _ & _).
  destruct Hrouted as [H _]; [vm_compute; discriminate | exact H].
Defined.

(** The route mode on the seeded data: it starts with Carlos; a click on
    the counter order fails and is shown, a click on the WhatsApp order
    routes it; the mode is still on, one entry is logged and the counter
    order is as seeded. *)
Example route_session_scenario :
  let run :=
    (toggle_route_mode;;
     on_click upper_latin1 seed_admin 0%nat;;
     on_click upper_latin1 seed_admin 1%nat) seed_dashboard in
  fst run = Ok tt
  /\ route_mode_active (snd run) = true
  /\ cards (snd run)
     = [seed_marcos; routed (mkMotoboy 1 (py "Carlos") true) seed_ana]
  /\ pedido_table (db (snd run)) !! 2 = Some seed_marcos
  /\ pedido_table (db (snd run)) !! 1
     = Some (routed (mkMotoboy 1 (py "Carlos") true) seed_ana)
  /\ length (log_table (db (snd run))) = 1%nat
  /\ toasts (snd run) = [py "Pedido BALCÃO não pode receber motoboy."].
Proof. vm_compute. repeat split. Qed.

Lemma toggle_route_mode_no_courier (d : Dashboard) :
  route_mode_active d = false ->
  active_motoboys (db d) = [] ->
  toggle_route_mode d
  = (Ok tt, with_toasts (toasts d ++ [py "Nenhum motoboy ativo"]) d).
Proof.
  intros Hoff Hnone. unfold toggle_route_mode, active_motoboys_names, toast.
  unfold mbind, M_bind, gets, modify. rewrite Hoff, Hnone. reflexivity.
Qed.

Lemma toggle_route_mode_off (d : Dashboard) :
  route_mode_active d = true ->
  toggle_route_mode d
  = (Ok tt, with_route_motoboy None (with_route_mode_active false d)).
Proof.
  intros Hon. unfold toggle_route_mode.
  unfold mbind, M_bind, gets, modify. rewrite Hon. reflexivity.
Qed.

(** C10: turning the route mode on when some courier is active succeeds
    and holds the first row of the active couriers; nothing but the
    database decides which courier that is. The names of the courier
    table are unique, as its schema demands. *)
Theorem toggle_route_mode_first_active (d : Dashboard) (m0 : Motoboy) :
  route_mode_active d = false ->
  NoDup (nome <$> motoboy_table (db d)) ->
  head (active_motoboys (db d)) = Some m0 ->
  toggle_route_mode d =
  (Ok tt, with_route_mode_active true (with_route_motoboy (Some m0) d))
  /\ route_motoboy (snd (toggle_route_mode d)) = head (active_motoboys (db d))
  /\ route_mode_active (snd (toggle_route_mode d)) = true.
Proof.
  intros Hoff Hnd Hhead.
  assert (E : toggle_route_mode d =
              (Ok tt, with_route_mode_active true (with_route_motoboy (Some m0) d))).
  { unfold toggle_route_mode, active_motoboys_names.
    unfold mbind, M_bind, gets. rewrite Hoff.
    destruct (active_motoboys (db d)) as [|m1 rest] eqn:Hact; [discriminate Hhead|].
    injection Hhead as ->. simpl.
    unfold in_db, Motoboy_get, Motoboy_get_or_none.
    rewrite (first_active_found (motoboy_table (db d)) m0 rest Hnd Hact).
    simpl. destruct d; reflexivity. }
  rewrite E. simpl. repeat split. symmetry. exact Hhead.
Qed.

Lemma toggle_route_mode_first_active_witness :
  route_motoboy (snd (toggle_route_mode seed_dashboard))
  = Some (mkMotoboy 1 (py "Carlos") true).
Proof.
  destruct (toggle_route_mode_first_active seed_dashboard
              (mkMotoboy 1 (py "Carlos") true)) as (_ & H & _).
  - reflexivity.
  - vm_compute. repeat constructor; rewrite ?elem_of_cons, ?elem_of_nil;
      intuition discriminate.
  - reflexivity.
  - rewrite H. reflexivity.
Defined.

(* --------------------------------------------------------------------- *)
(** *** Construction of an order *)
(* --------------------------------------------------------------------- *)

Lemma next_pedido_id_above (t : gmap Z Pedido) (k : Z) :
  is_Some (t !! k) -> k < next_pedido_id t.
Proof.
  unfold next_pedido_id. revert k.
  apply (map_fold_weak_ind
           (fun (b : Z) (m : gmap Z Pedido) => forall k, is_Some (m !! k) -> k < 1 + b)).
  - intros k [x Hx]. rewrite lookup_empty in Hx. discriminate Hx.
  - intros i x m r Hi IH k Hk.
    destruct (decide (i = k)) as [->|Hne].
    + lia.
    + rewrite lookup_insert_ne in Hk by exact Hne. specialize (IH k Hk). lia.
Qed.

Lemma next_pedido_id_fresh (t : gmap Z Pedido) : t !! next_pedido_id t = None.
Proof.
  destruct (t !! next_pedido_id t) eqn:E; [|reflexivity].
  assert (H : is_Some (t !! next_pedido_id t)) by (rewrite E; eauto).
  apply next_pedido_id_above in H. lia.
Qed.

Section SaveOrderFacts.
Variable upper : pystr -> pystr.
Variable usuario : Usuario.
Variable float_of_str : pystr -> float + pystr.

Lemma save_order_table (f : NewOrderForm) (d : Dashboard) :
  pedido_table (db (snd (save_order upper usuario float_of_str f d))) =
  match float_of_str (str_or (form_valor_produtos f) (py "0")), parsed_taxa upper float_of_str f with
  | inl vp, inl tx =>
      match not_null_failure vp tx (vp + tx)%float with
      | None =>
          <[next_pedido_id (pedido_table (db d)) := new_pedido f vp tx (db d)]>
            (pedido_table (db d))
      | Some _ => pedido_table (db d)
      end
  | _, _ => pedido_table (db d)
  end.
Proof.
  unfold save_order, parsed_taxa, to_float, populate_orders, select_card, toast,
    Pedido_create, log.
  unfold try_except, mbind, mret, M_bind, M_ret, gets, modify, in_db, raise.
  simpl.
  destruct (float_of_str (str_or (form_valor_produtos f) (py "0"))) as [vp|e1];
    [|reflexivity].
  destruct (str_eqb (upper (form_canal f)) BALCAO) eqn:Ec; simpl.
  - destruct (str_eqb (form_forma f) A_RECEBER); simpl;
      (destruct (not_null_failure vp 0 (vp + 0)); simpl; [reflexivity|]);
      match goal with |- context [bool_decide (?l = [])] =>
        destruct (bool_decide (l = [])) end; reflexivity.
  - destruct (float_of_str (str_or (form_taxa f) (py "0"))) as [tx|e2];
      [|reflexivity].
    simpl.
    destruct (not_null_failure vp tx (vp + tx)); simpl; [reflexivity|].
    match goal with |- context [bool_decide (?l = [])] =>
      destruct (bool_decide (l = [])) end; reflexivity.
Qed.
End SaveOrderFacts.

Lemma save_order_creates (upper : pystr -> pystr) (usuario : Usuario)
    (float_of_str : pystr -> float + pystr) (f : NewOrderForm) (d : Dashboard)
    (vp tx : float) :
  float_of_str (str_or (form_valor_produtos f) (py "0")) = inl vp ->
  parsed_taxa upper float_of_str f = inl tx ->
  not_null_failure vp tx (vp + tx)%float = None ->
  pedido_table (db (snd (save_order upper usuario float_of_str f d)))
  !! next_pedido_id (pedido_table (db d))
  = Some (new_pedido f vp tx (db d)).
Proof.
  intros Hvp Htx Hnn. rewrite save_order_table, Hvp, Htx, Hnn.
  apply lookup_insert_eq.
Qed.

(** C3: the order that [save_order] creates has [valor_total] equal to
    [valor_produtos + taxa_entrega]; when its channel is BALCÃO the fee is
    zero whatever the fee entry holds; when the payment method is PIX its
    status is PIX PENDENTE and [pix_confirmado] is false, and otherwise
    its status is NOVO and [pix_confirmado] is true. The created order is
    the row found at the key the table gives to its next row. *)
Theorem save_order_new_pedido (upper : pystr -> pystr) (usuario : Usuario)
    (float_of_str : pystr -> float + pystr) (f : NewOrderForm) (d : Dashboard)
    (p : Pedido) :
  pedido_table (db (snd (save_order upper usuario float_of_str f d)))
  !! next_pedido_id (pedido_table (db d)) = Some p ->
  valor_total p = (valor_produtos p + taxa_entrega p)%float
  /\ canal p = form_canal f
  /\ forma_pagamento p = form_forma f
  /\ (upper (canal p) = BALCAO -> taxa_entrega p = 0%float)
  /\ (forma_pagamento p = PIX ->
      status p = PIX_PENDENTE /\ pix_confirmado p = false)
  /\ (forma_pagamento p <> PIX ->
      status p = NOVO /\ pix_confirmado p = true).
Proof.
  rewrite save_order_table.
  destruct (float_of_str (str_or (form_valor_produtos f) (py "0"))) as [vp|e1];
    [|rewrite next_pedido_id_fresh; discriminate].
  destruct (parsed_taxa upper float_of_str f) as [tx|e2] eqn:Htx;
    [|rewrite next_pedido_id_fresh; discriminate].
  destruct (not_null_failure vp tx (vp + tx));
    [rewrite next_pedido_id_fresh; discriminate|].
  rewrite lookup_insert_eq. intros [= <-]. simpl.
  split; [reflexivity|]. split; [reflexivity|]. split; [reflexivity|].
  unfold str_eqb. split; [|split].
  - intros Hc. unfold parsed_taxa, str_eqb in Htx.
    rewrite bool_decide_eq_true_2 in Htx by exact Hc. congruence.
  - intros Hp. rewrite bool_decide_eq_true_2 by exact Hp. split; reflexivity.
  - intros Hp. rewrite bool_decide_eq_false_2 by exact Hp. split; reflexivity.
Qed.

Lemma save_order_new_pedido_witness :
  let p := new_pedido ana_form 42%float 5%float seed_db in
  pedido_table (db (snd (save_order upper_latin1 seed_admin float_of_digits
                           ana_form seed_dashboard))) !! 3 = Some p
  /\ valor_total p = 47%float
  /\ status p = PIX_PENDENTE
  /\ pix_confirmado p = false.
Proof.
  assert (H : pedido_table (db (snd (save_order upper_latin1 seed_admin
                                       float_of_digits ana_form seed_dashboard)))
              !! next_pedido_id (pedido_table (db seed_dashboard))
              = Some (new_pedido ana_form 42%float 5%float seed_db))
    by (vm_compute; reflexivity).
  destruct (save_order_new_pedido upper_latin1 seed_admin float_of_digits
              ana_form seed_dashboard _ H) as (Ht & _ & _ & _ & Hpix & _).
  destruct (Hpix eq_refl) as [Hs Hc].
  split; [exact H|]. split; [rewrite Ht; reflexivity|]. split; assumption.
Defined.

(** The two orders [seed_data] creates obey the same rules. *)
Example seed_rows_constructed :
  Forall (fun p =>
            valor_total p = (valor_produtos p + taxa_entrega p)%float
            /\ (upper_latin1 (canal p) = BALCAO -> taxa_entrega p = 0%float)
            /\ (forma_pagamento p = PIX ->
                status p = PIX_PENDENTE /\ pix_confirmado p = false)
            /\ (forma_pagamento p <> PIX ->
                status p = NOVO /\ pix_confirmado p = true))
    [seed_ana; seed_marcos].
Proof.
  constructor; [|constructor; [|constructor]].
  - split; [reflexivity|].
    split; [intros H; vm_compute in H; discriminate H|].
    split; [intros _; split; reflexivity|].
    intros H. exfalso. apply H. reflexivity.
  - split; [reflexivity|].
    split; [intros _; reflexivity|].
    split; [intros H; vm_compute in H; discriminate H|].
    intros _. split; reflexivity.
Qed.

Example counter_fee_forced_to_zero :
  taxa_entrega
    (new_pedido (mkForm (py "Marcos") BALCAO (py "Centro") (py "25") (py "9") A_RECEBER)
       25%float 0%float seed_db) = 0%float
  /\ parsed_taxa upper_latin1 float_of_digits
       (mkForm (py "Marcos") BALCAO (py "Centro") (py "25") (py "9") A_RECEBER)
     = inl 0%float.
Proof. split; reflexivity. Qed.

(* --------------------------------------------------------------------- *)
(** *** Annotation *)
(* --------------------------------------------------------------------- *)

(** C7, as stated, fails for the controller method and for the handler
    that calls it: [update_observation] with the empty text replaces the
    note of the seeded order and logs, and [save_observation] with the
    entry " x" stores "x". *)
Lemma annotate_counterexample :
  ~ annotate_as_stated (update_observation seed_admin)
  /\ ~ annotate_as_stated (save_observation seed_admin).
Proof.
  split; intros H.
  - destruct (H (py "") (mkCtl seed_ana seed_db)) as [_ Hblank].
    specialize (Hblank eq_refl).
    apply (f_equal (fun r => observacao (this (snd r)))) in Hblank.
    vm_compute in Hblank. discriminate Hblank.
  - destruct (H (py " x") (mkCtl seed_ana seed_db)) as [Htext _].
    assert (Hne : strip (py " x") <> []) by (vm_compute; discriminate).
    specialize (Htext Hne). vm_compute in Htext. discriminate Htext.
Qed.

Lemma panel_refresh_after_log (usuario : Usuario) (a : pystr) (p : Pedido)
    (d : Database) :
  this (snd (panel_refresh
               (mkCtl p (LogAtividade_create (Some usuario) a (Some p)
                           (Pedido_save p d))))) = p.
Proof.
  unfold panel_refresh, Pedido_get_by_id. run_method.
  destruct (pedido_table (Pedido_save p d) !! pedido_id p) as [q|] eqn:E;
    simpl; [|reflexivity].
  apply saved_row_read in E. exact E.
Qed.

(** C7, as amended: the controller's [update_observation] sets the note to
    the text it is given, whatever the text (also empty or blank), logs it
    (the log is the log before with the one entry "Atualizou observação"
    of this user and this order appended) and never fails. The rejection
    of blank text is made by its caller [save_observation], which strips
    the entry: when the stripped entry is empty the order, the database
    and the log are left as they are and nothing is raised; otherwise the
    note becomes the stripped entry, through [update_observation], and
    that one entry is logged. *)
Theorem annotate_effect (usuario : Usuario) (text : pystr) (c : Ctl) :
  fst (update_observation usuario text c) = Ok tt
  /\ observacao (this (snd (update_observation usuario text c))) = Some text
  /\ log_table (store (snd (update_observation usuario text c))) =
       log_table (store c)
       ++ [mkLog (Some (usuario_id usuario)) (py "Atualizou observação")
             (Some (pedido_id (this c))) (now (store c))]
  /\ save_observation usuario text c =
       (if truthy (strip text)
        then (update_observation usuario (strip text);; panel_refresh) c
        else (Ok tt, c))
  /\ (if truthy (strip text)
      then observacao (this (snd (save_observation usuario text c)))
           = Some (strip text)
           /\ log_table (store (snd (save_observation usuario text c))) =
                log_table (store c)
                ++ [mkLog (Some (usuario_id usuario)) (py "Atualizou observação")
                      (Some (pedido_id (this c))) (now (store c))]
      else snd (save_observation usuario text c) = c
           /\ fst (save_observation usuario text c) = Ok tt).
Proof.
  split; [reflexivity|]. split; [reflexivity|].
  split.
  { rewrite update_observation_run. cbn [snd store].
    unfold LogAtividade_create. cbn [log_table with_log_table].
    rewrite log_table_save, now_save. destruct (this c); reflexivity. }
  unfold save_observation. destruct (truthy (strip text)).
  - split; [reflexivity|].
    unfold mbind, M_bind. rewrite update_observation_run.
    split.
    + rewrite panel_refresh_after_log. reflexivity.
    + rewrite panel_refresh_store. cbn [store].
      unfold LogAtividade_create. cbn [log_table with_log_table].
      rewrite log_table_save, now_save. destruct (this c); reflexivity.
  - repeat split.
Qed.

Example save_observation_strips :
  observacao (this (snd (save_observation seed_admin (py "  sem cebola ")
                           (mkCtl seed_marcos seed_db))))
  = Some (py "sem cebola").
Proof. vm_compute. reflexivity. Qed.

(* --------------------------------------------------------------------- *)
(** *** Who writes the order *)
(* --------------------------------------------------------------------- *)

(** C6, as stated, fails: cancelling the seeded counter order is not the
    work of any controller method. The handler writes CANCELADO into the
    order, while no controller method changes the status of that order. *)
Lemma cancel_not_through_controller :
  ~ (forall a : panel_action, through_controller upper_latin1 seed_admin a).
Proof.
  intros H.
  destruct (H ClickCancel (mkCtl seed_marcos seed_db)) as [Hnone | [k Hk]].
  - apply (f_equal (fun r => status (this (snd r)))) in Hnone.
    vm_compute in Hnone. discriminate Hnone.
  - assert (Hst : status (this (snd (run_panel upper_latin1 seed_admin ClickCancel
                                       (mkCtl seed_marcos seed_db)))) = CANCELADO)
      by (vm_compute; reflexivity).
    rewrite Hk in Hst. clear Hk.
    destruct k as [|m st| |obs]; vm_compute in Hst; discriminate Hst.
Qed.

Lemma panel_assign_motoboy_run (upper : pystr -> pystr) (usuario : Usuario)
    (n : pystr) (c : Ctl) :
  panel_assign_motoboy upper usuario n c =
  if truthy n then
    match Motoboy_get_or_none n (store c) with
    | Some m => (assign_motoboy upper usuario m None;; panel_refresh) c
    | None => (Ok tt, c)
    end
  else (Ok tt, c).
Proof.
  unfold panel_assign_motoboy. destruct (truthy n); [|reflexivity].
  unfold mbind at 1, M_bind at 1, gets.
  destruct (Motoboy_get_or_none n (store c)); reflexivity.
Qed.

(** C6, as amended: confirming a payment, receiving a payment, choosing a
    courier and saving a note are done by the panel through the
    controller's methods (or, for an unknown courier name or a blank note,
    not at all). Cancelling is not: [cancel_order] of the panel writes
    CANCELADO into the order whatever its status, leaves its other fields,
    saves it, and only the log entry goes through the controller. *)
Theorem panel_writes (upper : pystr -> pystr) (usuario : Usuario)
    (a : panel_action) :
  match a with
  | ClickCancel =>
      forall c : Ctl,
        run_panel upper usuario ClickCancel c
        = panel_refresh
            (mkCtl (set_status CANCELADO (this c))
               (snd (log usuario (py "Cancelou pedido")
                       (Some (set_status CANCELADO (this c)))
                       (Pedido_save (set_status CANCELADO (this c)) (store c)))))
        /\ this (snd (run_panel upper usuario ClickCancel c))
           = set_status CANCELADO (this c)
        /\ status (this (snd (run_panel upper usuario ClickCancel c))) = CANCELADO
  | _ => through_controller upper usuario a
  end.
Proof.
  destruct a as [| |n|entry|]; try intros c; simpl.
  - right. exists CallConfirmPix. reflexivity.
  - right. exists CallReceivePayment. reflexivity.
  - rewrite panel_assign_motoboy_run. destruct (truthy n); [|left; reflexivity].
    destruct (Motoboy_get_or_none n (store c)) as [m|]; [|left; reflexivity].
    right. exists (CallAssignMotoboy m None). reflexivity.
  - unfold save_observation. destruct (truthy (strip entry)); [|left; reflexivity].
    right. exists (CallUpdateObservation (strip entry)). reflexivity.
  - rewrite cancel_order_run. unfold canceled.
    split; [reflexivity|].
    rewrite panel_refresh_after_log. split; reflexivity.
Qed.

(* ===================================================================== *)
(** ** Further properties of the controller and the panel *)
(* ===================================================================== *)

Lemma panel_refresh_written (usuario : Usuario) (a : pystr) (p : Pedido)
    (d : Database) :
  snd (panel_refresh (written usuario a p d)) = written usuario a p d.
Proof.
  unfold panel_refresh, Pedido_get_by_id, written. run_method.
  destruct (pedido_table (Pedido_save p d) !! pedido_id p) as [q|] eqn:E;
    simpl; [|reflexivity].
  apply saved_row_read in E. rewrite E. reflexivity.
Qed.

Lemma panel_refresh_written_ok (usuario : Usuario) (a : pystr) (p q : Pedido)
    (d : Database) :
  pedido_table d !! pedido_id p = Some q ->
  panel_refresh (written usuario a p d) = (Ok tt, written usuario a p d).
Proof.
  intros Hrow.
  unfold panel_refresh, Pedido_get_by_id, written. run_method.
  rewrite (saved_row_present p q d Hrow). reflexivity.
Qed.

Lemma confirmed_id (p : Pedido) : pedido_id (confirmed p) = pedido_id p.
Proof. unfold confirmed. destruct (str_eqb _ _); reflexivity. Qed.

Lemma assigned_id (m : Motoboy) (st : option pystr) (p : Pedido) :
  pedido_id (assigned m st p) = pedido_id p.
Proof. unfold assigned. destruct st as [s|]; [destruct (truthy s)|]; reflexivity. Qed.

Lemma edit_id (upper : pystr -> pystr) (p p' : Pedido) :
  edit upper p p' -> pedido_id p' = pedido_id p.
Proof.
  intros [| m st _ | | t |]; auto using confirmed_id, assigned_id.
Qed.

(** Every controller method and [cancel_order] either leaves the state as
    it is or makes one edit, saves and logs it. *)
Lemma run_operation_shape (upper : pystr -> pystr) (usuario : Usuario)
    (o : operation) (c : Ctl) :
  snd (run_operation upper usuario o c) = c
  \/ exists (a : pystr) (p' : Pedido),
       edit upper (this c) p'
       /\ snd (run_operation upper usuario o c) = written usuario a p' (store c).
Proof.
  destruct o as [|m st| |text|]; simpl.
  - right. rewrite confirm_pix_run. eexists _, _. split; [apply edit_confirm|reflexivity].
  - destruct (decide (upper (canal (this c)) = BALCAO)) as [E|E].
    + left. rewrite (assign_motoboy_counter upper usuario m st c E). reflexivity.
    + right. rewrite (assign_motoboy_run upper usuario m st c E).
      eexists _, _. split; [apply (edit_assign upper _ m st E)|reflexivity].
  - right. eexists _, _. split; [apply edit_paid|reflexivity].
  - right. eexists _, _. split; [apply (edit_note upper _ text)|reflexivity].
  - right. rewrite cancel_order_run.
    exists (py "Cancelou pedido"), (set_status CANCELADO (this c)).
    split; [apply edit_cancel|]. apply panel_refresh_written.
Qed.

Lemma run_panel_shape (upper : pystr -> pystr) (usuario : Usuario)
    (a : panel_action) (c : Ctl) :
  snd (run_panel upper usuario a c) = c
  \/ exists (act : pystr) (p' : Pedido),
       edit upper (this c) p'
       /\ snd (run_panel upper usuario a c) = written usuario act p' (store c).
Proof.
  destruct a as [| |n|entry|]; simpl.
  - right. unfold panel_confirm_pix, mbind, M_bind. rewrite confirm_pix_run.
    eexists _, _. split; [apply edit_confirm|]. apply panel_refresh_written.
  - right. unfold panel_receive_payment, mbind, M_bind. rewrite receive_payment_run.
    eexists _, _. split; [apply edit_paid|]. apply panel_refresh_written.
  - rewrite panel_assign_motoboy_run. destruct (truthy n); [|left; reflexivity].
    destruct (Motoboy_get_or_none n (store c)) as [m|]; [|left; reflexivity].
    unfold mbind, M_bind.
    destruct (decide (upper (canal (this c)) = BALCAO)) as [E|E].
    + left. rewrite (assign_motoboy_counter upper usuario m None c E). reflexivity.
    + right. rewrite (assign_motoboy_run upper usuario m None c E).
      eexists _, _. split; [apply (edit_assign upper _ m None E)|].
      apply panel_refresh_written.
  - unfold save_observation. destruct (truthy (strip entry)); [|left; reflexivity].
    right. unfold mbind, M_bind. rewrite update_observation_run.
    eexists _, _. split; [apply (edit_note upper _ (strip entry))|].
    apply panel_refresh_written.
  - right. rewrite cancel_order_run.
    exists (py "Cancelou pedido"), (set_status CANCELADO (this c)).
    split; [apply edit_cancel|]. apply panel_refresh_written.
Qed.

Lemma edit_same_data (upper : pystr -> pystr) (p p' : Pedido) :
  edit upper p p' -> same_order_data p p'.
Proof.
  intros [| m st _ | | t |]; unfold same_order_data, confirmed, assigned.
  - destruct (str_eqb _ _); repeat split.
  - destruct st as [s|]; [destruct (truthy s)|]; repeat split.
  - repeat split.
  - repeat split.
  - repeat split.
Qed.

Lemma same_order_data_refl (p : Pedido) : same_order_data p p.
Proof. repeat split. Qed.

Lemma order_data_kept_aux (upper : pystr -> pystr) (usuario : Usuario)
    (o : operation) (a : panel_action) (c : Ctl) :
  same_order_data (this c) (this (snd (run_operation upper usuario o c)))
  /\ same_order_data (this c) (this (snd (run_panel upper usuario a c))).
Proof.
  split.
  - destruct (run_operation_shape upper usuario o c) as [-> | (act & p' & He & ->)].
    + apply same_order_data_refl.
    + simpl. apply (edit_same_data upper). exact He.
  - destruct (run_panel_shape upper usuario a c) as [-> | (act & p' & He & ->)].
    + apply same_order_data_refl.
    + simpl. apply (edit_same_data upper). exact He.
Qed.

(** X1: no controller method and no panel handler changes the identity,
    the customer, the channel, the amounts, the neighbourhood or the
    creation time of the order it works on; an order whose total is the
    sum of its two amounts keeps that property. *)
Theorem order_data_kept (upper : pystr -> pystr) (usuario : Usuario)
    (o : operation) (a : panel_action) (c : Ctl) :
  same_order_data (this c) (this (snd (run_operation upper usuario o c)))
  /\ same_order_data (this c) (this (snd (run_panel upper usuario a c)))
  /\ (valor_total (this c)
      = (valor_produtos (this c) + taxa_entrega (this c))%float ->
      let p1 := this (snd (run_operation upper usuario o c)) in
      let p2 := this (snd (run_panel upper usuario a c)) in
      valor_total p1 = (valor_produtos p1 + taxa_entrega p1)%float
      /\ valor_total p2 = (valor_produtos p2 + taxa_entrega p2)%float).
Proof.
  destruct (order_data_kept_aux upper usuario o a c) as [H1 H2].
  split; [exact H1|]. split; [exact H2|].
  intros Ht. simpl.
  destruct H1 as (_ & _ & _ & Hv1 & Hx1 & Ht1 & _).
  destruct H2 as (_ & _ & _ & Hv2 & Hx2 & Ht2 & _).
  rewrite Hv1, Hx1, Ht1, Hv2, Hx2, Ht2. split; exact Ht.
Qed.

Lemma edit_pix_confirmado (upper : pystr -> pystr) (p p' : Pedido) :
  edit upper p p' -> pix_confirmado p = true -> pix_confirmado p' = true.
Proof.
  intros [| m st _ | | t |] Hp; unfold confirmed, assigned; simpl.
  - destruct (str_eqb _ _); reflexivity.
  - destruct st as [s|]; [destruct (truthy s)|]; exact Hp.
  - exact Hp.
  - exact Hp.
  - exact Hp.
Qed.

Lemma rows_pix_kept (upper : pystr -> pystr) (usuario : Usuario) (c c' : Ctl) :
  (c' = c
   \/ exists (act : pystr) (p' : Pedido),
        edit upper (this c) p' /\ c' = written usuario act p' (store c)) ->
  pix_confirmado (this c) = true ->
  forall (k : Z) (q q' : Pedido),
    pedido_table (store c) !! k = Some q -> pix_confirmado q = true ->
    pedido_table (store c') !! k = Some q' -> pix_confirmado q' = true.
Proof.
  intros [-> | (act & p' & He & ->)] Hp k q q' Hq Hpq Hq'.
  - congruence.
  - change (pedido_table (store (written usuario act p' (store c))))
      with (pedido_table (Pedido_save p' (store c))) in Hq'.
    destruct (decide (k = pedido_id p')) as [->|Hk].
    + apply saved_row_read in Hq'. subst q'.
      apply (edit_pix_confirmado upper (this c)); assumption.
    + rewrite saved_row_other in Hq' by exact Hk. congruence.
Qed.

(** X2: a confirmation is not undone through an instance that has it. When
    the order instance a controller method or a panel handler works on
    has [pix_confirmado] set, then after the method or handler, on
    success or failure, the instance still has it set, and every stored
    row that had it set still has it set, the row of this order among
    them. The hypothesis is on the instance: a save writes the whole row
    from the instance, so an instance read before a confirmation writes
    its unset flag back (see [stale_instance_unsets_row]). *)
Theorem pix_confirmado_stays (upper : pystr -> pystr) (usuario : Usuario)
    (o : operation) (a : panel_action) (c : Ctl) :
  pix_confirmado (this c) = true ->
  let c1 := snd (run_operation upper usuario o c) in
  let c2 := snd (run_panel upper usuario a c) in
  pix_confirmado (this c1) = true
  /\ pix_confirmado (this c2) = true
  /\ (forall (k : Z) (q q' : Pedido),
        pedido_table (store c) !! k = Some q -> pix_confirmado q = true ->
        pedido_table (store c1) !! k = Some q' -> pix_confirmado q' = true)
  /\ (forall (k : Z) (q q' : Pedido),
        pedido_table (store c) !! k = Some q -> pix_confirmado q = true ->
        pedido_table (store c2) !! k = Some q' -> pix_confirmado q' = true).
Proof.
  intros Hp. cbv zeta. split; [|split; [|split]].
  - destruct (run_operation_shape upper usuario o c) as [-> | (act & p' & He & ->)];
      [exact Hp|]. simpl. apply (edit_pix_confirmado upper (this c)); assumption.
  - destruct (run_panel_shape upper usuario a c) as [-> | (act & p' & He & ->)];
      [exact Hp|]. simpl. apply (edit_pix_confirmado upper (this c)); assumption.
  - apply (rows_pix_kept upper usuario c); [|exact Hp].
    apply run_operation_shape.
  - apply (rows_pix_kept upper usuario c); [|exact Hp].
    apply run_panel_shape.
Qed.

Lemma pix_confirmado_stays_witness :
  pix_confirmado seed_marcos = true
  /\ pix_confirmado
       (this (snd (run_operation upper_latin1 seed_admin Cancel
                     (mkCtl seed_marcos seed_db)))) = true
  /\ (pix_confirmado <$>
        pedido_table (store (snd (run_panel upper_latin1 seed_admin ClickCancel
                                    (mkCtl seed_marcos seed_db)))) !! 2)
     = Some true.
Proof.
  destruct (pix_confirmado_stays upper_latin1 seed_admin Cancel ClickCancel
              (mkCtl seed_marcos seed_db) eq_refl) as (H1 & _ & _ & H4).
  split; [reflexivity|]. split; [exact H1|].
  destruct (pedido_table (store (snd (run_panel upper_latin1 seed_admin ClickCancel
                                        (mkCtl seed_marcos seed_db)))) !! 2)
    as [q'|] eqn:E.
  - simpl. f_equal. apply (H4 2 seed_marcos q'); [reflexivity|reflexivity|exact E].
  - vm_compute in E. discriminate E.
Defined.

(** The limit of X2: an instance of the seeded PIX order that was read
    before the payment was confirmed still has the flag unset, and
    [receive_payment] on it stores the whole instance: the row, confirmed
    before, is unconfirmed after. *)
Example stale_instance_unsets_row :
  let d := store (snd (confirm_pix seed_admin (mkCtl seed_ana seed_db))) in
  (pix_confirmado <$> pedido_table d !! 1) = Some true
  /\ (pix_confirmado <$>
        pedido_table (store (snd (receive_payment seed_admin (mkCtl seed_ana d)))) !! 1)
     = Some false.
Proof. vm_compute. split; reflexivity. Qed.

Lemma edit_counter_motoboy (upper : pystr -> pystr) (p p' : Pedido) :
  edit upper p p' -> upper (canal p) = BALCAO -> motoboy p' = motoboy p.
Proof.
  intros [| m st Hne | | t |] Hc; unfold confirmed; simpl.
  - destruct (str_eqb _ _); reflexivity.
  - contradiction.
  - reflexivity.
  - reflexivity.
  - reflexivity.
Qed.

(** X3: a counter order never receives a courier: whatever controller
    method or panel handler runs on an order whose channel is BALCÃO, its
    [motoboy] is what it was and its channel is still BALCÃO. *)
Theorem counter_order_keeps_motoboy (upper : pystr -> pystr) (usuario : Usuario)
    (o : operation) (a : panel_action) (c : Ctl) :
  upper (canal (this c)) = BALCAO ->
  let p1 := this (snd (run_operation upper usuario o c)) in
  let p2 := this (snd (run_panel upper usuario a c)) in
  motoboy p1 = motoboy (this c)
  /\ upper (canal p1) = BALCAO
  /\ motoboy p2 = motoboy (this c)
  /\ upper (canal p2) = BALCAO.
Proof.
  intros Hc. simpl.
  destruct (order_data_kept_aux upper usuario o a c) as [H1 H2].
  destruct H1 as (_ & _ & Hc1 & _). destruct H2 as (_ & _ & Hc2 & _).
  rewrite Hc1, Hc2.
  split; [|split; [exact Hc|split; [|exact Hc]]].
  - destruct (run_operation_shape upper usuario o c) as [-> | (act & p' & He & ->)];
      [reflexivity|]. simpl. apply (edit_counter_motoboy upper); assumption.
  - destruct (run_panel_shape upper usuario a c) as [-> | (act & p' & He & ->)];
      [reflexivity|]. simpl. apply (edit_counter_motoboy upper); assumption.
Qed.

Lemma counter_order_keeps_motoboy_witness :
  motoboy
    (this (snd (run_panel upper_latin1 seed_admin (ChooseMotoboy (py "Carlos"))
                  (mkCtl seed_marcos seed_db)))) = None.
Proof.
  apply (counter_order_keeps_motoboy upper_latin1 seed_admin
           (AssignCourier (mkMotoboy 1 (py "Carlos") true) None)
           (ChooseMotoboy (py "Carlos")) (mkCtl seed_marcos seed_db)).
  reflexivity.
Defined.

Lemma dom_save (p : Pedido) (d : Database) :
  dom (pedido_table (Pedido_save p d)) = dom (pedido_table d).
Proof.
  unfold Pedido_save.
  destruct (pedido_table d !! pedido_id p) as [q|] eqn:E; simpl; [|reflexivity].
  apply dom_insert_lookup_L. rewrite E. eauto.
Qed.

Lemma run_operation_ok_shape (upper : pystr -> pystr) (usuario : Usuario)
    (o : operation) (c c' : Ctl) :
  run_operation upper usuario o c = (Ok tt, c') ->
  exists (a : pystr) (p' : Pedido),
    edit upper (this c) p' /\ c' = written usuario a p' (store c).
Proof.
  intros H.
  assert (Hc : c' = snd (run_operation upper usuario o c)) by (rewrite H; reflexivity).
  destruct o as [|m st| |text|]; simpl in *.
  - rewrite confirm_pix_run in Hc. eexists _, _. split; [apply edit_confirm|exact Hc].
  - destruct (decide (upper (canal (this c)) = BALCAO)) as [E|E].
    + rewrite (assign_motoboy_counter upper usuario m st c E) in H. discriminate H.
    + rewrite (assign_motoboy_run upper usuario m st c E) in Hc.
      eexists _, _. split; [apply (edit_assign upper _ m st E)|exact Hc].
  - eexists _, _. split; [apply edit_paid|exact Hc].
  - eexists _, _. split; [apply (edit_note upper _ text)|exact Hc].
  - rewrite cancel_order_run in Hc. unfold canceled in Hc.
    exists (py "Cancelou pedido"), (set_status CANCELADO (this c)).
    split; [apply edit_cancel|].
    rewrite Hc. apply (panel_refresh_written usuario (py "Cancelou pedido")).
Qed.

(** X4: a successful operation on an order that has a row is stored: the
    row of the order is the instance the operation leaves, reading the
    order again returns it, every other row is as before and no row is
    added or removed. *)
Theorem operation_persists (upper : pystr -> pystr) (usuario : Usuario)
    (o : operation) (c c' : Ctl) (q : Pedido) :
  pedido_table (store c) !! pedido_id (this c) = Some q ->
  run_operation upper usuario o c = (Ok tt, c') ->
  pedido_table (store c') !! pedido_id (this c) = Some (this c')
  /\ Pedido_get_by_id (pedido_id (this c')) (store c') = (Ok (this c'), store c')
  /\ (forall k : Z, k <> pedido_id (this c) ->
        pedido_table (store c') !! k = pedido_table (store c) !! k)
  /\ dom (pedido_table (store c')) = dom (pedido_table (store c)).
Proof.
  intros Hrow Hrun.
  destruct (run_operation_ok_shape upper usuario o c c' Hrun)
    as (a & p' & He & ->).
  pose proof (edit_id upper _ _ He) as Hid. simpl.
  assert (Hsaved : pedido_table (Pedido_save p' (store c)) !! pedido_id (this c)
                   = Some p').
  { rewrite <- Hid. apply (saved_row_present p' q). rewrite Hid. exact Hrow. }
  split; [exact Hsaved|]. split.
  - unfold Pedido_get_by_id. simpl. rewrite Hid, Hsaved. reflexivity.
  - split; [|apply dom_save].
    intros k Hk. apply saved_row_other. rewrite Hid. exact Hk.
Qed.

Lemma operation_persists_witness :
  pedido_table
    (store (snd (run_operation upper_latin1 seed_admin MarkPaid
                   (mkCtl seed_ana seed_db)))) !! 1
  = Some (set_forma_pagamento PAGO seed_ana).
Proof.
  destruct (operation_persists upper_latin1 seed_admin MarkPaid
              (mkCtl seed_ana seed_db)
              (snd (run_operation upper_latin1 seed_admin MarkPaid
                      (mkCtl seed_ana seed_db)))
              seed_ana) as [H _].
  - vm_compute. reflexivity.
  - reflexivity.
  - exact H.
Defined.

(** X10: a panel handler either writes nothing at all (no order row and
    no log entry changes), or it logs exactly one entry, for the order
    and the user at hand, stamped with the current time; it never removes
    or alters an earlier entry and never adds or removes an order row. *)
Theorem panel_action_log (upper : pystr -> pystr) (usuario : Usuario)
    (a : panel_action) (c : Ctl) :
  let c' := snd (run_panel upper usuario a c) in
  (store c' = store c
   \/ exists e : LogAtividade,
        log_table (store c') = log_table (store c) ++ [e]
        /\ log_pedido e = Some (pedido_id (this c))
        /\ log_usuario e = Some (usuario_id usuario)
        /\ log_criado_em e = now (store c))
  /\ log_table (store c) `prefix_of` log_table (store c')
  /\ dom (pedido_table (store c')) = dom (pedido_table (store c)).
Proof.
  simpl.
  destruct (run_panel_shape upper usuario a c) as [-> | (act & p' & He & ->)].
  - split; [left; reflexivity|]. split; reflexivity.
  - pose proof (edit_id upper _ _ He) as Hid. simpl.
    rewrite log_table_save, now_save, Hid.
    split; [right; eexists; repeat split|].
    split; [apply prefix_app_r; reflexivity|apply dom_save].
Qed.

Lemma canceled_written (usuario : Usuario) (c : Ctl) :
  canceled usuario c
  = written usuario (py "Cancelou pedido") (set_status CANCELADO (this c)) (store c).
Proof. reflexivity. Qed.

Lemma edit_again (upper : pystr -> pystr) (usuario : Usuario) (o : operation)
    (c : Ctl) (a : pystr) (p' : Pedido) (d' : Database) :
  snd (run_operation upper usuario o c) = written usuario a p' (store c) ->
  exists a' : pystr,
    snd (run_operation upper usuario o (mkCtl p' d')) = written usuario a' p' d'
    /\ (fst (run_operation upper usuario o c) = Ok tt ->
        is_Some (pedido_table d' !! pedido_id p') ->
        fst (run_operation upper usuario o (mkCtl p' d')) = Ok tt).
Proof.
  destruct o as [|m st| |text|]; simpl.
  - rewrite !confirm_pix_run. simpl. intros [= <- _]. eexists. split; [|reflexivity].
    unfold written. f_equal.
    + unfold confirmed. destruct (str_eqb (status (this c)) PIX_PENDENTE) eqn:E;
        simpl; [reflexivity|]. rewrite E. reflexivity.
    + unfold confirmed. destruct (str_eqb (status (this c)) PIX_PENDENTE) eqn:E;
        simpl; [reflexivity|]. rewrite E. reflexivity.
  - destruct (decide (upper (canal (this c)) = BALCAO)) as [E|E].
    + rewrite (assign_motoboy_counter upper usuario m st c E). simpl.
      intros Hc. exfalso.
      apply (f_equal (fun x => length (log_table (store x)))) in Hc.
      simpl in Hc. rewrite log_table_save, length_app in Hc. simpl in Hc. lia.
    + rewrite (assign_motoboy_run upper usuario m st c E). simpl.
      intros [= <- _].
      assert (E' : upper (canal (this (mkCtl (assigned m st (this c)) d'))) <> BALCAO).
      { simpl. unfold assigned.
        destruct st as [s|]; [destruct (truthy s)|]; exact E. }
      rewrite (assign_motoboy_run upper usuario m st _ E'). simpl.
      eexists. split; [|reflexivity]. unfold written. f_equal.
      * unfold assigned. destruct st as [s|]; [destruct (truthy s)|]; reflexivity.
      * unfold assigned. destruct st as [s|]; [destruct (truthy s)|]; reflexivity.
  - intros [= <- _]. eexists. split; reflexivity.
  - intros [= <- _]. eexists. split; reflexivity.
  - rewrite !cancel_order_run, !canceled_written.
    rewrite (panel_refresh_written usuario (py "Cancelou pedido")).
    unfold written at 1 2. intros [= <- _]. exists (py "Cancelou pedido").
    cbn [this store].
    rewrite (panel_refresh_written usuario (py "Cancelou pedido")).
    split; [reflexivity|]. intros _ [q Hq].
    rewrite (panel_refresh_written_ok usuario (py "Cancelou pedido")
               (set_status CANCELADO (set_status CANCELADO (this c))) q d' Hq).
    reflexivity.
Qed.

Lemma save_again (p : Pedido) (d : Database) (l : list LogAtividade) :
  pedido_table (Pedido_save p (with_log_table l (Pedido_save p d)))
  = pedido_table (Pedido_save p d).
Proof.
  unfold Pedido_save.
  destruct (pedido_table d !! pedido_id p) as [q|] eqn:E; simpl.
  - rewrite lookup_insert_eq. simpl. apply insert_insert_eq.
  - rewrite E. reflexivity.
Qed.

(** X5: repeating an operation is harmless for the order: running the
    same operation twice in a row leaves the same order instance and the
    same order table as running it once; when the first run succeeds on
    an order that has a row, the second succeeds too and the log holds
    two new entries. *)
Theorem operation_repeated (upper : pystr -> pystr) (usuario : Usuario)
    (o : operation) (c : Ctl) :
  let once := run_operation upper usuario o c in
  let twice := (run_operation upper usuario o;; run_operation upper usuario o) c in
  this (snd twice) = this (snd once)
  /\ pedido_table (store (snd twice)) = pedido_table (store (snd once))
  /\ (fst once = Ok tt ->
      is_Some (pedido_table (store c) !! pedido_id (this c)) ->
      fst twice = Ok tt
      /\ length (log_table (store (snd twice)))
         = S (S (length (log_table (store c))))).
Proof.
  simpl. unfold mbind, M_bind.
  destruct (run_operation upper usuario o c) as [[[]|e] c1] eqn:Hrun; simpl.
  - destruct (run_operation_ok_shape upper usuario o c c1 Hrun)
      as (a & p' & He & ->).
    assert (Hs : snd (run_operation upper usuario o c)
                 = written usuario a p' (store c)) by (rewrite Hrun; reflexivity).
    destruct (edit_again upper usuario o c a p' (store (written usuario a p' (store c))) Hs)
      as (a' & Hsnd & Hok).
    change (mkCtl p' (store (written usuario a p' (store c))))
      with (written usuario a p' (store c)) in Hsnd, Hok.
    rewrite Hsnd. simpl.
    split; [reflexivity|].
    split; [apply (save_again p' (store c))|].
    intros _ [q Hq]. split.
    + apply Hok; [rewrite Hrun; reflexivity|].
      simpl. pose proof (edit_id upper _ _ He) as Hid.
      rewrite (saved_row_present p' q); [eauto|]. rewrite Hid. exact Hq.
    + rewrite !log_table_save. simpl. rewrite log_table_save, !length_app. simpl. lia.
  - split; [reflexivity|]. split; [reflexivity|]. discriminate.
Qed.

(* --------------------------------------------------------------------- *)
(** *** Alerts and the panel after an operation *)
(* --------------------------------------------------------------------- *)

Lemma pix_alert_shown (upper : pystr -> pystr) (order : Pedido) :
  PIX_PENDING_ALERT ∈ alert_texts upper order
  <-> confirm_pix_btn_enabled upper order = true.
Proof.
  destruct alert_tags_distinct as (D12 & D13 & D23).
  rewrite alert_texts_emitted.
  destruct (emitted_spec
              (str_eqb (upper (forma_pagamento order)) PIX
               && negb (pix_confirmado order))
              (str_eqb (upper (canal order)) BALCAO
               && str_eqb (upper (forma_pagamento order)) A_RECEBER)
              (has_observacao order)
              PIX_PENDING_ALERT PAY_ON_PICKUP_ALERT HAS_NOTE_ALERT
              D12 D13 D23) as (E1 & _).
  exact E1.
Qed.

(** X7: the CONFIRMAR PIX button of the panel is enabled exactly for the
    orders that show the PIX alert; after [confirm_pix], on any order,
    the button is disabled and the PIX alert is gone, so the panel offers
    no second confirmation. *)
Theorem confirm_pix_clears_alert (upper : pystr -> pystr) (usuario : Usuario)
    (c : Ctl) :
  (forall order : Pedido,
     confirm_pix_btn_enabled upper order = true
     <-> PIX_PENDING_ALERT ∈ alert_texts upper order)
  /\ confirm_pix_btn_enabled upper (this (snd (confirm_pix usuario c))) = false
  /\ (PIX_PENDING_ALERT ∉ alert_texts upper (this (snd (confirm_pix usuario c))))
  /\ confirm_pix_btn_enabled upper
       (this (snd (panel_confirm_pix usuario c))) = false.
Proof.
  assert (Hoff : confirm_pix_btn_enabled upper (confirmed (this c)) = false).
  { unfold confirm_pix_btn_enabled, confirmed.
    destruct (str_eqb (status (this c)) PIX_PENDENTE); simpl;
      rewrite andb_false_r; reflexivity. }
  split; [intros order; symmetry; apply pix_alert_shown|].
  rewrite confirm_pix_run. simpl.
  split; [exact Hoff|]. split.
  - rewrite pix_alert_shown, Hoff. discriminate.
  - unfold panel_confirm_pix, mbind, M_bind. rewrite confirm_pix_run.
    change (mkCtl (confirmed (this c)) _)
      with (written usuario (py "Confirmou PIX") (confirmed (this c)) (store c)).
    rewrite panel_refresh_written. exact Hoff.
Qed.

(** X6: once an order is marked as paid it shows no payment alert: after
    [receive_payment] the only alert left is the one for a note, the
    CONFIRMAR PIX button is disabled, and the status and the PIX
    confirmation flag are what they were. *)
Theorem receive_payment_clears_alerts (upper : pystr -> pystr)
    (usuario : Usuario) (c : Ctl) :
  upper PAGO = PAGO ->
  let p' := this (snd (receive_payment usuario c)) in
  forma_pagamento p' = PAGO
  /\ alert_texts upper p'
     = (if has_observacao (this c) then [HAS_NOTE_ALERT] else [])
  /\ confirm_pix_btn_enabled upper p' = false
  /\ status p' = status (this c)
  /\ pix_confirmado p' = pix_confirmado (this c).
Proof.
  intros Hup. simpl.
  assert (H1 : str_eqb PAGO PIX = false) by reflexivity.
  assert (H2 : str_eqb PAGO A_RECEBER = false) by reflexivity.
  split; [reflexivity|]. split.
  - rewrite alert_texts_emitted. simpl. rewrite Hup, H1, H2.
    rewrite andb_false_r. unfold emitted, has_observacao. simpl.
    destruct (observacao (this c)) as [o|]; [destruct (truthy o)|]; reflexivity.
  - unfold confirm_pix_btn_enabled. simpl. rewrite Hup, H1.
    repeat split.
Qed.

Lemma receive_payment_clears_alerts_witness :
  alert_texts upper_latin1
    (this (snd (receive_payment seed_admin (mkCtl seed_marcos seed_db)))) = [].
Proof.
  destruct (receive_payment_clears_alerts upper_latin1 seed_admin
              (mkCtl seed_marcos seed_db)) as (_ & H & _).
  - reflexivity.
  - rewrite H. reflexivity.
Defined.

(** X8: the panel cannot remove a note: an order that has a non-empty
    note still has one after any panel handler, and after
    [save_observation] with an entry that is not blank the order has the
    stripped entry as its note and shows the note alert. *)
Theorem panel_keeps_note (upper : pystr -> pystr) (usuario : Usuario)
    (a : panel_action) (entry : pystr) (c : Ctl) :
  (has_observacao (this c) = true ->
   has_observacao (this (snd (run_panel upper usuario a c))) = true)
  /\ (strip entry <> [] ->
      observacao (this (snd (save_observation usuario entry c)))
      = Some (strip entry)
      /\ HAS_NOTE_ALERT
         ∈ alert_texts upper (this (snd (save_observation usuario entry c)))).
Proof.
  split.
  - intros Hn. destruct a as [| |n|e|]; simpl.
    + unfold panel_confirm_pix, mbind, M_bind. rewrite confirm_pix_run.
      change (mkCtl (confirmed (this c)) _)
        with (written usuario (py "Confirmou PIX") (confirmed (this c)) (store c)).
      rewrite panel_refresh_written. simpl.
      unfold has_observacao, confirmed in *.
      destruct (str_eqb (status (this c)) PIX_PENDENTE); exact Hn.
    + unfold panel_receive_payment, mbind, M_bind. rewrite receive_payment_run.
      change (mkCtl (set_forma_pagamento PAGO (this c)) _)
        with (written usuario (py "Recebeu pagamento")
                (set_forma_pagamento PAGO (this c)) (store c)).
      rewrite panel_refresh_written. exact Hn.
    + rewrite panel_assign_motoboy_run. destruct (truthy n); [|exact Hn].
      destruct (Motoboy_get_or_none n (store c)) as [m|]; [|exact Hn].
      unfold mbind, M_bind.
      destruct (decide (upper (canal (this c)) = BALCAO)) as [E|E].
      * rewrite (assign_motoboy_counter upper usuario m None c E). exact Hn.
      * rewrite (assign_motoboy_run upper usuario m None c E).
        change (mkCtl (assigned m None (this c)) _)
          with (written usuario (py "Atribuiu motoboy " ++ nome m)
                  (assigned m None (this c)) (store c)).
        rewrite panel_refresh_written. exact Hn.
    + unfold save_observation. destruct (truthy (strip e)) eqn:Et; [|exact Hn].
      unfold mbind, M_bind. rewrite update_observation_run.
      change (mkCtl (set_observacao (Some (strip e)) (this c)) _)
        with (written usuario (py "Atualizou observação")
                (set_observacao (Some (strip e)) (this c)) (store c)).
      rewrite panel_refresh_written. exact Et.
    + rewrite cancel_order_run, canceled_written, panel_refresh_written. exact Hn.
  - intros Hne.
    assert (Et : truthy (strip entry) = true)
      by (destruct (strip entry); [contradiction|reflexivity]).
    unfold save_observation. rewrite Et.
    unfold mbind, M_bind. rewrite update_observation_run.
    change (mkCtl (set_observacao (Some (strip entry)) (this c)) _)
      with (written usuario (py "Atualizou observação")
              (set_observacao (Some (strip entry)) (this c)) (store c)).
    rewrite panel_refresh_written. simpl. split; [reflexivity|].
    destruct alert_tags_distinct as (D12 & D13 & D23).
    rewrite alert_texts_emitted.
    match goal with |- _ ∈ emitted ?b1 ?b2 ?b3 _ _ _ =>
      destruct (emitted_spec b1 b2 b3
                  PIX_PENDING_ALERT PAY_ON_PICKUP_ALERT HAS_NOTE_ALERT
                  D12 D13 D23) as (_ & _ & E3 & _)
    end.
    apply E3. exact Et.
Qed.

Lemma get_or_none_nome (n : pystr) (d : Database) (m : Motoboy) :
  Motoboy_get_or_none n d = Some m -> nome m = n /\ m ∈ motoboy_table d.
Proof.
  unfold Motoboy_get_or_none. intros H.
  assert (Hin : m ∈ filter (fun x => nome x = n) (motoboy_table d)).
  { destruct (filter (fun x => nome x = n) (motoboy_table d)) as [|x l];
      [discriminate H|]. injection H as ->. apply list_elem_of_here. }
  apply list_elem_of_filter in Hin. exact Hin.
Qed.

(** X9: choosing a courier in the panel. With the empty choice or a name
    no courier has, nothing happens: order, rows and log are as before.
    With the name of a courier, active or not, and an order that is not
    BALCÃO and has a row, the order gets that courier, keeps its status
    and one entry is logged; on a BALCÃO order the handler fails with the
    controller's message and nothing changes. *)
Theorem choose_motoboy_effect (upper : pystr -> pystr) (usuario : Usuario)
    (n : pystr) (c : Ctl) :
  let r := panel_assign_motoboy upper usuario n c in
  ((n = [] \/ Motoboy_get_or_none n (store c) = None) -> r = (Ok tt, c))
  /\ (forall m : Motoboy,
        n <> [] ->
        Motoboy_get_or_none n (store c) = Some m ->
        nome m = n
        /\ (upper (canal (this c)) = BALCAO ->
            r = (Raise (ValueError (py "Pedido BALCÃO não pode receber motoboy.")), c))
        /\ (upper (canal (this c)) <> BALCAO ->
            is_Some (pedido_table (store c) !! pedido_id (this c)) ->
            fst r = Ok tt
            /\ this (snd r) = set_motoboy (Some (motoboy_id m)) (this c)
            /\ status (this (snd r)) = status (this c)
            /\ length (log_table (store (snd r)))
               = S (length (log_table (store c))))).
Proof.
  simpl. rewrite panel_assign_motoboy_run. split.
  - intros [-> | Hnone]; [reflexivity|].
    destruct (truthy n); [|reflexivity]. rewrite Hnone. reflexivity.
  - intros m Hn Hget.
    assert (Et : truthy n = true) by (destruct n; [contradiction|reflexivity]).
    rewrite Et, Hget. unfold mbind, M_bind.
    split; [apply (get_or_none_nome n (store c) m Hget)|]. split.
    + intros E. rewrite (assign_motoboy_counter upper usuario m None c E).
      reflexivity.
    + intros E [q Hq]. rewrite (assign_motoboy_run upper usuario m None c E).
      change (mkCtl (assigned m None (this c)) _)
        with (written usuario (py "Atribuiu motoboy " ++ nome m)
                (assigned m None (this c)) (store c)).
      rewrite (panel_refresh_written_ok usuario _ (assigned m None (this c)) q
                 (store c) Hq).
      simpl. rewrite log_table_save, length_app. simpl.
      repeat split. lia.
Qed.

Example choose_inactive_motoboy :
  let d := mkDatabase (pedido_table seed_db)
             [mkMotoboy 1 (py "Carlos") false] seed_bairros [] 0 in
  motoboy (this (snd (panel_assign_motoboy upper_latin1 seed_admin (py "Carlos")
                        (mkCtl seed_ana d)))) = Some 1.
Proof. vm_compute. reflexivity. Qed.

(* ===================================================================== *)
(** ** Further properties of the dashboard *)
(* ===================================================================== *)

Section DashboardFacts.

Variable upper : pystr -> pystr.
Variable usuario : Usuario.

Lemma on_click_inactive (i : nat) (d : Dashboard) :
  route_mode_active d = false ->
  on_click upper usuario i d = (Ok tt, with_selected_card (Some i) d).
Proof.
  intros Hoff. unfold on_click, select_card.
  unfold mbind, M_bind, modify, gets. simpl. rewrite Hoff. reflexivity.
Qed.

Lemma on_click_no_courier (i : nat) (d : Dashboard) :
  route_motoboy d = None ->
  on_click upper usuario i d = (Ok tt, with_selected_card (Some i) d).
Proof.
  intros Hnone. unfold on_click, route_assign_order, select_card.
  unfold mbind, M_bind, modify, gets. simpl.
  destruct (route_mode_active d); [|reflexivity].
  simpl. rewrite Hnone. reflexivity.
Qed.

Lemma on_click_no_card (i : nat) (m : Motoboy) (d : Dashboard) :
  route_mode_active d = true ->
  route_motoboy d = Some m ->
  cards d !! i = None ->
  on_click upper usuario i d = (Ok tt, with_selected_card (Some i) d).
Proof.
  intros Hact Hrm Hcard. rewrite (on_click_active upper usuario i m d Hact Hrm).
  unfold try_except, mbind, M_bind, refresh_single_order_card, on_card. simpl.
  rewrite Hcard. simpl. rewrite Hcard. reflexivity.
Qed.

(** What a click does, in every case. *)
Lemma on_click_cases (i : nat) (d : Dashboard) :
  on_click upper usuario i d = (Ok tt, with_selected_card (Some i) d)
  \/ exists (m : Motoboy) (p : Pedido),
       route_mode_active d = true
       /\ route_motoboy d = Some m
       /\ cards d !! i = Some p
       /\ ((upper (canal p) = BALCAO
            /\ on_click upper usuario i d
               = (Ok tt,
                  with_toasts
                    (toasts d ++ [py "Pedido BALCÃO não pode receber motoboy."])
                    (with_selected_card (Some i) d)))
           \/ (upper (canal p) <> BALCAO
               /\ fst (on_click upper usuario i d) = Ok tt
               /\ cards (snd (on_click upper usuario i d))
                  = <[i := routed m p]> (cards d)
               /\ db (snd (on_click upper usuario i d))
                  = store (written usuario (py "Atribuiu motoboy " ++ nome m)
                             (routed m p) (db d))
               /\ route_mode_active (snd (on_click upper usuario i d)) = true
               /\ route_motoboy (snd (on_click upper usuario i d)) = Some m)).
Proof.
  destruct (route_mode_active d) eqn:Hact;
    [|left; apply on_click_inactive; exact Hact].
  destruct (route_motoboy d) as [m|] eqn:Hrm;
    [|left; apply on_click_no_courier; exact Hrm].
  destruct (cards d !! i) as [p|] eqn:Hcard;
    [|left; apply (on_click_no_card i m); assumption].
  right. exists m, p. repeat (split; [reflexivity|]).
  destruct (decide (upper (canal p) = BALCAO)) as [Hc|Hc].
  - left. split; [exact Hc|].
    apply (on_click_counter upper usuario i m p d Hact Hrm Hcard Hc).
  - right. split; [exact Hc|].
    apply (on_click_routed upper usuario i m p d Hact Hrm Hcard Hc).
Qed.

End DashboardFacts.

(** X14: while the route mode is off, selecting an order, by a click or
    by the arrow keys, changes nothing but the selection: no card, no
    row, no log entry and no message. *)
Theorem selection_without_route (upper : pystr -> pystr) (usuario : Usuario)
    (e : selection) (d : Dashboard) :
  route_mode_active d = false ->
  let r := run_selection upper usuario e d in
  fst r = Ok tt
  /\ cards (snd r) = cards d
  /\ db (snd r) = db d
  /\ toasts (snd r) = toasts d
  /\ route_mode_active (snd r) = false
  /\ route_motoboy (snd r) = route_motoboy d.
Proof.
  intros Hoff. simpl. destruct e as [i| |]; simpl.
  - rewrite (on_click_inactive upper usuario i d Hoff). simpl.
    rewrite Hoff. repeat split.
  - destruct (move_selection_only_selects (-1) d) as (H1 & H2 & H3 & H4 & H5 & H6).
    rewrite H1, H2, H3, H4, H5, H6. repeat split. exact Hoff.
  - destruct (move_selection_only_selects 1 d) as (H1 & H2 & H3 & H4 & H5 & H6).
    rewrite H1, H2, H3, H4, H5, H6. repeat split. exact Hoff.
Qed.

Lemma selection_without_route_witness :
  db (snd (run_selection upper_latin1 seed_admin (Click 1%nat) seed_dashboard))
  = seed_db.
Proof.
  destruct (selection_without_route upper_latin1 seed_admin (Click 1%nat)
              seed_dashboard eq_refl) as (_ & _ & H & _).
  exact H.
Defined.

(** X11: the arrow keys keep the selection on a card. With no card they
    do nothing. Otherwise the selected position is always one of the
    list: Up goes to the card before and stays on the first, Down goes to
    the card after and stays on the last, and a selection that is no card
    of the list goes to the first card. *)
Theorem move_selection_bounds (step : Z) (d : Dashboard) :
  (cards d = [] -> move_selection step d = (Ok tt, d))
  /\ (cards d <> [] ->
      exists j : nat,
        selected_card (snd (move_selection step d)) = Some j
        /\ (j < length (cards d))%nat)
  /\ (forall i : nat,
        cards d <> [] ->
        selected_card d = Some i ->
        (i < length (cards d))%nat ->
        selected_card (snd (move_selection (-1) d)) = Some (Nat.pred i)
        /\ selected_card (snd (move_selection 1 d))
           = Some (Nat.min (S i) (length (cards d) - 1)))
  /\ (cards d <> [] ->
      (selected_card d = None
       \/ exists i : nat, selected_card d = Some i /\ (length (cards d) <= i)%nat) ->
      selected_card (snd (move_selection step d)) = Some 0%nat).
Proof.
  unfold move_selection, select_card.
  unfold mbind, mret, M_bind, M_ret, gets, modify.
  split; [intros ->; reflexivity|].
  split; [|split].
  - intros Hne. rewrite bool_decide_eq_false_2 by exact Hne.
    assert (Hlen : (0 < length (cards d))%nat)
      by (destruct (cards d); [contradiction|simpl; lia]).
    destruct (selected_card d) as [i|]; [|exists 0%nat; split; [reflexivity|exact Hlen]].
    destruct (bool_decide (i < length (cards d))%nat);
      [|exists 0%nat; split; [reflexivity|exact Hlen]].
    eexists. split; [reflexivity|]. lia.
  - intros i Hne Hsel Hi. rewrite bool_decide_eq_false_2 by exact Hne.
    rewrite Hsel. rewrite bool_decide_eq_true_2 by exact Hi.
    cbn [snd selected_card with_selected_card].
    split; f_equal; lia.
  - intros Hne Hsel. rewrite bool_decide_eq_false_2 by exact Hne.
    destruct Hsel as [-> | (i & -> & Hi)]; [reflexivity|].
    rewrite bool_decide_eq_false_2 by lia. reflexivity.
Qed.

Lemma populate_orders_run (d : Dashboard) : populate_orders d = (Ok tt, populated d).
Proof.
  unfold populate_orders, populated, select_card.
  unfold mbind, mret, M_bind, M_ret, gets, modify. simpl.
  destruct (bool_decide (fetch_orders (db d) = [])); reflexivity.
Qed.

Lemma first_named_found (t : list Motoboy) (m0 : Motoboy) :
  m0 ∈ t ->
  exists m : Motoboy,
    head (filter (fun x => nome x = nome m0) t) = Some m /\ nome m = nome m0.
Proof.
  intros Hin.
  assert (Hf : m0 ∈ filter (fun x => nome x = nome m0) t)
    by (apply list_elem_of_filter; split; [reflexivity|exact Hin]).
  destruct (filter (fun x => nome x = nome m0) t) as [|x l] eqn:E.
  - apply elem_of_nil in Hf. contradiction.
  - exists x. split; [reflexivity|].
    assert (Hx : x ∈ filter (fun x => nome x = nome m0) t)
      by (rewrite E; apply list_elem_of_here).
    apply list_elem_of_filter in Hx. apply Hx.
Qed.

Lemma toggle_route_mode_on (d : Dashboard) (m0 : Motoboy) (rest : list Motoboy) :
  route_mode_active d = false ->
  active_motoboys (db d) = m0 :: rest ->
  exists m : Motoboy,
    nome m = nome m0
    /\ m ∈ motoboy_table (db d)
    /\ toggle_route_mode d
       = (Ok tt, with_route_mode_active true (with_route_motoboy (Some m) d)).
Proof.
  intros Hoff Hact.
  assert (Hin : m0 ∈ motoboy_table (db d)).
  { assert (H : m0 ∈ active_motoboys (db d)) by (rewrite Hact; apply list_elem_of_here).
    unfold active_motoboys in H. apply list_elem_of_filter in H. apply H. }
  destruct (first_named_found (motoboy_table (db d)) m0 Hin) as (m & Hm & Hn).
  exists m. split; [exact Hn|]. split.
  - apply (get_or_none_nome (nome m0) (db d) m). exact Hm.
  - unfold toggle_route_mode, active_motoboys_names.
    unfold mbind, M_bind, gets. rewrite Hoff, Hact. simpl.
    unfold in_db, Motoboy_get, Motoboy_get_or_none. rewrite Hm. simpl.
    destruct d; reflexivity.
Qed.

(** X12: the ROTA button never fails and touches neither the cards, the
    selection nor the database. Pressed while the mode is on, it turns
    the mode off and drops the courier. Pressed while the mode is off: with
    no active courier it shows "Nenhum motoboy ativo" and the mode stays
    off; otherwise the mode is on with a courier of the table that bears
    the name of the first active courier, and nothing is shown. *)
Theorem toggle_route_mode_safe (d : Dashboard) :
  let d' := snd (toggle_route_mode d) in
  fst (toggle_route_mode d) = Ok tt
  /\ cards d' = cards d
  /\ selected_card d' = selected_card d
  /\ db d' = db d
  /\ (route_mode_active d = true ->
      route_mode_active d' = false /\ route_motoboy d' = None
      /\ toasts d' = toasts d)
  /\ (route_mode_active d = false ->
      match active_motoboys (db d) with
      | [] =>
          route_mode_active d' = false
          /\ route_motoboy d' = route_motoboy d
          /\ toasts d' = toasts d ++ [py "Nenhum motoboy ativo"]
      | m0 :: _ =>
          route_mode_active d' = true
          /\ toasts d' = toasts d
          /\ exists m : Motoboy,
               route_motoboy d' = Some m
               /\ nome m = nome m0
               /\ m ∈ motoboy_table (db d)
      end).
Proof.
  simpl. destruct (route_mode_active d) eqn:Hact.
  - rewrite (toggle_route_mode_off d Hact). simpl.
    repeat split; discriminate.
  - destruct (active_motoboys (db d)) as [|m0 rest] eqn:Ha.
    + rewrite (toggle_route_mode_no_courier d Hact Ha). simpl.
      repeat split; try discriminate. exact Hact.
    + destruct (toggle_route_mode_on d m0 rest Hact Ha) as (m & Hn & Hin & ->).
      simpl. repeat split; try discriminate. exists m. repeat split; assumption.
Qed.

(** X16: turning the route mode on and off again gives back the
    dashboard as it was, when an active courier exists. *)
Theorem toggle_route_mode_twice (d : Dashboard) :
  route_mode_active d = false ->
  route_motoboy d = None ->
  active_motoboys (db d) <> [] ->
  (toggle_route_mode;; toggle_route_mode) d = (Ok tt, d).
Proof.
  intros Hoff Hnone Hne.
  destruct (active_motoboys (db d)) as [|m0 rest] eqn:Ha; [contradiction|].
  destruct (toggle_route_mode_on d m0 rest Hoff Ha) as (m & _ & _ & Hon).
  unfold mbind, M_bind. rewrite Hon.
  rewrite toggle_route_mode_off by reflexivity.
  destruct d; simpl in *. subst. reflexivity.
Qed.

Lemma toggle_route_mode_twice_witness :
  (toggle_route_mode;; toggle_route_mode) seed_dashboard = (Ok tt, seed_dashboard).
Proof.
  apply (toggle_route_mode_twice seed_dashboard).
  - reflexivity.
  - reflexivity.
  - vm_compute. discriminate.
Defined.

(* --------------------------------------------------------------------- *)
(** *** The list of cards *)
(* --------------------------------------------------------------------- *)

Lemma id_desc_total : Total id_desc.
Proof. intros p q. unfold id_desc. lia. Qed.

Lemma id_desc_trans : Transitive id_desc.
Proof. intros p q r. unfold id_desc. lia. Qed.

Lemma fetch_orders_perm (d : Database) :
  fetch_orders d ≡ₚ (snd <$> map_to_list (pedido_table d)).
Proof. apply merge_sort_Permutation. Qed.

Lemma fetch_orders_sorted (d : Database) : StronglySorted id_desc (fetch_orders d).
Proof.
  apply (@StronglySorted_merge_sort _ id_desc _ id_desc_trans id_desc_total).
Qed.

Lemma fetch_orders_elem (d : Database) (p : Pedido) :
  p ∈ fetch_orders d <-> exists k : Z, pedido_table d !! k = Some p.
Proof.
  rewrite fetch_orders_perm, list_elem_of_fmap. split.
  - intros ([k q] & -> & Hin). exists k. apply elem_of_map_to_list. exact Hin.
  - intros [k Hk]. exists (k, p). split; [reflexivity|].
    apply elem_of_map_to_list. exact Hk.
Qed.

Lemma fetch_orders_nil (d : Database) :
  fetch_orders d = [] <-> pedido_table d = ∅.
Proof.
  split.
  - intros H. apply map_to_list_empty_iff.
    apply (fmap_nil_inv snd). apply Permutation_nil_r.
    rewrite <- fetch_orders_perm, H. reflexivity.
  - intros H. apply Permutation_nil_r.
    rewrite fetch_orders_perm, H, map_to_list_empty. reflexivity.
Qed.

(** X15: after [populate_orders] (and so after a change of zoom) the
    cards are the stored orders, each row once, ordered by descending
    [id]; the database and the route mode are untouched; when there is an
    order the first card is selected, and with an empty table there is no
    card and the selection is left as it was. *)
Theorem populate_orders_cards (d : Dashboard) :
  let d' := snd (populate_orders d) in
  fst (populate_orders d) = Ok tt
  /\ set_zoom d = populate_orders d
  /\ db d' = db d
  /\ route_mode_active d' = route_mode_active d
  /\ route_motoboy d' = route_motoboy d
  /\ cards d' ≡ₚ (snd <$> map_to_list (pedido_table (db d)))
  /\ (forall p : Pedido,
        p ∈ cards d' <-> exists k : Z, pedido_table (db d) !! k = Some p)
  /\ length (cards d') = size (pedido_table (db d))
  /\ StronglySorted id_desc (cards d')
  /\ (pedido_table (db d) = ∅ ->
      cards d' = [] /\ selected_card d' = selected_card d)
  /\ (pedido_table (db d) <> ∅ -> selected_card d' = Some 0%nat).
Proof.
  simpl. unfold set_zoom. rewrite populate_orders_run. simpl.
  split; [reflexivity|]. split; [reflexivity|]. split; [reflexivity|].
  split; [reflexivity|]. split; [reflexivity|].
  split; [apply fetch_orders_perm|].
  split; [intros p; apply fetch_orders_elem|].
  split; [rewrite fetch_orders_perm, length_fmap; apply length_map_to_list|].
  split; [apply fetch_orders_sorted|].
  split.
  - intros He. apply fetch_orders_nil in He. rewrite He.
    split; reflexivity.
  - intros Hne. rewrite bool_decide_eq_false_2; [reflexivity|].
    intros He. apply Hne. apply fetch_orders_nil. exact He.
Qed.

(* --------------------------------------------------------------------- *)
(** *** Saving a new order *)
(* --------------------------------------------------------------------- *)

Lemma save_order_run (upper : pystr -> pystr) (usuario : Usuario)
    (float_of_str : pystr -> float + pystr) (f : NewOrderForm) (d : Dashboard) :
  save_order upper usuario float_of_str f d =
  (Ok tt,
   match float_of_str (str_or (form_valor_produtos f) (py "0")) with
   | inr msg => save_failed msg d
   | inl vp =>
       match parsed_taxa upper float_of_str f with
       | inr msg => save_failed msg d
       | inl tx =>
           match not_null_failure vp tx (vp + tx)%float with
           | Some msg =>
               save_failed msg (with_toasts (toasts d ++ counter_notice upper f) d)
           | None =>
               populated
                 (with_db (created usuario f vp tx (db d))
                    (with_toasts (toasts d ++ counter_notice upper f) d))
           end
       end
   end).
Proof.
  unfold save_order, parsed_taxa, counter_notice, to_float, toast,
    Pedido_create, log, created, new_pedido, save_failed.
  unfold try_except, mbind, M_bind, mret, M_ret, gets, modify, in_db, raise.
  cbv beta iota zeta.
  destruct (float_of_str (str_or (form_valor_produtos f) (py "0"))) as [vp|e1];
    [|reflexivity].
  cbv beta iota zeta.
  destruct (str_eqb (upper (form_canal f)) BALCAO) eqn:Ec; cbv beta iota zeta.
  - destruct (str_eqb (form_forma f) A_RECEBER); cbn [andb];
      cbv beta iota zeta;
      (destruct (not_null_failure vp 0 (vp + 0)) as [msg|]; cbv beta iota zeta;
       [try rewrite app_nil_r; destruct d; reflexivity|]);
      rewrite populate_orders_run; [reflexivity|].
    rewrite app_nil_r. destruct d; reflexivity.
  - destruct (float_of_str (str_or (form_taxa f) (py "0"))) as [tx|e2];
      [|reflexivity].
    cbn [andb]. cbv beta iota zeta.
    destruct (not_null_failure vp tx (vp + tx)) as [msg|]; cbv beta iota zeta.
    + rewrite app_nil_r. destruct d; reflexivity.
    + rewrite populate_orders_run, app_nil_r. destruct d; reflexivity.
Qed.



(** X17: when an amount entry is no number, [save_order] creates nothing:
    it returns normally, shows "Erro ao salvar: " followed by the message
    of the error, and leaves the tables, the log, the cards and the route
    mode as they were. This holds for the products entry, and for the fee
    entry of an order that is not BALCÃO. *)
Theorem save_order_rejected (upper : pystr -> pystr) (usuario : Usuario)
    (float_of_str : pystr -> float + pystr) (f : NewOrderForm) (d : Dashboard)
    (msg : pystr) :
  float_of_str (str_or (form_valor_produtos f) (py "0")) = inr msg
  \/ ((exists vp : float,
         float_of_str (str_or (form_valor_produtos f) (py "0")) = inl vp)
      /\ upper (form_canal f) <> BALCAO
      /\ float_of_str (str_or (form_taxa f) (py "0")) = inr msg) ->
  let r := save_order upper usuario float_of_str f d in
  fst r = Ok tt
  /\ db (snd r) = db d
  /\ cards (snd r) = cards d
  /\ selected_card (snd r) = selected_card d
  /\ route_mode_active (snd r) = route_mode_active d
  /\ route_motoboy (snd r) = route_motoboy d
  /\ toasts (snd r) = toasts d ++ [py "Erro ao salvar: " ++ msg].
Proof.
  intros H. simpl. rewrite save_order_run.
  assert (E : match float_of_str (str_or (form_valor_produtos f) (py "0")) with
              | inr msg0 => save_failed msg0 d
              | inl vp =>
                  match parsed_taxa upper float_of_str f with
                  | inr msg0 => save_failed msg0 d
                  | inl tx =>
                      match not_null_failure vp tx (vp + tx)%float with
                      | Some msg0 =>
                          save_failed msg0
                            (with_toasts (toasts d ++ counter_notice upper f) d)
                      | None =>
                          populated
                            (with_db (created usuario f vp tx (db d))
                               (with_toasts (toasts d ++ counter_notice upper f) d))
                      end
                  end
              end = save_failed msg d).
  { destruct H as [-> | ((vp & ->) & Hc & Htx)]; [reflexivity|].
    unfold parsed_taxa, str_eqb. rewrite bool_decide_eq_false_2 by exact Hc.
    rewrite Htx. reflexivity. }
  rewrite E. repeat split.
Qed.

Lemma save_order_rejected_witness :
  db (snd (save_order upper_latin1 seed_admin float_of_digits bad_amount_form
             seed_dashboard)) = seed_db.
Proof.
  destruct (save_order_rejected upper_latin1 seed_admin float_of_digits
              bad_amount_form seed_dashboard
              (py "could not convert string to float")) as (_ & H & _).
  - left. reflexivity.
  - exact H.
Defined.








(* --------------------------------------------------------------------- *)
(** *** Sequences of events *)
(* --------------------------------------------------------------------- *)

Lemma carried_on_refl (d : Dashboard) : carried_on d d.
Proof.
  unfold carried_on. split; [auto|]. split; [reflexivity|].
  split; [reflexivity|]. repeat split; reflexivity.
Qed.

Lemma carried_on_trans (d1 d2 d3 : Dashboard) :
  carried_on d1 d2 -> carried_on d2 d3 -> carried_on d1 d3.
Proof.
  intros (R1 & L1 & D1 & M1 & B1 & N1) (R2 & L2 & D2 & M2 & B2 & N2).
  unfold carried_on. split; [auto|]. split; [etrans; eassumption|].
  split; [etrans; eassumption|]. split; [congruence|]. split; congruence.
Qed.

Lemma carried_on_same_db (d d' : Dashboard) :
  db d' = db d ->
  route_mode_active d' = route_mode_active d ->
  route_motoboy d' = route_motoboy d ->
  carried_on d d'.
Proof.
  intros Hdb Ha Hm. unfold carried_on, route_state_ok.
  rewrite Hdb, Ha, Hm. split; [auto|]. split; [reflexivity|].
  split; [reflexivity|]. repeat split; reflexivity.
Qed.

Lemma save_tables (p : Pedido) (d : Database) :
  motoboy_table (Pedido_save p d) = motoboy_table d
  /\ bairro_table (Pedido_save p d) = bairro_table d.
Proof. unfold Pedido_save. destruct (pedido_table d !! pedido_id p); split; reflexivity. Qed.

Lemma on_click_carried_on (upper : pystr -> pystr) (usuario : Usuario)
    (i : nat) (d : Dashboard) :
  fst (on_click upper usuario i d) = Ok tt
  /\ carried_on d (snd (on_click upper usuario i d)).
Proof.
  destruct (on_click_cases upper usuario i d)
    as [-> | (m & p & Hact & Hrm & Hcard & [[Hc ->] | (Hc & Hok & Hcards & Hdb & Ha & Hm)])].
  - split; [reflexivity|]. apply carried_on_same_db; reflexivity.
  - split; [reflexivity|]. apply carried_on_same_db; reflexivity.
  - split; [exact Hok|]. unfold carried_on, route_state_ok.
    rewrite Hdb, Ha, Hm. simpl.
    rewrite log_table_save, now_save, dom_save.
    destruct (save_tables (routed m p) (db d)) as [-> ->].
    split; [intros _; split; [eauto|discriminate]|].
    split; [apply prefix_app_r; reflexivity|]. repeat split; reflexivity.
Qed.

Lemma toggle_carried_on (d : Dashboard) :
  fst (toggle_route_mode d) = Ok tt
  /\ carried_on d (snd (toggle_route_mode d)).
Proof.
  destruct (route_mode_active d) eqn:Hact.
  - rewrite (toggle_route_mode_off d Hact). split; [reflexivity|].
    unfold carried_on, route_state_ok. simpl.
    split; [intros _; split; [discriminate|reflexivity]|]. repeat split; reflexivity.
  - destruct (active_motoboys (db d)) as [|m0 rest] eqn:Ha.
    + rewrite (toggle_route_mode_no_courier d Hact Ha). split; [reflexivity|].
      apply carried_on_same_db; reflexivity.
    + destruct (toggle_route_mode_on d m0 rest Hact Ha) as (m & _ & _ & ->).
      split; [reflexivity|]. unfold carried_on, route_state_ok. simpl.
      split; [intros _; split; [eauto|discriminate]|]. repeat split; reflexivity.
Qed.

Lemma save_order_carried_on (upper : pystr -> pystr) (usuario : Usuario)
    (float_of_str : pystr -> float + pystr) (f : NewOrderForm) (d : Dashboard) :
  fst (save_order upper usuario float_of_str f d) = Ok tt
  /\ carried_on d (snd (save_order upper usuario float_of_str f d)).
Proof.
  rewrite save_order_run. split; [reflexivity|]. simpl.
  destruct (float_of_str (str_or (form_valor_produtos f) (py "0"))) as [vp|msg];
    [|apply carried_on_same_db; reflexivity].
  destruct (parsed_taxa upper float_of_str f) as [tx|msg];
    [|apply carried_on_same_db; reflexivity].
  destruct (not_null_failure vp tx (vp + tx)) as [msg|];
    [apply carried_on_same_db; reflexivity|].
  unfold carried_on, route_state_ok. simpl.
  split; [auto|]. split; [apply prefix_app_r; reflexivity|].
  split; [rewrite dom_insert_L; set_solver|]. repeat split; reflexivity.
Qed.

Lemma run_event_carried_on (upper : pystr -> pystr) (usuario : Usuario)
    (float_of_str : pystr -> float + pystr) (ev : event) (d : Dashboard) :
  fst (run_event upper usuario float_of_str ev d) = Ok tt
  /\ carried_on d (snd (run_event upper usuario float_of_str ev d)).
Proof.
  destruct ev as [[i| |]| |f|]; simpl.
  - apply on_click_carried_on.
  - destruct (move_selection_only_selects (-1) d) as (H1 & _ & H3 & H4 & H5 & _).
    split; [exact H1|]. apply carried_on_same_db; assumption.
  - destruct (move_selection_only_selects 1 d) as (H1 & _ & H3 & H4 & H5 & _).
    split; [exact H1|]. apply carried_on_same_db; assumption.
  - apply toggle_carried_on.
  - apply save_order_carried_on.
  - unfold set_zoom. rewrite populate_orders_run. split; [reflexivity|].
    apply carried_on_same_db; reflexivity.
Qed.

(** X13: whatever the operator does on the dashboard, in any order
    (clicks, arrow keys, the ROTA button, saving new orders, changing the
    zoom), no handler lets an exception escape; the route mode holds a
    courier exactly while it is on, if it did at the start; the log only
    grows at its end; no order row disappears; and the tables of couriers
    and neighbourhoods are never written. *)
Theorem events_keep_invariants (upper : pystr -> pystr) (usuario : Usuario)
    (float_of_str : pystr -> float + pystr) (evs : list event) (d : Dashboard) :
  let r := run_events upper usuario float_of_str evs d in
  fst r = Ok tt
  /\ (route_state_ok d -> route_state_ok (snd r))
  /\ log_table (db d) `prefix_of` log_table (db (snd r))
  /\ dom (pedido_table (db d)) ⊆ dom (pedido_table (db (snd r)))
  /\ motoboy_table (db (snd r)) = motoboy_table (db d)
  /\ bairro_table (db (snd r)) = bairro_table (db d).
Proof.
  simpl.
  assert (H : fst (run_events upper usuario float_of_str evs d) = Ok tt
              /\ carried_on d (snd (run_events upper usuario float_of_str evs d))).
  { revert d. induction evs as [|ev evs IH]; intros d.
    - split; [reflexivity|apply carried_on_refl].
    - simpl. unfold mbind, M_bind.
      destruct (run_event_carried_on upper usuario float_of_str ev d) as [Hok Hc].
      destruct (run_event upper usuario float_of_str ev d) as [[[]|e] d1];
        simpl in Hok, Hc; [|discriminate Hok].
      destruct (IH d1) as [Hok' Hc']. split; [exact Hok'|].
      apply (carried_on_trans d d1); assumption. }
  destruct H as (Hok & R & L & D & Mt & Bt & _).
  split; [exact Hok|]. split; [exact R|]. split; [exact L|].
  split; [exact D|]. split; [exact Mt|exact Bt].
Qed.

Example seed_dashboard_route_state : route_state_ok seed_dashboard.
Proof. split; [discriminate|reflexivity]. Qed.

(* --------------------------------------------------------------------- *)
(** *** A route session over several clicks *)
(* --------------------------------------------------------------------- *)

Lemma routed_twice (m : Motoboy) (p : Pedido) : routed m (routed m p) = routed m p.
Proof. reflexivity. Qed.

Lemma on_click_route_step (upper : pystr -> pystr) (usuario : Usuario)
    (i0 : nat) (m : Motoboy) (d : Dashboard) :
  route_mode_active d = true ->
  route_motoboy d = Some m ->
  let d1 := snd (on_click upper usuario i0 d) in
  fst (on_click upper usuario i0 d) = Ok tt
  /\ route_mode_active d1 = true
  /\ route_motoboy d1 = Some m
  /\ (forall (i : nat) (p : Pedido),
        cards d !! i = Some p ->
        cards d1 !! i
        = Some (if bool_decide (i = i0) && routable upper d i
                then routed m p else p))
  /\ length (cards d1) = length (cards d)
  /\ (forall i : nat, routable upper d1 i = routable upper d i)
  /\ length (log_table (db d1))
     = (length (log_table (db d)) + (if routable upper d i0 then 1 else 0))%nat.
Proof.
  intros Hact Hrm. simpl.
  assert (Hsame : forall d1 : Dashboard,
             cards d1 = cards d ->
             routable upper d i0 = false ->
             (forall (i : nat) (p : Pedido),
                cards d !! i = Some p ->
                cards d1 !! i
                = Some (if bool_decide (i = i0) && routable upper d i
                        then routed m p else p))
             /\ length (cards d1) = length (cards d)
             /\ (forall i : nat, routable upper d1 i = routable upper d i)).
  { intros d1 Hc Hr. unfold routable in *. rewrite Hc.
    split; [|split; [reflexivity|intros i; reflexivity]].
    intros i p Hp. rewrite Hp.
    destruct (bool_decide_reflect (i = i0)) as [->|Hne]; [|reflexivity].
    rewrite Hp in Hr. rewrite Hr. reflexivity. }
  destruct (on_click_cases upper usuario i0 d)
    as [E | (m' & p0 & _ & Hrm' & Hcard & [[Hc E] | (Hc & Hok & Hcards & Hdb & Ha & Hm)])].
  - (* the position holds no card *)
    assert (Hr : routable upper d i0 = false).
    { unfold routable. destruct (cards d !! i0) as [p0|] eqn:Hcard; [|reflexivity].
      exfalso.
      destruct (decide (upper (canal p0) = BALCAO)) as [Hc|Hc].
      - rewrite (on_click_counter upper usuario i0 m p0 d Hact Hrm Hcard Hc) in E.
        apply (f_equal (fun x => length (toasts (snd x)))) in E.
        simpl in E. rewrite length_app in E. simpl in E. lia.
      - destruct (on_click_routed upper usuario i0 m p0 d Hact Hrm Hcard Hc)
          as (_ & _ & Hdb & _).
        rewrite E in Hdb. simpl in Hdb.
        apply (f_equal (fun x => length (log_table x))) in Hdb.
        simpl in Hdb. rewrite log_table_save, length_app in Hdb. simpl in Hdb. lia. }
    rewrite E, Hr. simpl.
    destruct (Hsame (with_selected_card (Some i0) d) eq_refl Hr) as (H1 & H2 & H3).
    split; [reflexivity|]. split; [exact Hact|]. split; [exact Hrm|].
    split; [exact H1|]. split; [exact H2|]. split; [exact H3|]. lia.
  - (* a counter order *)
    assert (Hr : routable upper d i0 = false).
    { unfold routable, str_eqb. rewrite Hcard.
      rewrite bool_decide_eq_true_2 by exact Hc. reflexivity. }
    rewrite E, Hr. simpl.
    destruct (Hsame (with_toasts
                       (toasts d ++ [py "Pedido BALCÃO não pode receber motoboy."])
                       (with_selected_card (Some i0) d)) eq_refl Hr)
      as (H1 & H2 & H3).
    split; [reflexivity|]. split; [exact Hact|]. split; [exact Hrm|].
    split; [exact H1|]. split; [exact H2|]. split; [exact H3|]. lia.
  - (* a routed order *)
    assert (Hmm : m' = m) by congruence. subst m'.
    assert (Hr : routable upper d i0 = true).
    { unfold routable, str_eqb. rewrite Hcard.
      rewrite bool_decide_eq_false_2 by exact Hc. reflexivity. }
    rewrite Hr. split; [exact Hok|]. split; [exact Ha|]. split; [exact Hm|].
    rewrite Hcards, Hdb. split; [|split; [apply length_insert|split]].
    + intros i p Hp.
      destruct (bool_decide_reflect (i = i0)) as [->|Hne]; simpl.
      * rewrite Hr. rewrite list_lookup_insert_eq by (eapply lookup_lt_Some; exact Hcard).
        congruence.
      * rewrite list_lookup_insert_ne by congruence. exact Hp.
    + intros i. unfold routable. rewrite Hcards.
      destruct (decide (i = i0)) as [->|Hne].
      * rewrite list_lookup_insert_eq by (eapply lookup_lt_Some; exact Hcard).
        rewrite Hcard. reflexivity.
      * rewrite list_lookup_insert_ne by congruence. reflexivity.
    + simpl. rewrite log_table_save, length_app. reflexivity.
Qed.

(** X21: a route session over any sequence of clicks. With the route mode
    on for courier [m], after the clicks the mode is still on for [m]; a
    card that was clicked and whose order is not BALCÃO holds its order
    with courier [m] and status EM ROTA, every other card holds its order
    as before; and the log has one new entry for each click on an order
    that is not BALCÃO. *)
Theorem route_click_all (upper : pystr -> pystr) (usuario : Usuario)
    (l : list nat) (d : Dashboard) (m : Motoboy) :
  route_mode_active d = true ->
  route_motoboy d = Some m ->
  let r := click_all upper usuario l d in
  fst r = Ok tt
  /\ route_mode_active (snd r) = true
  /\ route_motoboy (snd r) = Some m
  /\ (forall (i : nat) (p : Pedido),
        cards d !! i = Some p ->
        cards (snd r) !! i
        = Some (if bool_decide (i ∈ l) && routable upper d i
                then routed m p else p))
  /\ length (cards (snd r)) = length (cards d)
  /\ length (log_table (db (snd r)))
     = (length (log_table (db d))
        + length (filter (fun i => routable upper d i = true) l))%nat.
Proof.
  simpl. revert d. induction l as [|i0 l IH]; intros d Hact Hrm.
  - simpl. repeat split; try assumption; try lia.
    intros i p Hp. exact Hp.
  - simpl. unfold mbind, M_bind.
    destruct (on_click_route_step upper usuario i0 m d Hact Hrm)
      as (Hok & Ha & Hm & Hcards & Hlen & Hrout & Hlog).
    destruct (on_click upper usuario i0 d) as [[[]|e] d1];
      simpl in *; [|discriminate Hok].
    destruct (IH d1 Ha Hm) as (Hok' & Ha' & Hm' & Hcards' & Hlen' & Hlog').
    split; [exact Hok'|]. split; [exact Ha'|]. split; [exact Hm'|].
    split; [|split; [congruence|]].
    + intros i p Hp. rewrite (Hcards' i _ (Hcards i p Hp)). rewrite Hrout. f_equal.
      destruct (routable upper d i); rewrite ?andb_false_r, ?andb_true_r;
        [|reflexivity].
      destruct (bool_decide_reflect (i = i0)) as [->|Hne].
      * rewrite (bool_decide_eq_true_2 (i0 ∈ i0 :: l)) by apply list_elem_of_here.
        destruct (bool_decide (i0 ∈ l)); reflexivity.
      * destruct (bool_decide_reflect (i ∈ l)) as [Hin|Hnin].
        -- rewrite bool_decide_eq_true_2 by (apply list_elem_of_further; exact Hin).
           reflexivity.
        -- rewrite bool_decide_eq_false_2; [reflexivity|].
           intros Hin. apply elem_of_cons in Hin as [?|?]; contradiction.
    + rewrite Hlog', Hlog.
      rewrite (list_filter_iff _ (fun i => routable upper d i = true) l)
        by (intros i; rewrite Hrout; reflexivity).
      rewrite filter_cons.
      destruct (decide (routable upper d i0 = true)) as [E|E].
      * rewrite E. simpl. lia.
      * apply not_true_is_false in E. rewrite E. simpl. lia.
Qed.

Lemma route_click_all_witness :
  cards (snd (click_all upper_latin1 seed_admin [0; 1; 0]%nat seed_route_dashboard))
  = [seed_marcos; routed (mkMotoboy 1 (py "Carlos") true) seed_ana]
  /\ length (log_table (db (snd (click_all upper_latin1 seed_admin [0; 1; 0]%nat
                                   seed_route_dashboard)))) = 1%nat.
Proof.
  destruct (route_click_all upper_latin1 seed_admin [0; 1; 0]%nat
              seed_route_dashboard (mkMotoboy 1 (py "Carlos") true)
              eq_refl eq_refl) as (_ & _ & _ & _ & _ & Hlog).
  split; [vm_compute; reflexivity|].
  rewrite Hlog. vm_compute. reflexivity.
Defined.

(* --------------------------------------------------------------------- *)
(** *** The cards and the stored orders *)
(* --------------------------------------------------------------------- *)

Lemma rows_keyed_ids (t : gmap Z Pedido) :
  rows_keyed t ->
  pedido_id <$> (snd <$> map_to_list t) = fst <$> map_to_list t.
Proof.
  intros Hk.
  assert (H : forall l : list (Z * Pedido),
             (forall k p, (k, p) ∈ l -> pedido_id p = k) ->
             pedido_id <$> (snd <$> l) = fst <$> l).
  { induction l as [|[k p] l IH]; intros Hl; [reflexivity|].
    simpl. f_equal.
    - apply Hl. apply list_elem_of_here.
    - apply IH. intros k' p' Hin. apply Hl. apply list_elem_of_further. exact Hin. }
  apply H. intros k p Hin. apply Hk. apply elem_of_map_to_list. exact Hin.
Qed.

Lemma populated_fresh (d : Dashboard) :
  rows_keyed (pedido_table (db d)) -> cards_fresh (populated d).
Proof.
  intros Hk. unfold cards_fresh, populated. cbn [db cards].
  split; [exact Hk|]. split.
  - intros i p Hp.
    assert (Hin : p ∈ fetch_orders (db d))
      by (apply list_elem_of_lookup; eauto).
    apply fetch_orders_elem in Hin as [k Hkp].
    rewrite (Hk k p Hkp). exact Hkp.
  - rewrite fetch_orders_perm, (rows_keyed_ids _ Hk).
    apply NoDup_fst_map_to_list.
Qed.

Lemma cards_fresh_same (d d' : Dashboard) :
  cards d' = cards d -> db d' = db d -> cards_fresh d -> cards_fresh d'.
Proof. unfold cards_fresh. intros -> ->. auto. Qed.

Lemma rows_keyed_insert (t : gmap Z Pedido) (p : Pedido) :
  rows_keyed t -> rows_keyed (<[pedido_id p := p]> t).
Proof.
  intros Hk k q Hq.
  destruct (decide (pedido_id p = k)) as [<-|Hne].
  - rewrite lookup_insert_eq in Hq. injection Hq as <-. reflexivity.
  - rewrite lookup_insert_ne in Hq by exact Hne. apply (Hk k q Hq).
Qed.

Lemma on_click_fresh (upper : pystr -> pystr) (usuario : Usuario)
    (i : nat) (d : Dashboard) :
  cards_fresh d -> cards_fresh (snd (on_click upper usuario i d)).
Proof.
  intros Hf.
  destruct (on_click_cases upper usuario i d)
    as [-> | (m & p & _ & _ & Hcard & [[_ ->] | (_ & _ & Hcards & Hdb & _)])].
  - apply (cards_fresh_same d); [reflexivity|reflexivity|exact Hf].
  - apply (cards_fresh_same d); [reflexivity|reflexivity|exact Hf].
  - destruct Hf as (Hk & Hrow & Hnd).
    pose proof (Hrow i p Hcard) as Hp.
    assert (Htab : pedido_table (db (snd (on_click upper usuario i d)))
                   = <[pedido_id (routed m p) := routed m p]> (pedido_table (db d))).
    { rewrite Hdb. simpl. unfold Pedido_save.
      change (pedido_id (routed m p)) with (pedido_id p). rewrite Hp. reflexivity. }
    unfold cards_fresh. rewrite Hcards, Htab.
    split; [apply rows_keyed_insert; exact Hk|]. split.
    + intros j q Hq.
      destruct (decide (j = i)) as [->|Hne].
      * rewrite list_lookup_insert_eq in Hq by (eapply lookup_lt_Some; exact Hcard).
        injection Hq as <-. apply lookup_insert_eq.
      * rewrite list_lookup_insert_ne in Hq by congruence.
        rewrite lookup_insert_ne; [apply (Hrow j q Hq)|].
        change (pedido_id (routed m p)) with (pedido_id p).
        intros Heq.
        assert (Hi : (pedido_id <$> cards d) !! i = Some (pedido_id p))
          by (rewrite list_lookup_fmap, Hcard; reflexivity).
        assert (Hj : (pedido_id <$> cards d) !! j = Some (pedido_id p))
          by (rewrite list_lookup_fmap, Hq; simpl; congruence).
        apply Hne. apply (NoDup_lookup _ j i _ Hnd Hj Hi).
    + rewrite list_fmap_insert.
      change (pedido_id (routed m p)) with (pedido_id p).
      rewrite list_insert_id; [exact Hnd|].
      rewrite list_lookup_fmap, Hcard. reflexivity.
Qed.

Lemma save_order_fresh (upper : pystr -> pystr) (usuario : Usuario)
    (float_of_str : pystr -> float + pystr) (f : NewOrderForm) (d : Dashboard) :
  cards_fresh d -> cards_fresh (snd (save_order upper usuario float_of_str f d)).
Proof.
  intros Hf. rewrite save_order_run. cbn [snd].
  destruct (float_of_str (str_or (form_valor_produtos f) (py "0"))) as [vp|msg];
    [|apply (cards_fresh_same d); [reflexivity|reflexivity|exact Hf]].
  destruct (parsed_taxa upper float_of_str f) as [tx|msg];
    [|apply (cards_fresh_same d); [reflexivity|reflexivity|exact Hf]].
  destruct (not_null_failure vp tx (vp + tx)) as [msg|];
    [apply (cards_fresh_same d); [reflexivity|reflexivity|exact Hf]|].
  apply populated_fresh. cbn [db with_db created LogAtividade_create
                              with_log_table pedido_table with_pedido_table].
  apply (rows_keyed_insert _ (new_pedido f vp tx (db d))). apply Hf.
Qed.

(** X25: the cards show what is stored. At the start of the dashboard, on
    a table whose rows are stored under their own [id], every card holds
    the stored row of its order and no order has two cards; and this
    stays so whatever the operator does on the dashboard itself (clicks
    with or without route mode, arrow keys, the ROTA button, saving new
    orders, changing the zoom). *)
Theorem cards_show_stored_rows (upper : pystr -> pystr) (usuario : Usuario)
    (float_of_str : pystr -> float + pystr) (evs : list event) (d : Dashboard) :
  (forall db0 : Database,
     rows_keyed (pedido_table db0) -> cards_fresh (Dashboard_init db0))
  /\ (cards_fresh d ->
      cards_fresh (snd (run_events upper usuario float_of_str evs d))).
Proof.
  split; [intros db0 Hk; apply populated_fresh; exact Hk|].
  revert d. induction evs as [|ev evs IH]; intros d Hf; [exact Hf|].
  simpl. unfold mbind, M_bind.
  assert (Hstep : cards_fresh (snd (run_event upper usuario float_of_str ev d))).
  { destruct ev as [[i| |]| |f|]; simpl.
    - apply on_click_fresh. exact Hf.
    - destruct (move_selection_only_selects (-1) d) as (_ & Hc & Hd & _).
      apply (cards_fresh_same d); assumption.
    - destruct (move_selection_only_selects 1 d) as (_ & Hc & Hd & _).
      apply (cards_fresh_same d); assumption.
    - destruct (route_mode_active d) eqn:Hact.
      + rewrite (toggle_route_mode_off d Hact).
        apply (cards_fresh_same d); [reflexivity|reflexivity|exact Hf].
      + destruct (active_motoboys (db d)) as [|m0 rest] eqn:Ha.
        * rewrite (toggle_route_mode_no_courier d Hact Ha).
          apply (cards_fresh_same d); [reflexivity|reflexivity|exact Hf].
        * destruct (toggle_route_mode_on d m0 rest Hact Ha) as (m & _ & _ & ->).
          apply (cards_fresh_same d); [reflexivity|reflexivity|exact Hf].
    - apply save_order_fresh. exact Hf.
    - unfold set_zoom. rewrite populate_orders_run. apply populated_fresh. apply Hf. }
  destruct (run_event_carried_on upper usuario float_of_str ev d) as [Hok _].
  destruct (run_event upper usuario float_of_str ev d) as [[[]|e] d1];
    simpl in *; [|discriminate Hok].
  apply IH. exact Hstep.
Qed.

Example seed_dashboard_init : Dashboard_init seed_db = seed_dashboard.
Proof. vm_compute. reflexivity. Qed.

(* ===================================================================== *)
(** ** Properties of the bootstrap *)
(* ===================================================================== *)

Lemma ensure_motoboys_run (s : Site) :
  ensure_motoboys s =
  (Ok tt,
   match motoboy_table (engine s) with
   | [] =>
       with_engine
         (with_motoboy_table
            [mkMotoboy 1 (py "Carlos") true; mkMotoboy 2 (py "Renan") true;
             mkMotoboy 3 (py "Maya") true] (engine s)) s
   | _ :: _ => s
   end).
Proof.
  unfold ensure_motoboys, mbind, M_bind, gets.
  destruct (motoboy_table (engine s)) as [|x l] eqn:E; [|reflexivity].
  cbn [length Nat.eqb for_each].
  unfold mbind, M_bind, Motoboy_create, mret, M_ret. cbn [engine with_engine].
  rewrite E. reflexivity.
Qed.

Lemma ensure_bairros_run (s : Site) :
  ensure_bairros s =
  (Ok tt,
   match bairro_table (engine s) with
   | [] =>
       with_engine
         (with_bairro_table
            [mkBairro 1 (py "Centro") 5%float; mkBairro 2 (py "Jardim") 8%float;
             mkBairro 3 (py "Industrial") 10%float] (engine s)) s
   | _ :: _ => s
   end).
Proof.
  unfold ensure_bairros, mbind, M_bind, gets.
  destruct (bairro_table (engine s)) as [|x l] eqn:E; [|reflexivity].
  cbn [length Nat.eqb for_each].
  unfold mbind, M_bind, Bairro_create, mret, M_ret. cbn [engine with_engine].
  rewrite E. reflexivity.
Qed.

Lemma ensure_caixa_run (s : Site) :
  ensure_caixa s =
  (Ok tt,
   match caixa_table s with
   | [] => with_caixa_table [mkCaixa 1 true (now (engine s))] s
   | _ :: _ => s
   end).
Proof.
  unfold ensure_caixa, mbind, M_bind, gets.
  destruct (caixa_table s) as [|x l] eqn:E; [|reflexivity].
  cbn [length Nat.eqb]. unfold Caixa_create. rewrite E. reflexivity.
Qed.

Lemma ensure_admin_run (password_hash : pystr -> pystr) (s : Site) :
  ensure_admin password_hash s =
  match Usuario_get_or_none (py "admin") s with
  | Some u => (Ok u, s)
  | None =>
      (Ok (new_admin password_hash s),
       with_usuario_table (usuario_table s ++ [new_admin password_hash s]) s)
  end.
Proof.
  unfold ensure_admin, mbind, M_bind, gets.
  destruct (Usuario_get_or_none (py "admin") s); reflexivity.
Qed.

Lemma ensure_pedidos_run (s : Site) :
  ensure_pedidos s =
  if Nat.eqb (size (pedido_table (engine s))) 0 then
    match Bairro_get_or_none (py "Centro") (engine s) with
    | Some c =>
        (Ok tt,
         with_engine
           (with_pedido_table
              (<[2 := marcos_row c (now (engine s))]>
                 (<[1 := ana_row c (now (engine s))]> ∅))
              (engine s)) s)
    | None => (Raise DoesNotExist, s)
    end
  else (Ok tt, s).
Proof.
  unfold ensure_pedidos, mbind, M_bind, gets.
  destruct (Nat.eqb (size (pedido_table (engine s))) 0) eqn:E; [|reflexivity].
  apply Nat.eqb_eq in E. apply map_size_empty_iff in E.
  unfold Bairro_get.
  destruct (Bairro_get_or_none (py "Centro") (engine s)) as [c|]; [|reflexivity].
  unfold Pedido_seed. cbn [engine with_engine pedido_table with_pedido_table now].
  rewrite E. reflexivity.
Qed.

Lemma ensure_admin_post (password_hash : pystr -> pystr) (s : Site) :
  exists a : Usuario,
    fst (ensure_admin password_hash s) = Ok a
    /\ login a = py "admin"
    /\ Usuario_get_or_none (py "admin") (snd (ensure_admin password_hash s)) = Some a
    /\ usuario_table s `prefix_of` usuario_table (snd (ensure_admin password_hash s))
    /\ a = match Usuario_get_or_none (py "admin") s with
           | Some u => u
           | None => new_admin password_hash s
           end
    /\ (is_Some (Usuario_get_or_none (py "admin") s) ->
        snd (ensure_admin password_hash s) = s)
    /\ same_caixas s (snd (ensure_admin password_hash s))
    /\ engine (snd (ensure_admin password_hash s)) = engine s.
Proof.
  rewrite ensure_admin_run.
  destruct (Usuario_get_or_none (py "admin") s) as [u|] eqn:E.
  - exists u. simpl. split; [reflexivity|]. split.
    + unfold Usuario_get_or_none in E.
      assert (Hin : u ∈ filter (fun x => login x = py "admin") (usuario_table s)).
      { destruct (filter (fun x => login x = py "admin") (usuario_table s));
          [discriminate E|]. injection E as ->. apply list_elem_of_here. }
      apply list_elem_of_filter in Hin. apply Hin.
    + split; [exact E|]. split; [reflexivity|]. repeat split.
  - exists (new_admin password_hash s). simpl.
    split; [reflexivity|]. split; [reflexivity|]. split.
    + unfold Usuario_get_or_none in *. simpl. rewrite filter_app.
      destruct (filter (fun x => login x = py "admin") (usuario_table s));
        [|discriminate E].
      reflexivity.
    + split; [apply prefix_app_r; reflexivity|]. split; [reflexivity|].
      split; [intros [x Hx]; discriminate Hx|]. split; reflexivity.
Qed.

Lemma ensure_motoboys_post (s : Site) :
  let s' := snd (ensure_motoboys s) in
  fst (ensure_motoboys s) = Ok tt
  /\ motoboy_table (engine s') <> []
  /\ (motoboy_table (engine s) <> [] -> s' = s)
  /\ same_usuarios s s' /\ same_caixas s s' /\ same_bairros s s'
  /\ same_pedidos s s' /\ same_log s s'
  /\ (motoboy_table (engine s) = [] -> motoboy_table (engine s') = seed_motoboys).
Proof.
  simpl. rewrite ensure_motoboys_run. simpl.
  destruct (motoboy_table (engine s)) as [|x l] eqn:E; simpl.
  - repeat split; try discriminate. intros H. contradiction.
  - rewrite E. repeat split; discriminate.
Qed.

Lemma ensure_bairros_post (s : Site) :
  let s' := snd (ensure_bairros s) in
  fst (ensure_bairros s) = Ok tt
  /\ bairro_table (engine s') <> []
  /\ (bairro_table (engine s) <> [] -> s' = s)
  /\ (bairro_table (engine s) = [] ->
      exists c : Bairro, Bairro_get_or_none (py "Centro") (engine s') = Some c)
  /\ same_usuarios s s' /\ same_caixas s s' /\ same_motoboys s s'
  /\ same_pedidos s s' /\ same_log s s'.
Proof.
  simpl. rewrite ensure_bairros_run. simpl.
  destruct (bairro_table (engine s)) as [|x l] eqn:E; simpl.
  - repeat split; try discriminate; [intros H; contradiction|].
    intros _. eexists. reflexivity.
  - rewrite E. repeat split; discriminate.
Qed.

Lemma ensure_caixa_post (s : Site) :
  let s' := snd (ensure_caixa s) in
  fst (ensure_caixa s) = Ok tt
  /\ caixa_table s' <> []
  /\ (caixa_table s <> [] -> s' = s)
  /\ same_usuarios s s' /\ engine s' = engine s.
Proof.
  simpl. rewrite ensure_caixa_run. simpl.
  destruct (caixa_table s) as [|x l] eqn:E; simpl.
  - repeat split; try discriminate. intros H. contradiction.
  - rewrite E. repeat split. discriminate.
Qed.

Lemma ensure_pedidos_post (s : Site) :
  let s' := snd (ensure_pedidos s) in
  (size (pedido_table (engine s)) <> 0%nat -> ensure_pedidos s = (Ok tt, s))
  /\ (fst (ensure_pedidos s) = Ok tt -> size (pedido_table (engine s')) <> 0%nat)
  /\ (fst (ensure_pedidos s) = Ok tt
      \/ (fst (ensure_pedidos s) = Raise DoesNotExist /\ s' = s))
  /\ (fst (ensure_pedidos s) = Raise DoesNotExist
      <-> size (pedido_table (engine s)) = 0%nat
          /\ Bairro_get_or_none (py "Centro") (engine s) = None)
  /\ same_usuarios s s' /\ same_caixas s s' /\ same_motoboys s s'
  /\ same_bairros s s' /\ same_log s s'.
Proof.
  simpl. rewrite ensure_pedidos_run.
  destruct (Nat.eqb (size (pedido_table (engine s))) 0) eqn:E.
  - apply Nat.eqb_eq in E.
    destruct (Bairro_get_or_none (py "Centro") (engine s)) as [c|]; simpl.
    + split; [intros H; contradiction|].
      split; [intros _; vm_compute; discriminate|].
      split; [left; reflexivity|].
      split; [split; [discriminate|intros [_ H]; discriminate H]|].
      repeat split.
    + split; [intros H; contradiction|].
      split; [discriminate|]. split; [right; split; reflexivity|].
      split; [split; [intros _; split; [exact E|reflexivity]|reflexivity]|].
      repeat split.
  - apply Nat.eqb_neq in E. simpl.
    split; [reflexivity|]. split; [intros _; exact E|].
    split; [left; reflexivity|].
    split; [split; [discriminate|intros [H _]; contradiction]|].
    repeat split.
Qed.

Lemma Bairro_get_or_none_table (n : pystr) (d d' : Database) :
  bairro_table d' = bairro_table d ->
  Bairro_get_or_none n d' = Bairro_get_or_none n d.
Proof. unfold Bairro_get_or_none. intros ->. reflexivity. Qed.

Lemma Usuario_get_or_none_table (n : pystr) (s s' : Site) :
  usuario_table s' = usuario_table s ->
  Usuario_get_or_none n s' = Usuario_get_or_none n s.
Proof. unfold Usuario_get_or_none. intros ->. reflexivity. Qed.

(** The state [s4] in which [seed_data] reaches its last block, and what
    the first four blocks have done to get there. *)
Lemma seed_data_trace (password_hash : pystr -> pystr) (s : Site) :
  exists (a : Usuario) (s4 : Site),
    seed_data password_hash s
    = match ensure_pedidos s4 with
      | (Ok _, s5) => (Ok a, s5)
      | (Raise e, s5) => (Raise e, s5)
      end
    /\ a = match Usuario_get_or_none (py "admin") s with
           | Some u => u
           | None => new_admin password_hash s
           end
    /\ login a = py "admin"
    /\ Usuario_get_or_none (py "admin") s4 = Some a
    /\ usuario_table s `prefix_of` usuario_table s4
    /\ motoboy_table (engine s4) <> []
    /\ bairro_table (engine s4) <> []
    /\ caixa_table s4 <> []
    /\ (motoboy_table (engine s) <> [] -> same_motoboys s s4)
    /\ (bairro_table (engine s) <> [] -> same_bairros s s4)
    /\ (bairro_table (engine s) = [] ->
        exists c : Bairro, Bairro_get_or_none (py "Centro") (engine s4) = Some c)
    /\ (caixa_table s <> [] -> same_caixas s s4)
    /\ same_pedidos s s4
    /\ same_log s s4
    /\ (is_Some (Usuario_get_or_none (py "admin") s) ->
        motoboy_table (engine s) <> [] ->
        bairro_table (engine s) <> [] ->
        caixa_table s <> [] ->
        s4 = s)
    /\ (is_Some (Usuario_get_or_none (py "admin") s) -> same_usuarios s s4)
    /\ (motoboy_table (engine s) = [] ->
        motoboy_table (engine s4) = seed_motoboys).
Proof.
  unfold seed_data, mbind, M_bind.
  destruct (ensure_admin_post password_hash s)
    as (a & Ha & Hlogin & Hget & Hpre & Hdef & Hfix1 & Hc1 & He1).
  destruct (ensure_admin password_hash s) as [r1 s1]. simpl in *. subst r1.
  destruct (ensure_motoboys_post s1)
    as (Hok2 & Hm2 & Hfix2 & Hu2 & Hc2 & Hb2 & Hp2 & Hl2 & Hseed2).
  destruct (ensure_motoboys s1) as [r2 s2]. simpl in *. subst r2.
  destruct (ensure_bairros_post s2)
    as (Hok3 & Hb3 & Hfix3 & Hcen3 & Hu3 & Hc3 & Hm3 & Hp3 & Hl3).
  destruct (ensure_bairros s2) as [r3 s3]. simpl in *. subst r3.
  destruct (ensure_caixa_post s3) as (Hok4 & Hc4 & Hfix4 & Hu4 & He4).
  destruct (ensure_caixa s3) as [r4 s4]. simpl in *. subst r4.
  unfold same_usuarios, same_caixas, same_motoboys, same_bairros, same_pedidos,
    same_log in *.
  exists a, s4. split.
  { destruct (ensure_pedidos s4) as [[[]|e] s5]; reflexivity. }
  split; [exact Hdef|]. split; [exact Hlogin|].
  split; [rewrite (Usuario_get_or_none_table _ s1 s4) by congruence; exact Hget|].
  split; [rewrite Hu4, Hu3, Hu2; exact Hpre|].
  split; [rewrite He4, Hm3; exact Hm2|].
  split; [rewrite He4; exact Hb3|].
  split; [exact Hc4|].
  split.
  { intros H. rewrite He4, Hm3. rewrite <- He1 in H. rewrite (Hfix2 H), He1. reflexivity. }
  split.
  { intros H. rewrite He4. rewrite <- He1, <- Hb2 in H. rewrite (Hfix3 H), Hb2, He1.
    reflexivity. }
  split.
  { intros H. rewrite He4. apply Hcen3. rewrite Hb2, He1. exact H. }
  split.
  { intros H. rewrite <- Hc1, <- Hc2, <- Hc3 in H. rewrite (Hfix4 H), Hc3, Hc2, Hc1.
    reflexivity. }
  split; [rewrite He4, Hp3, Hp2, He1; reflexivity|].
  split.
  { destruct Hl2 as [L2 N2]. destruct Hl3 as [L3 N3].
    rewrite He4, L3, N3, L2, N2, He1. split; reflexivity. }
  split.
  { intros H1 H2 H3 H4.
    rewrite (Hfix1 H1) in *. rewrite (Hfix2 H2) in *. rewrite (Hfix3 H3) in *.
    apply Hfix4. exact H4. }
  split.
  { intros H1. rewrite Hu4, Hu3, Hu2, (Hfix1 H1). reflexivity. }
  intros H. rewrite He4, Hm3. apply Hseed2. rewrite He1. exact H.
Qed.

Lemma seed_data_fixed (password_hash : pystr -> pystr) (s : Site) (a : Usuario) :
  seeded s ->
  Usuario_get_or_none (py "admin") s = Some a ->
  seed_data password_hash s = (Ok a, s).
Proof.
  intros (Hadm & Hm & Hb & Hc & Hp) Hget.
  destruct (seed_data_trace password_hash s)
    as (a' & s4 & -> & Hdef & _ & _ & _ & _ & _ & _ & _ & _ & _ & _ & _ & _ & Hfix & _).
  rewrite (Hfix Hadm Hm Hb Hc).
  destruct (ensure_pedidos_post s) as (Hrun & _). rewrite (Hrun Hp).
  rewrite Hget in Hdef. rewrite Hdef. reflexivity.
Qed.

(** X22: seeding is idempotent. When [seed_data] succeeds, the site it
    leaves has an "admin" and no empty seeded table, and seeding that site
    again returns the same user and changes nothing. *)
Theorem seed_data_idempotent (password_hash : pystr -> pystr) (s s' : Site)
    (a : Usuario) :
  seed_data password_hash s = (Ok a, s') ->
  seeded s'
  /\ Usuario_get_or_none (py "admin") s' = Some a
  /\ seed_data password_hash s' = (Ok a, s').
Proof.
  intros Hrun.
  destruct (seed_data_trace password_hash s)
    as (a0 & s4 & Heq & _ & _ & Hget & _ & Hm & Hb & Hc & _).
  rewrite Heq in Hrun.
  destruct (ensure_pedidos_post s4)
    as (_ & Hsize & _ & _ & Hu5 & Hc5 & Hm5 & Hb5 & _).
  destruct (ensure_pedidos s4) as [[[]|e] s5]; [|discriminate Hrun].
  injection Hrun as <- <-. simpl in *.
  unfold same_usuarios, same_caixas, same_motoboys, same_bairros in *.
  assert (Hget' : Usuario_get_or_none (py "admin") s5 = Some a0)
    by (rewrite (Usuario_get_or_none_table _ s4 s5 Hu5); exact Hget).
  assert (Hs : seeded s5).
  { unfold seeded. rewrite Hget', Hm5, Hb5, Hc5.
    split; [eauto|]. split; [exact Hm|]. split; [exact Hb|].
    split; [exact Hc|]. apply Hsize. reflexivity. }
  split; [exact Hs|]. split; [exact Hget'|].
  apply seed_data_fixed; assumption.
Qed.

(** The site of the first start and the user it gets, for a digest
    function that is constant. *)
Example seed_data_first_start :
  let ph := fun _ : pystr => py "8c6976e5" in
  fst (seed_data ph (empty_site 0)) = Ok seed_admin
  /\ engine (snd (seed_data ph (empty_site 0))) = seed_db
  /\ usuario_table (snd (seed_data ph (empty_site 0))) = [seed_admin]
  /\ caixa_table (snd (seed_data ph (empty_site 0))) = [mkCaixa 1 true 0].
Proof. vm_compute. repeat split. Qed.

Lemma seed_data_idempotent_witness :
  let ph := fun _ : pystr => py "8c6976e5" in
  seed_data ph (snd (seed_data ph (empty_site 0)))
  = (Ok seed_admin, snd (seed_data ph (empty_site 0))).
Proof.
  apply (seed_data_idempotent (fun _ : pystr => py "8c6976e5") (empty_site 0)
           (snd (seed_data (fun _ : pystr => py "8c6976e5") (empty_site 0)))
           seed_admin).
  vm_compute. reflexivity.
Defined.

(** X23: [seed_data] fails in exactly one situation: there is no order,
    there are neighbourhoods, and none of them is named "Centro"; it then
    raises [DoesNotExist]. In every other situation it returns the user
    "admin": the first stored one with that login, or a new
    administrator when there is none. *)
Theorem seed_data_outcome (password_hash : pystr -> pystr) (s : Site) :
  let a := match Usuario_get_or_none (py "admin") s with
           | Some u => u
           | None => new_admin password_hash s
           end in
  login a = py "admin"
  /\ (fst (seed_data password_hash s) = Raise DoesNotExist
      <-> size (pedido_table (engine s)) = 0%nat
          /\ bairro_table (engine s) <> []
          /\ Bairro_get_or_none (py "Centro") (engine s) = None)
  /\ (fst (seed_data password_hash s) = Ok a
      \/ fst (seed_data password_hash s) = Raise DoesNotExist).
Proof.
  simpl.
  destruct (seed_data_trace password_hash s)
    as (a & s4 & -> & Hdef & Hlogin & _ & _ & _ & _ & _ & _ & Hbsame & Hcen & _
        & Hped & _).
  rewrite <- Hdef. split; [exact Hlogin|].
  destruct (ensure_pedidos_post s4) as (_ & _ & Hcases & Hfail & _).
  unfold same_pedidos, same_bairros in *.
  split.
  - rewrite <- Hped.
    assert (Hiff : fst (let (o, s5) := ensure_pedidos s4 in
                        match o with
                        | Ok _ => (Ok a, s5)
                        | Raise e => (Raise e, s5)
                        end) = Raise DoesNotExist
                   <-> fst (ensure_pedidos s4) = Raise DoesNotExist).
    { destruct (ensure_pedidos s4) as [[[]|e] s5]; simpl; split;
        intros H; try discriminate H; injection H as ->; reflexivity. }
    rewrite Hiff, Hfail. split.
    + intros [Hs Hnone]. split; [exact Hs|].
      destruct (bairro_table (engine s)) as [|b bt] eqn:Eb.
      * destruct (Hcen eq_refl) as [c Hc]. rewrite Hc in Hnone. discriminate Hnone.
      * split; [discriminate|].
        rewrite <- (Bairro_get_or_none_table _ (engine s) (engine s4)); [exact Hnone|].
        rewrite Eb. apply Hbsame. discriminate.
    + intros (Hs & Hne & Hnone). split; [exact Hs|].
      rewrite (Bairro_get_or_none_table _ (engine s) (engine s4)); [exact Hnone|].
      apply Hbsame. exact Hne.
  - destruct Hcases as [Hok | [Hraise _]];
      destruct (ensure_pedidos s4) as [[[]|e] s5]; simpl in *;
      try discriminate;
      [left; reflexivity|right; injection Hraise as ->; reflexivity].
Qed.

Example seed_data_without_centro :
  let s := mkSite [] [] (mkDatabase ∅ [] [mkBairro 7 (py "Jardim") 8%float] [] 0) in
  fst (seed_data (fun _ : pystr => py "8c6976e5") s) = Raise DoesNotExist
  /\ motoboy_table (engine (snd (seed_data (fun _ : pystr => py "8c6976e5") s)))
     = seed_motoboys.
Proof. vm_compute. split; reflexivity. Qed.

(** X24: seeding only fills what is empty and never writes the log,
    whether it succeeds or fails: stored users are kept in place (and no
    user is added when an "admin" exists), a table of couriers, of
    neighbourhoods, of cash registers or of orders that holds a row is
    left as it is, and an empty courier table receives Carlos, Renan and
    Maya, all active. *)
Theorem seed_data_keeps (password_hash : pystr -> pystr) (s : Site) :
  let s' := snd (seed_data password_hash s) in
  usuario_table s `prefix_of` usuario_table s'
  /\ (is_Some (Usuario_get_or_none (py "admin") s) ->
      usuario_table s' = usuario_table s)
  /\ (motoboy_table (engine s) <> [] ->
      motoboy_table (engine s') = motoboy_table (engine s))
  /\ (motoboy_table (engine s) = [] ->
      motoboy_table (engine s') = seed_motoboys)
  /\ (bairro_table (engine s) <> [] ->
      bairro_table (engine s') = bairro_table (engine s))
  /\ (caixa_table s <> [] -> caixa_table s' = caixa_table s)
  /\ (size (pedido_table (engine s)) <> 0%nat ->
      pedido_table (engine s') = pedido_table (engine s))
  /\ log_table (engine s') = log_table (engine s)
  /\ now (engine s') = now (engine s).
Proof.
  simpl.
  destruct (seed_data_trace password_hash s)
    as (a & s4 & -> & _ & _ & _ & Hpre & _ & _ & _ & Hm & Hb & _ & Hc & Hp & Hl
        & _ & Hu & Hseed).
  destruct (ensure_pedidos_post s4)
    as (Hrun & _ & _ & _ & Hu5 & Hc5 & Hm5 & Hb5 & Hl5).
  assert (E : snd (let (o, s5) := ensure_pedidos s4 in
                   match o with
                   | Ok _ => (Ok a, s5)
                   | Raise e => (Raise e, s5)
                   end) = snd (ensure_pedidos s4)).
  { destruct (ensure_pedidos s4) as [[[]|e] s5]; reflexivity. }
  rewrite E. clear E.
  unfold same_usuarios, same_caixas, same_motoboys, same_bairros, same_pedidos,
    same_log in *.
  destruct Hl as [L N]. destruct Hl5 as [L5 N5].
  rewrite Hu5, Hm5, Hb5, Hc5, L5, N5, L, N.
  split; [exact Hpre|]. split; [exact Hu|]. split; [exact Hm|].
  split; [exact Hseed|]. split; [exact Hb|]. split; [exact Hc|].
  split; [|split; reflexivity].
  intros Hsize. rewrite <- Hp in Hsize. rewrite (Hrun Hsize). exact Hp.
Qed.

(* --------------------------------------------------------------------- *)
(** *** An amount that is NaN *)
(* --------------------------------------------------------------------- *)


